(** * ml-pug: key-path accessors, per-replica utilities and basic callbacks

    A shallow embedding of

    - [mlpug/utils/utils.py]: [convert_to_dict], [get_value_at],
      [set_value_at], [has_key], [can_get_and_set_values], [is_chunkable];
    - [mlpug/tensorflow/distributed_utils.py]: [contains_per_replica_data],
      [unpack_per_replica_and_map], [pack_per_replica];
    - [mlpug/trainers/callbacks/basic.py]: [LogProgress], [BatchSizeLogger].

    Python objects are modelled by value.  The log tree is a tree: no
    container is reachable along two paths, so assignment through a
    reference to a nested container is modelled by rebuilding the
    enclosing containers around the updated one.  A raised exception
    leaves the effects that happened before it in place. *)

From Stdlib Require Import String Ascii List ZArith Lia Bool Floats DecimalString
  DecimalPos DecimalZ.
Import ListNotations.
Local Open Scope list_scope.
Local Open Scope string_scope.
Set Warnings "-register-all,-inexact-float".

(** ** Python values *)

(** The builtin values that occur in a log tree or in per-replica data.
    A [dict] keeps its insertion order; its keys are strings, as are the
    segments of every key path. *)
Inductive pyobj : Type :=
| VNone
| VBool (b : bool)
| VInt (z : Z)
| VFloat (f : float)
| VStr (s : string)
| VTuple (items : list pyobj)
| VList (items : list pyobj)
| VDict (entries : list (string * pyobj))
| VPerReplica (replicas : list pyobj).

Inductive exn : Type :=
| KeyError (key : string)
| TypeError
| IndexError
| AttributeError
| ZeroDivisionError
| OverflowError
| ValueError (msg : string)
| PyException (msg : string).

Inductive result (A : Type) : Type :=
| Ok (a : A)
| Raise (e : exn).
Arguments Ok {A} a.
Arguments Raise {A} e.

Definition rbind {A B} (r : result A) (k : A -> result B) : result B :=
  match r with
  | Ok a => k a
  | Raise e => Raise e
  end.

(** ** Effects

    [w_logs] is the run's log tree, the object every hook receives as
    [logs]; [w_stdout] is what was written to [sys.stdout]; [w_logger]
    collects the records handed to the [basics.logging] logger. *)
Record world : Type := mkWorld {
  w_logs : pyobj;
  w_stdout : list string;
  w_logger : list string
}.

Definition M (A : Type) : Type := world -> result A * world.

Definition ret {A} (a : A) : M A := fun w => (Ok a, w).

Definition bind {A B} (c : M A) (k : A -> M B) : M B :=
  fun w =>
    match c w with
    | (Ok a, w') => k a w'
    | (Raise e, w') => (Raise e, w')
    end.

Definition raise {A} (e : exn) : M A := fun w => (Raise e, w).

Definition lift {A} (r : result A) : M A := fun w => (r, w).

(** [try: c except Exception: h] *)
Definition try_except {A} (c : M A) (h : exn -> M A) : M A :=
  fun w =>
    match c w with
    | (Ok a, w') => (Ok a, w')
    | (Raise e, w') => h e w'
    end.

Declare Scope py_scope.
Delimit Scope py_scope with py.
Notation "x <- c ;; k" := (bind c (fun x => k))
  (at level 61, c at next level, right associativity) : py_scope.
Notation "c ;;; k" := (bind c (fun _ => k))
  (at level 61, right associativity) : py_scope.
Local Open Scope py_scope.

Definition when (b : bool) (c : M unit) : M unit :=
  if b then c else ret tt.

Definition logger_warn (msg : string) : M unit :=
  fun w => (Ok tt, mkWorld (w_logs w) (w_stdout w) (w_logger w ++ [msg])%list).

Definition read_logs : M pyobj := fun w => (Ok (w_logs w), w).

Definition store_logs (logs : pyobj) : M unit :=
  fun w => (Ok tt, mkWorld logs (w_stdout w) (w_logger w)).

(** ** Builtin operations used by the sources *)

(** [s.split(".")] *)
Fixpoint split_dot (s : string) : list string :=
  match s with
  | EmptyString => [EmptyString]
  | String c s' =>
      if Ascii.eqb c "."%char then EmptyString :: split_dot s'
      else match split_dot s' with
           | k :: ks => String c k :: ks
           | [] => [String c EmptyString]
           end
  end.

(** A key without a dot, as [split] produces them. *)
Definition no_dot (k : string) : Prop :=
  forall c, In c (list_ascii_of_string k) -> c <> "."%char.

(** ['.'.join(keys)] *)
Fixpoint join_dot (keys : list string) : string :=
  match keys with
  | [] => EmptyString
  | [k] => k
  | k :: rest => k ++ "." ++ join_dot rest
  end.

(** [key in s] for two strings: substring test. *)
Fixpoint is_substring (key s : string) : bool :=
  String.prefix key s ||
  match s with
  | EmptyString => false
  | String _ s' => is_substring key s'
  end.

Definition is_str (key : string) (v : pyobj) : bool :=
  match v with
  | VStr s => String.eqb s key
  | _ => false
  end.

Fixpoint dict_lookup (key : string) (d : list (string * pyobj)) : option pyobj :=
  match d with
  | [] => None
  | (k, v) :: rest => if String.eqb k key then Some v else dict_lookup key rest
  end.

(** [d[key] = v] on a dict: an existing key keeps its position, a new
    one goes last. *)
Fixpoint dict_update (key : string) (v : pyobj) (d : list (string * pyobj))
  : list (string * pyobj) :=
  match d with
  | [] => [(key, v)]
  | (k, x) :: rest =>
      if String.eqb k key then (k, v) :: rest
      else (k, x) :: dict_update key v rest
  end.

(** [hasattr(o, '__iter__')] *)
Definition has_iter (o : pyobj) : bool :=
  match o with
  | VStr _ | VTuple _ | VList _ | VDict _ => true
  | _ => false
  end.

(** [key in o] for a string [key]; evaluated only on an [o] that has
    [__iter__]. *)
Definition py_in (key : string) (o : pyobj) : bool :=
  match o with
  | VStr s => is_substring key s
  | VTuple items | VList items => existsb (is_str key) items
  | VDict d => match dict_lookup key d with Some _ => true | None => false end
  | _ => false
  end.

(** [o[key]] for a string [key]. *)
Definition py_getitem (o : pyobj) (key : string) : result pyobj :=
  match o with
  | VDict d =>
      match dict_lookup key d with
      | Some v => Ok v
      | None => Raise (KeyError key)
      end
  | _ => Raise TypeError
  end.

(** [o[key] = v] for a string [key]; the result is [o] after the
    assignment. *)
Definition py_setitem (o : pyobj) (key : string) (v : pyobj) : result pyobj :=
  match o with
  | VDict d => Ok (VDict (dict_update key v d))
  | _ => Raise TypeError
  end.

Definition is_none (v : pyobj) : bool :=
  match v with
  | VNone => true
  | _ => false
  end.

(** ** mlpug/utils/utils.py *)

Definition has_key (o : pyobj) (key : string) : bool :=
  has_iter o && py_in key o.

Definition can_get_and_set_values (o : pyobj) : bool :=
  negb (is_none o) &&
  match o with
  | VList _ | VDict _ => true
  | _ => false
  end.

(** The [for key in keys] loop of [get_value_at]; the result is the
    local [value] when the loop is left. *)
Fixpoint get_value_at_loop (key_path : string) (warn_on_failure : bool)
    (keys : list string) (value : pyobj) : M pyobj :=
  match keys with
  | [] => ret value
  | key :: keys' =>
      if has_key value key then
        value' <- lift (py_getitem value key) ;;
        get_value_at_loop key_path warn_on_failure keys' value'
      else
        when warn_on_failure
          (logger_warn ("Key path " ++ key_path ++ " not found in given data")) ;;;
        ret VNone
  end.

Definition get_value_at (key_path : string) (nested_data : pyobj)
    (default : pyobj) (warn_on_failure : bool) : M pyobj :=
  let keys := split_dot key_path in
  value <- get_value_at_loop key_path warn_on_failure keys nested_data ;;
  ret (if is_none value then default else value).

(** [f"{base_path}"] for the optional [base_path]. *)
Definition fmt_base_path (base_path : option string) : string :=
  match base_path with
  | None => "None"
  | Some p => p
  end.

(** The child container [nested_data[root_key]] is shared with its
    parent: what the recursive call did to it is seen through the
    parent.  Trees are values here, so a container has one place in the
    tree; what is stated below about other paths of a tree is stated for
    trees that hold no container at two places. *)
Definition with_child (nested_data : pyobj) (root_key : string) (child : pyobj)
  : pyobj :=
  match nested_data with
  | VDict d => VDict (dict_update root_key child d)
  | _ => nested_data
  end.

(** [set_value_at] on the list [keys = key_path.split(".")].  The source
    recurses on ['.'.join(keys[1:])], which splits back into [keys[1:]]
    ([set_value_at_unfold] below).  The result is [nested_data] after the
    call. *)
Fixpoint set_value_at_keys (keys : list string) (nested_data : pyobj)
    (value : pyobj) (warn_on_path_unavailable : bool)
    (base_path : option string) : M pyobj :=
  if negb (can_get_and_set_values nested_data) then
    raise (PyException ("Invalid path " ++ fmt_base_path base_path ++
             ", can't get or set keys for provided nested data variable"))
  else
    match keys with
    | [] => raise IndexError
    | [root_key] => lift (py_setitem nested_data root_key value)
    | root_key :: rest =>
        let base_path' :=
          match base_path with
          | None => root_key
          | Some b => b ++ "." ++ root_key
          end in
        nested_data1 <-
          (if negb (has_key nested_data root_key) then
             nd <- lift (py_setitem nested_data root_key (VDict [])) ;;
             when warn_on_path_unavailable
               (logger_warn ("Key path " ++ base_path' ++
                             " not available, creating path")) ;;;
             ret nd
           else ret nested_data) ;;
        child <- lift (py_getitem nested_data1 root_key) ;;
        child' <- set_value_at_keys rest child value
                    warn_on_path_unavailable (Some base_path') ;;
        ret (with_child nested_data1 root_key child')
    end.

Definition set_value_at (key_path : string) (nested_data : pyobj)
    (value : pyobj) (warn_on_path_unavailable : bool)
    (base_path : option string) : M pyobj :=
  set_value_at_keys (split_dot key_path) nested_data value
    warn_on_path_unavailable base_path.

(** ** mlpug/tensorflow/distributed_utils.py *)

(** [isinstance(data, DistributedValues)] *)
Definition is_distributed_values (data : pyobj) : bool :=
  match data with
  | VPerReplica _ => true
  | _ => false
  end.

Fixpoint contains_per_replica_data (data : pyobj) : bool :=
  match data with
  | VTuple items | VList items =>
      (0 <? length items)%nat &&
      match items with
      | first :: _ => contains_per_replica_data first
      | [] => false
      end
  | _ => is_distributed_values data
  end.

(** Iterating a value ([for x in v], [*v], [map(f, v)]). *)
Definition py_iter (v : pyobj) : result (list pyobj) :=
  match v with
  | VTuple items | VList items => Ok items
  | VStr s => Ok (map (fun c => VStr (String c EmptyString)) (list_ascii_of_string s))
  | VDict d => Ok (map (fun kv => VStr (fst kv)) d)
  | _ => Raise TypeError
  end.

Fixpoint rmapM {A B} (f : A -> result B) (l : list A) : result (list B) :=
  match l with
  | [] => Ok []
  | x :: l' =>
      rbind (f x) (fun y => rbind (rmapM f l') (fun ys => Ok (y :: ys)))
  end.

(** [tuple(map(f, items))]: the calls happen in order, an exception stops
    the iteration. *)
Fixpoint mapM {A B} (f : A -> M B) (l : list A) : M (list B) :=
  match l with
  | [] => ret []
  | x :: l' =>
      y <- f x ;;
      ys <- mapM f l' ;;
      ret (y :: ys)
  end.

(** The first element of every row, when no row is exhausted. *)
Fixpoint heads (rows : list (list pyobj)) : option (list pyobj) :=
  match rows with
  | [] => Some []
  | [] :: _ => None
  | (x :: _) :: rows' =>
      match heads rows' with
      | Some hs => Some (x :: hs)
      | None => None
      end
  end.

Fixpoint zip_from (first : list pyobj) (others : list (list pyobj))
  : list (list pyobj) :=
  match first with
  | [] => []
  | x :: first' =>
      match heads others with
      | Some hs => (x :: hs) :: zip_from first' (map (@tl pyobj) others)
      | None => []
      end
  end.

(** [zip] applied to the unpacked [rows]: stops at the shortest row; no
    row, no tuple. *)
Definition py_zip (rows : list (list pyobj)) : list (list pyobj) :=
  match rows with
  | [] => []
  | first :: others => zip_from first others
  end.

(** What the function uses of a [tf.distribute.Strategy]. *)
Record strategy : Type := mkStrategy {
  experimental_local_results : pyobj -> result pyobj
}.

Definition unpack_per_replica_and_map (map_func : pyobj -> M pyobj)
    (per_replica_data : pyobj) (distribution_strategy : option strategy)
    (unpacked_replica_data : pyobj) : M pyobj :=
  if is_none per_replica_data && is_none unpacked_replica_data then
    raise (ValueError
      "Provide per_replica_data (None) or unpacked_replica_data (None)")
  else if negb (is_none per_replica_data) &&
          negb (is_none unpacked_replica_data) then
    raise (ValueError
      "Either per_replica_data or unpacked_replica_data not both.")
  else
    unpacked_replica_data' <-
      (if negb (is_none per_replica_data) && is_none unpacked_replica_data then
         match distribution_strategy with
         | None =>
             raise (ValueError
               ("Please provide a distribution_strategy in order to " ++
                "unpack the provided per_replica_data"))
         | Some s => lift (experimental_local_results s per_replica_data)
         end
       else ret unpacked_replica_data) ;;
    items <- lift (py_iter unpacked_replica_data') ;;
    mapped <- mapM map_func items ;;
    ret (VTuple mapped).

Definition pack_per_replica (unpacked_replica_data : pyobj) : result pyobj :=
  rbind (py_iter unpacked_replica_data) (fun args =>
  rbind (rmapM py_iter args) (fun rows =>
  Ok (VTuple (map VPerReplica (py_zip rows))))).

(** *** The TensorFlow side of unpacking

    [Strategy.experimental_local_results] belongs to TensorFlow and is a
    field of [strategy] above.  One strategy is written out, to have an
    instance at hand: the extraction of a mirrored strategy over
    [num_replicas] local replicas, in which a [DistributedValues] yields
    the tuple of its per-replica components, a nested structure yields,
    for each local replica [i], the structure in which every
    [DistributedValues] leaf is replaced by its [i]-th component, and any
    other value [v] yields [(v,)].  Other strategies extract differently;
    what is stated for every strategy is stated over [strategy]. *)
Fixpoint select_replica (i : nat) (x : pyobj) {struct x} : result pyobj :=
  match x with
  | VPerReplica vs =>
      match nth_error vs i with
      | Some v => Ok v
      | None => Raise IndexError
      end
  | VTuple items =>
      rbind ((fix go (l : list pyobj) : result (list pyobj) :=
                match l with
                | [] => Ok []
                | y :: l' =>
                    rbind (select_replica i y) (fun y' =>
                    rbind (go l') (fun r => Ok (y' :: r)))
                end) items)
            (fun r => Ok (VTuple r))
  | VList items =>
      rbind ((fix go (l : list pyobj) : result (list pyobj) :=
                match l with
                | [] => Ok []
                | y :: l' =>
                    rbind (select_replica i y) (fun y' =>
                    rbind (go l') (fun r => Ok (y' :: r)))
                end) items)
            (fun r => Ok (VList r))
  | VDict d =>
      rbind ((fix go (l : list (string * pyobj))
                : result (list (string * pyobj)) :=
                match l with
                | [] => Ok []
                | (k, y) :: l' =>
                    rbind (select_replica i y) (fun y' =>
                    rbind (go l') (fun r => Ok ((k, y') :: r)))
                end) d)
            (fun r => Ok (VDict r))
  | _ => Ok x
  end.

Definition is_nested (v : pyobj) : bool :=
  match v with
  | VTuple _ | VList _ | VDict _ => true
  | _ => false
  end.

Definition tf_local_results (num_replicas : nat) (val : pyobj) : result pyobj :=
  match val with
  | VPerReplica vs => Ok (VTuple vs)
  | _ =>
      if is_nested val then
        rbind (rmapM (fun i => select_replica i val) (seq 0 num_replicas))
              (fun replica_values => Ok (VTuple replica_values))
      else Ok (VTuple [val])
  end.

Definition tf_strategy (num_replicas : nat) : strategy :=
  mkStrategy (tf_local_results num_replicas).

(** ** Strings and numbers of the callbacks *)

Definition nl : string := String (ascii_of_nat 10) EmptyString.
Definition tab : string := String (ascii_of_nat 9) EmptyString.

(** [s * n] *)
Fixpoint str_repeat (s : string) (n : nat) : string :=
  match n with
  | O => EmptyString
  | S n' => s ++ str_repeat s n'
  end.

(** [f"{s:<15}"]: left-aligned in a field of [width] characters. *)
Definition ljust (width : nat) (s : string) : string :=
  s ++ str_repeat " " (width - String.length s).

(** [sep.join(parts)] *)
Fixpoint str_join (sep : string) (parts : list string) : string :=
  match parts with
  | [] => EmptyString
  | [p] => p
  | p :: rest => p ++ sep ++ str_join sep rest
  end.

(** [bool(x)] *)
Definition truthy (x : pyobj) : bool :=
  match x with
  | VNone => false
  | VBool b => b
  | VInt z => negb (z =? 0)%Z
  | VFloat f => negb (PrimFloat.eqb f 0%float)
  | VStr s => negb (String.eqb s EmptyString)
  | VTuple items | VList items => (0 <? length items)%nat
  | VDict d => (0 <? length d)%nat
  | VPerReplica _ => true
  end.

(** Python's arithmetic, comparison and formatting builtins on numbers,
    and [datetime.timedelta]: the callbacks use them to build the
    progress text only, and they are left to the interpreter.
    [py_format spec x] is [format(x, spec)], what a replacement field
    [{:spec}] of [str.format] or of an f-string produces. *)
Class PyBuiltins : Type := {
  py_eq : pyobj -> pyobj -> bool;
  py_mod : pyobj -> pyobj -> result pyobj;
  py_add : pyobj -> pyobj -> result pyobj;
  py_sub : pyobj -> pyobj -> result pyobj;
  py_mul : pyobj -> pyobj -> result pyobj;
  py_gt : pyobj -> pyobj -> result pyobj;
  py_lt : pyobj -> pyobj -> result pyobj;
  py_abs : pyobj -> result pyobj;
  py_round : pyobj -> result pyobj;
  py_int : pyobj -> result pyobj;
  py_format : string -> pyobj -> result string;
  timedelta_str : pyobj -> result string
}.

(** Duck typing of a training batch: what [is_chunkable] and
    [BatchSizeLogger] ask of the batch and of its first component.
    [obj_has_len o] is [hasattr(o, "__len__") and callable(o.__len__)],
    likewise [obj_has_getitem]; [obj_len o] is [len(o)], [obj_getitem o i]
    is [o[i]] and [obj_size o d] is [o.size(d)]. *)
Class PyObject (B : Type) : Type := {
  obj_is_none : B -> bool;
  obj_is_tuple_or_list : B -> bool;
  obj_has_len : B -> bool;
  obj_has_getitem : B -> bool;
  obj_len : B -> result pyobj;
  obj_getitem : B -> pyobj -> result B;
  obj_size : B -> pyobj -> result pyobj
}.

(** [is_chunkable] of utils.py *)
Definition is_chunkable {B} `{PyObject B} (batch : B) : bool :=
  negb (obj_is_none batch) &&
  negb (obj_is_tuple_or_list batch) &&
  obj_has_len batch &&
  obj_has_getitem batch.

(** ** mlpug/trainers/callbacks/basic.py *)

Definition _write (text : string) : M unit :=
  fun w => (Ok tt, mkWorld (w_logs w) (w_stdout w ++ [text])%list (w_logger w)).

(** [_.log_exception(self._log, msg, e)] of the [basics] package, which is
    not among the sources.  What is taken from the call is that it hands
    the failure to the logger and comes back; the message stands for the
    record, whose actual text and number are the package's. *)
Definition log_exception (msg : string) (e : exn) : M unit :=
  logger_warn msg.

(** Modelled from the spec: [Callback._get_logs_base] (callback.py is not
    among the sources).  The data model defines the logs base as the
    [current] subtree of the log tree. *)
Definition _get_logs_base (logs : pyobj) : M pyobj :=
  lift (py_getitem logs "current").

(** The logs base is the container held by [logs]: an assignment inside
    it is an assignment inside the log tree. *)
Definition with_logs_base (logs : pyobj) (current : pyobj) : pyobj :=
  with_child logs "current" current.

Record LogProgress : Type := mkLogProgress {
  log_period : Z;
  set_names : list string;
  batch_level : bool;
  logs_base_path : string
}.

(** [LogProgress.__init__] *)
Definition LogProgress_init (log_period : Z) (set_names : option (list string))
    (batch_level : bool) (logs_base_path : string) : LogProgress :=
  mkLogProgress log_period
    (match set_names with
     | Some (n :: ns) => n :: ns
     | _ => ["training"]
     end)
    batch_level logs_base_path.

(** [self.metric_level_names[metric_level]] *)
Definition metric_level_names (metric_level : string) : result string :=
  if String.eqb metric_level "batch" then Ok "Batch"
  else if String.eqb metric_level "window_average" then Ok "Moving average"
  else if String.eqb metric_level "dataset" then Ok "Computed over dataset"
  else if String.eqb metric_level "epoch" then Ok "Epoch"
  else Raise (KeyError metric_level).

Definition skip_metric_names (metric : string) : bool :=
  String.eqb metric "auxiliary_results" || String.eqb metric "duration".

Section LogProgressHooks.
Context {py : PyBuiltins}.

Definition _get_log_format (value : pyobj) : result string :=
  rbind (py_abs value) (fun a =>
  rbind (py_lt a (VFloat 0.1%float)) (fun small =>
  if truthy small then Ok "{:<9s} {:.3e}" else Ok "{:<9s} {:>9.3f}")).

(** [log_format.format(metric, value)] for the two formats above. *)
Definition format_metric (log_format : string) (metric : string) (value : pyobj)
  : result string :=
  rbind (py_format (if String.eqb log_format "{:<9s} {:.3e}"
                    then ".3e" else ">9.3f") value)
        (fun v => Ok (ljust 9 metric ++ " " ++ v)).

(** The [else] branch of the loop of [_create_log_for]: one entry of
    [metric_value_logs]. *)
Definition metric_value_log (metric : string) (value : pyobj) : string :=
  match rbind (_get_log_format value)
              (fun log_format => format_metric log_format metric value) with
  | Ok s => s
  | Raise _ => "[UNKNOWN]"
  end.

Fixpoint _create_log_for (metrics : pyobj) (base_metric : option string)
    (log_depth : nat) {struct metrics} : result (option string) :=
  match metrics with
  | VDict entries =>
      let num_metrics :=
        length (filter (fun kv => negb (skip_metric_names (fst kv))) entries) in
      if (num_metrics <? 1)%nat then Ok None
      else
        let log := str_repeat nl (if (0 <? log_depth)%nat then 1 else 0)
                   ++ str_repeat tab log_depth in
        let log := match base_metric with
                   | Some b => log ++ ljust 15 b ++ ": "
                   | None => log
                   end in
        rbind
          ((fix loop (items : list (string * pyobj)) : result (list string) :=
              match items with
              | [] => Ok []
              | (metric, value) :: items' =>
                  if skip_metric_names metric then loop items'
                  else
                    rbind
                      (match value with
                       | VTuple [] => Raise IndexError
                       | VTuple ((VDict _ as first) :: _) =>
                           rbind (_create_log_for first (Some metric) (S log_depth))
                             (fun nested_logs =>
                                match nested_logs with
                                | Some n => Ok [nl ++ n]
                                | None => Ok []
                                end)
                       | VTuple (first :: _) => Ok [metric_value_log metric first]
                       | VDict _ =>
                           rbind (_create_log_for value (Some metric) (S log_depth))
                             (fun nested_logs =>
                                match nested_logs with
                                | Some n => Ok [nl ++ n]
                                | None => Ok []
                                end)
                       | _ => Ok [metric_value_log metric value]
                       end)
                      (fun logs_here =>
                         rbind (loop items') (fun more => Ok (logs_here ++ more)%list))
              end) entries)
          (fun metric_value_logs =>
             if (0 <? length metric_value_logs)%nat
             then Ok (Some (log ++ str_join ", " metric_value_logs))
             else Ok (Some log))
  | _ => Ok None
  end.

Definition _create_set_metrics_log_for (self : LogProgress) (set_name : string)
    (metric_level : string) : M (option string) :=
  logs <- read_logs ;;
  current <- _get_logs_base logs ;;
  let key_path := set_name ++ "." ++ metric_level in
  metrics <- get_value_at key_path current VNone false ;;
  lift (_create_log_for metrics None 0).

(** The loop of [_write_metric_logs]; [metrics_log] is the text gathered
    so far. *)
Fixpoint metrics_log_loop (self : LogProgress) (metric_level : string)
    (names : list string) (metrics_log : string) : M string :=
  match names with
  | [] => ret metrics_log
  | set_name :: names' =>
      set_metrics_log <- _create_set_metrics_log_for self set_name metric_level ;;
      match set_metrics_log with
      | None => metrics_log_loop self metric_level names' metrics_log
      | Some l =>
          metrics_log_loop self metric_level names'
            (metrics_log ++ ljust 15 set_name ++ ": " ++ l ++ "." ++ nl)
      end
  end.

Definition _write_metric_logs (self : LogProgress) (metric_level : string)
  : M unit :=
  metrics_log <- metrics_log_loop self metric_level (set_names self) "" ;;
  if (0 <? String.length metrics_log)%nat then
    name <- lift (metric_level_names metric_level) ;;
    _write (name ++ ":" ++ nl) ;;;
    _write metrics_log
  else ret tt.

Definition _calc_eta (self : LogProgress) : M string :=
  logs <- read_logs ;;
  current <- _get_logs_base logs ;;
  try_except
    (training_params <- lift (py_getitem current "training_params") ;;
     window_average <- lift (py_getitem training_params "window_average") ;;
     average_batch_duration <- lift (py_getitem window_average "duration") ;;
     positive <- lift (if truthy average_batch_duration
                       then rbind (py_gt average_batch_duration (VInt 0))
                                  (fun r => Ok (truthy r))
                       else Ok false) ;;
     if positive then
       batch_step <- lift (py_getitem current "batch_step") ;;
       final_batch_step <- lift (py_getitem logs "final_batch_step") ;;
       lift (rbind (py_sub final_batch_step batch_step) (fun d =>
             rbind (py_add d (VInt 1)) (fun num_batches_to_go =>
             rbind (py_mul average_batch_duration num_batches_to_go) (fun p =>
             rbind (py_round p) (fun r =>
             rbind (py_int r) (fun eta_seconds =>
             timedelta_str eta_seconds))))))
     else ret "[UNKNOWN]")
    (fun e =>
       log_exception "Unable to calculate epoch ETA" e ;;;
       ret "[UNKNOWN]").

Definition _get_average_batch_duration (self : LogProgress) : M string :=
  logs <- read_logs ;;
  current <- _get_logs_base logs ;;
  try_except
    (training_params <- lift (py_getitem current "training_params") ;;
     window_average <- lift (py_getitem training_params "window_average") ;;
     duration <- lift (py_getitem window_average "duration") ;;
     positive <- lift (if truthy duration
                       then rbind (py_gt duration (VFloat 0%float))
                                  (fun r => Ok (truthy r))
                       else Ok false) ;;
     if positive then
       lift (rbind (py_mul duration (VInt 1000)) (fun p =>
             rbind (py_int p) (fun duration' =>
             rbind (py_format "" duration') (fun s => Ok (s ++ "ms")))))
     else ret "[UNKNOWN]")
    (fun e =>
       log_exception "Unable to get average batch duration" e ;;;
       ret "[UNKNOWN]").

Definition _get_epoch_duration (self : LogProgress) : M string :=
  logs <- read_logs ;;
  current <- _get_logs_base logs ;;
  try_except
    (training_params <- lift (py_getitem current "training_params") ;;
     epoch <- lift (py_getitem training_params "epoch") ;;
     duration <- lift (py_getitem epoch "duration") ;;
     lift (rbind (py_round duration) (fun r =>
           rbind (py_int r) (fun epoch_duration =>
           timedelta_str epoch_duration))))
    (fun e =>
       log_exception "Unable to get epoch duration" e ;;;
       ret "[UNKNOWN]").

(** The loop over [self.set_names] of [on_batch_training_completed]. *)
Fixpoint dataset_metrics_loop (names : list string) (current : pyobj)
    (has_dataset_level_metrics : bool) : M bool :=
  match names with
  | [] => ret has_dataset_level_metrics
  | set_name :: names' =>
      dataset_metrics <- get_value_at (set_name ++ ".dataset") current VNone false ;;
      let has_dataset_level_metrics' :=
        has_dataset_level_metrics ||
        match dataset_metrics with
        | VDict d => (0 <? length d)%nat
        | _ => false
        end in
      if has_dataset_level_metrics' then ret has_dataset_level_metrics'
      else dataset_metrics_loop names' current has_dataset_level_metrics'
  end.

(** [for metric_level in levels: self._write_metric_logs(...); self._write('\n')] *)
Fixpoint write_levels (self : LogProgress) (levels : list string) : M unit :=
  match levels with
  | [] => ret tt
  | metric_level :: levels' =>
      _write_metric_logs self metric_level ;;;
      _write nl ;;;
      write_levels self levels'
  end.

Definition on_batch_training_completed {B : Type} (self : LogProgress)
    (training_batch : B) : M bool :=
  if negb (batch_level self) then ret true
  else
    let success := true in
    logs <- read_logs ;;
    current <- _get_logs_base logs ;;
    batch_step <- lift (py_getitem current "batch_step") ;;
    has_dataset_level_metrics <-
      dataset_metrics_loop (set_names self) current false ;;
    due <- lift (if py_eq batch_step (VInt 0) then Ok true
                 else rbind (py_mod batch_step (VInt (log_period self)))
                        (fun r => Ok (py_eq r (VInt 0) || has_dataset_level_metrics))) ;;
    (if due then
       eta <- _calc_eta self ;;
       average_duration <- _get_average_batch_duration self ;;
       epoch <- lift (py_getitem current "epoch") ;;
       final_epoch <- lift (py_getitem logs "final_epoch") ;;
       batch_step' <- lift (py_getitem current "batch_step") ;;
       final_batch_step <- lift (py_getitem logs "final_batch_step") ;;
       text <- lift (rbind (py_format "d" epoch) (fun e =>
                     rbind (py_format "d" final_epoch) (fun fe =>
                     rbind (py_format "d" batch_step') (fun b =>
                     rbind (py_format "d" final_batch_step) (fun fb =>
                     Ok (nl ++ "Epoch " ++ e ++ "/" ++ fe ++ " - ETA: " ++ eta ++
                         tab ++ "Batch " ++ b ++ "/" ++ fb ++
                         " Average batch training time " ++
                         average_duration ++ nl)))))) ;;
       _write text ;;;
       write_levels self ["batch"; "window_average"; "dataset"; "epoch"] ;;;
       _write nl
     else ret tt) ;;;
    ret success.

Definition on_epoch_completed (self : LogProgress) : M bool :=
  logs <- read_logs ;;
  current <- _get_logs_base logs ;;
  duration <- _get_epoch_duration self ;;
  _write nl ;;;
  _write "###############################################################################" ;;;
  _write nl ;;;
  epoch <- lift (py_getitem current "epoch") ;;
  final_epoch <- lift (py_getitem logs "final_epoch") ;;
  text <- lift (rbind (py_format "d" epoch) (fun e =>
                rbind (py_format "d" final_epoch) (fun fe =>
                Ok ("Epoch " ++ e ++ "/" ++ fe ++ tab ++ "READY - Duration " ++
                    duration ++ nl)))) ;;
  _write text ;;;
  let success := true in
  write_levels self ["window_average"; "dataset"; "epoch"] ;;;
  _write nl ;;;
  ret success.

End LogProgressHooks.

Record BatchSizeLogger : Type := mkBatchSizeLogger {
  _batch_dimension : Z
}.

Section BatchSizeLoggerHooks.
Context {B : Type} {batch_ops : PyObject B}.

(** The right-hand side of the assignment in [on_batch_training_start]. *)
Definition batch_sample_count (self : BatchSizeLogger) (training_batch : B)
  : result pyobj :=
  if is_chunkable training_batch then obj_len training_batch
  else rbind (obj_getitem training_batch (VInt 0))
             (fun first => obj_size first (VInt (_batch_dimension self))).

Definition on_batch_training_start (self : BatchSizeLogger) (training_batch : B)
  : M bool :=
  logs <- read_logs ;;
  current <- _get_logs_base logs ;;
  batch_size <- lift (batch_sample_count self training_batch) ;;
  training_params <- lift (py_getitem current "training_params") ;;
  batch <- lift (py_getitem training_params "batch") ;;
  batch' <- lift (py_setitem batch "batch_size" batch_size) ;;
  store_logs
    (with_logs_base logs
       (with_child current "training_params"
          (with_child training_params "batch" batch'))) ;;;
  ret true.

End BatchSizeLoggerHooks.

(** ** Interpretations of the interfaces

    The builtins on integer operands, as CPython computes them, and a
    batch as PyTorch hands it over: a tensor with a shape, or a tuple or
    list of batches.  Integer-valued log trees and such batches run
    through the hooks with these. *)

(** [str(z)] *)
Definition str_of_Z (z : Z) : string := NilZero.string_of_int (Z.to_int z).

Definition rjust (width : nat) (s : string) : string :=
  str_repeat " " (width - String.length s) ++ s.

Definition pad2 (z : Z) : string :=
  if (z <? 10)%Z then "0" ++ str_of_Z z else str_of_Z z.

(** The rational value of a finite float is [m * 2 ^ e]; an int is
    compared with it exactly. *)
Definition int_lt_float (a : Z) (f : float) : bool :=
  match Prim2SF f with
  | S754_zero _ => (a <? 0)%Z
  | S754_infinity s => negb s
  | S754_nan => false
  | S754_finite s m e =>
      let m' := if s then Z.neg m else Z.pos m in
      if (0 <=? e)%Z then (a <? m' * 2 ^ e)%Z else (a * 2 ^ (- e) <? m')%Z
  end.

Definition int_gt_float (a : Z) (f : float) : bool :=
  match Prim2SF f with
  | S754_zero _ => (0 <? a)%Z
  | S754_infinity s => s
  | S754_nan => false
  | S754_finite s m e =>
      let m' := if s then Z.neg m else Z.pos m in
      if (0 <=? e)%Z then (m' * 2 ^ e <? a)%Z else (m' <? a * 2 ^ (- e))%Z
  end.

(** [str(datetime.timedelta(seconds=n))] *)
Definition int_timedelta_str (n : Z) : result string :=
  let days := (n / 86400)%Z in
  let seconds := (n mod 86400)%Z in
  let mm := (seconds / 60)%Z in
  let ss := (seconds mod 60)%Z in
  let hh := (mm / 60)%Z in
  let mm := (mm mod 60)%Z in
  let s := str_of_Z hh ++ ":" ++ pad2 mm ++ ":" ++ pad2 ss in
  if (999999999 <? Z.abs days)%Z then Raise OverflowError
  else if (days =? 0)%Z then Ok s
  else Ok (str_of_Z days ++ " day" ++
           (if (Z.abs days =? 1)%Z then "" else "s") ++ ", " ++ s).

(** [format(z, ".3e")]: four significant digits, ties to even. *)
Definition int_format_3e (z : Z) : string :=
  let a := Z.abs z in
  let n := Z.of_nat (String.length (str_of_Z a)) in
  let k := (n - 4)%Z in
  let '(m, ex) :=
    if (k <=? 0)%Z then ((a * 10 ^ (- k))%Z, (n - 1)%Z)
    else
      let q := (a / 10 ^ k)%Z in
      let r := (a mod 10 ^ k)%Z in
      let half := (10 ^ k / 2)%Z in
      let q' := if (half <? r)%Z || ((r =? half)%Z && Z.odd q)
                then (q + 1)%Z else q in
      if (q' =? 10000)%Z then (1000%Z, n) else (q', (n - 1)%Z) in
  let digits := if (a =? 0)%Z then "0000" else str_of_Z m in
  (if (z <? 0)%Z then "-" else "") ++
  String.substring 0 1 digits ++ "." ++ String.substring 1 3 digits ++
  "e+" ++ pad2 (if (a =? 0)%Z then 0%Z else ex).

Definition int_format (spec : string) (x : pyobj) : result string :=
  match x with
  | VInt z =>
      if String.eqb spec "" || String.eqb spec "d" then Ok (str_of_Z z)
      else if String.eqb spec ">9.3f" then Ok (rjust 9 (str_of_Z z ++ ".000"))
      else if String.eqb spec ".3e" then Ok (int_format_3e z)
      else Raise (ValueError "Invalid format specifier")
  | VStr s =>
      if String.eqb spec "" then Ok s
      else Raise (ValueError "Unknown format code for object of type 'str'")
  | _ => Raise TypeError
  end.

Definition int_binop (op : Z -> Z -> result pyobj) (a b : pyobj) : result pyobj :=
  match a, b with
  | VInt x, VInt y => op x y
  | _, _ => Raise TypeError
  end.

Definition int_eq (a b : pyobj) : bool :=
  match a, b with
  | VInt x, VInt y => (x =? y)%Z
  | VStr x, VStr y => String.eqb x y
  | VNone, VNone => true
  | _, _ => false
  end.

Definition int_unop (a : pyobj) : result pyobj :=
  match a with
  | VInt x => Ok (VInt x)
  | _ => Raise TypeError
  end.

#[export] Instance int_builtins : PyBuiltins := {|
  py_eq := int_eq;
  py_mod := int_binop (fun x y =>
              if (y =? 0)%Z then Raise ZeroDivisionError else Ok (VInt (x mod y)));
  py_add := int_binop (fun x y => Ok (VInt (x + y)));
  py_sub := int_binop (fun x y => Ok (VInt (x - y)));
  py_mul := int_binop (fun x y => Ok (VInt (x * y)));
  py_gt := fun a b =>
             match a, b with
             | VInt x, VInt y => Ok (VBool (y <? x)%Z)
             | VInt x, VFloat f => Ok (VBool (int_gt_float x f))
             | _, _ => Raise TypeError
             end;
  py_lt := fun a b =>
             match a, b with
             | VInt x, VInt y => Ok (VBool (x <? y)%Z)
             | VInt x, VFloat f => Ok (VBool (int_lt_float x f))
             | _, _ => Raise TypeError
             end;
  py_abs := fun a =>
              match a with
              | VInt x => Ok (VInt (Z.abs x))
              | _ => Raise TypeError
              end;
  py_round := int_unop;
  py_int := int_unop;
  py_format := int_format;
  timedelta_str := fun a =>
                     match a with
                     | VInt n => int_timedelta_str n
                     | _ => Raise TypeError
                     end
|}.

Inductive torch_batch : Type :=
| TNone
| TTensor (shape : list Z)
| TTuple (items : list torch_batch)
| TList (items : list torch_batch).

(** A Python index into a sequence of length [len]: negative indices
    count from the end. *)
Definition norm_index (len : nat) (i : Z) : option nat :=
  let n := Z.of_nat len in
  if (0 <=? i)%Z && (i <? n)%Z then Some (Z.to_nat i)
  else if (- n <=? i)%Z && (i <? 0)%Z then Some (Z.to_nat (n + i))
  else None.

Definition torch_len (b : torch_batch) : result pyobj :=
  match b with
  | TNone => Raise TypeError
  | TTensor [] => Raise TypeError
  | TTensor (d :: _) => Ok (VInt d)
  | TTuple items | TList items => Ok (VInt (Z.of_nat (length items)))
  end.

Definition torch_getitem (b : torch_batch) (i : pyobj) : result torch_batch :=
  match b, i with
  | TTensor [], VInt _ => Raise IndexError
  | TTensor (d :: shape), VInt i =>
      match norm_index (Z.to_nat d) i with
      | Some _ => Ok (TTensor shape)
      | None => Raise IndexError
      end
  | TTuple items, VInt i | TList items, VInt i =>
      match norm_index (length items) i with
      | Some n =>
          match nth_error items n with
          | Some x => Ok x
          | None => Raise IndexError
          end
      | None => Raise IndexError
      end
  | _, _ => Raise TypeError
  end.

Definition torch_size (b : torch_batch) (dim : pyobj) : result pyobj :=
  match b, dim with
  | TTensor shape, VInt d =>
      match norm_index (length shape) d with
      | Some n =>
          match nth_error shape n with
          | Some x => Ok (VInt x)
          | None => Raise IndexError
          end
      | None => Raise IndexError
      end
  | TTensor _, _ => Raise TypeError
  | _, _ => Raise AttributeError
  end.

#[export] Instance torch_batch_object : PyObject torch_batch := {|
  obj_is_none := fun b => match b with TNone => true | _ => false end;
  obj_is_tuple_or_list :=
    fun b => match b with TTuple _ | TList _ => true | _ => false end;
  obj_has_len := fun b => match b with TNone => false | _ => true end;
  obj_has_getitem := fun b => match b with TNone => false | _ => true end;
  obj_len := torch_len;
  obj_getitem := torch_getitem;
  obj_size := torch_size
|}.

(** Resolution of a key path through mappings only: the value stored at
    the path, if every segment names an entry of a mapping. *)
Fixpoint stored_at (keys : list string) (tree : pyobj) : option pyobj :=
  match keys with
  | [] => Some tree
  | key :: keys' =>
      match tree with
      | VDict d =>
          match dict_lookup key d with
          | Some child => stored_at keys' child
          | None => None
          end
      | _ => None
      end
  end.

(** A segment of the path is absent from the mapping reached so far. *)
Fixpoint segment_absent (keys : list string) (tree : pyobj) : bool :=
  match keys, tree with
  | key :: keys', VDict d =>
      match dict_lookup key d with
      | Some child => segment_absent keys' child
      | None => true
      end
  | _, _ => false
  end.

(** The root and every value that exists along the path, the last
    segment excepted, are mappings. *)
Fixpoint mappings_along (keys : list string) (tree : pyobj) : bool :=
  match tree with
  | VDict d =>
      match keys with
      | [] | [_] => true
      | key :: keys' =>
          match dict_lookup key d with
          | Some child => mappings_along keys' child
          | None => true
          end
      end
  | _ => false
  end.

(** The path runs into a string, tuple or list that contains the next
    key: the one situation in which [has_key] holds and the value cannot
    be subscripted with the key. *)
Fixpoint runs_into_sequence (keys : list string) (tree : pyobj) : bool :=
  match keys with
  | [] => false
  | key :: keys' =>
      match tree with
      | VDict d =>
          match dict_lookup key d with
          | Some child => runs_into_sequence keys' child
          | None => false
          end
      | VStr _ | VTuple _ | VList _ => py_in key tree
      | _ => false
      end
  end.

(** Plain scalars. *)
Definition is_scalar (v : pyobj) : bool :=
  match v with
  | VNone | VBool _ | VInt _ | VFloat _ | VStr _ => true
  | _ => false
  end.

(** ** More of utils.py: [convert_to_dict] *)

(** [len(o)] *)
Definition py_len (o : pyobj) : result nat :=
  match o with
  | VTuple items | VList items => Ok (length items)
  | VStr s => Ok (String.length s)
  | VDict d => Ok (length d)
  | _ => Raise TypeError
  end.

(** [o[0]] *)
Definition py_first (o : pyobj) : result pyobj :=
  match o with
  | VTuple items | VList items =>
      match items with
      | first :: _ => Ok first
      | [] => Raise IndexError
      end
  | VStr s =>
      match s with
      | String c _ => Ok (VStr (String c EmptyString))
      | EmptyString => Raise IndexError
      end
  | VDict _ => Raise (KeyError "0")
  | _ => Raise TypeError
  end.

(** [f"{type}_{i}"] *)
Definition component_key (type : string) (i : nat) : string :=
  type ++ "_" ++ str_of_Z (Z.of_nat i).

(** The dict comprehension over [enumerate(components)]: the entries are
    stored one after the other, counting from [i]. *)
Fixpoint enumerate_into (type : string) (i : nat) (components : list pyobj)
    (d : list (string * pyobj)) : list (string * pyobj) :=
  match components with
  | [] => d
  | component :: rest =>
      enumerate_into type (S i) rest (dict_update (component_key type i) component d)
  end.

Section ConvertToDict.
(** [is_sequence] and [is_dict] of [basics.base_utils]. *)
Variables is_sequence is_dict : pyobj -> bool.

Definition convert_to_dict (type : string) (components : pyobj) : result pyobj :=
  if is_sequence components then
    rbind (py_len components) (fun n =>
    if (n =? 1)%nat then
      rbind (py_first components) (fun first => Ok (VDict [(type, first)]))
    else if (1 <? n)%nat then
      rbind (py_iter components) (fun items =>
        Ok (VDict (enumerate_into type 0 items [])))
    else Ok components)
  else if negb (is_dict components) then Ok (VDict [(type, components)])
  else Ok components.

End ConvertToDict.

(** [isinstance(o, (list, tuple))] and [isinstance(o, dict)]. *)
Definition is_list_or_tuple (o : pyobj) : bool :=
  match o with
  | VTuple _ | VList _ => true
  | _ => false
  end.

Definition is_dict_instance (o : pyobj) : bool :=
  match o with
  | VDict _ => true
  | _ => false
  end.

(** ** Notions used to state what the code does *)

(** Two key paths part ways: they agree up to some segment and both go on
    with different keys. *)
Fixpoint diverge (p q : list string) : bool :=
  match p, q with
  | a :: p', b :: q' => if String.eqb a b then diverge p' q' else true
  | _, _ => false
  end.

(** Every segment but the last names an entry of the mapping reached so
    far. *)
Fixpoint intermediates_exist (keys : list string) (tree : pyobj) : bool :=
  match keys with
  | [] | [_] => true
  | key :: keys' =>
      match tree with
      | VDict d =>
          match dict_lookup key d with
          | Some child => intermediates_exist keys' child
          | None => false
          end
      | _ => false
      end
  end.

(** The length of the shortest of [first :: others]. *)
Definition min_length (first : list pyobj) (others : list (list pyobj)) : nat :=
  fold_left (fun m row => Nat.min m (length row)) others (length first).

Definition iterable (v : pyobj) : bool :=
  match py_iter v with
  | Ok _ => true
  | Raise _ => false
  end.

(** A computation that has no effect on the world. *)
Definition silent {A} (c : M A) : Prop := forall w, snd (c w) = w.

(** The mapping has a metric that [_create_log_for] shows. *)
Definition displayable (metrics : pyobj) : bool :=
  match metrics with
  | VDict entries =>
      existsb (fun kv => negb (skip_metric_names (fst kv))) entries
  | _ => false
  end.

(** Among the metrics that [_create_log_for] visits there is an empty
    tuple. *)
Fixpoint shows_empty_tuple (metrics : pyobj) : bool :=
  match metrics with
  | VDict entries =>
      (fix any (items : list (string * pyobj)) : bool :=
         match items with
         | [] => false
         | (metric, value) :: items' =>
             if skip_metric_names metric then any items'
             else
               match value with
               | VTuple [] => true
               | VTuple ((VDict _ as first) :: _) => shows_empty_tuple first
               | VDict _ => shows_empty_tuple value
               | _ => false
               end || any items'
         end) entries
  | _ => false
  end.

(** The path under which [BatchSizeLogger] stores the sample count. *)
Definition batch_size_path : list string :=
  ["current"; "training_params"; "batch"; "batch_size"].

(** The base paths of the segments that [set_value_at] has to create on
    its way to the last segment, in the order in which it creates them. *)
Fixpoint created_paths (keys : list string) (tree : pyobj)
    (base_path : option string) : list string :=
  match keys with
  | [] | [_] => []
  | key :: keys' =>
      let base_path' :=
        match base_path with
        | None => key
        | Some b => b ++ "." ++ key
        end in
      match tree with
      | VDict d =>
          match dict_lookup key d with
          | Some child => created_paths keys' child (Some base_path')
          | None => base_path' :: created_paths keys' (VDict []) (Some base_path')
          end
      | _ => []
      end
  end.

(** The record that [set_value_at] hands to the logger for a created
    segment. *)
Definition creating_path_msg (base_path : string) : string :=
  "Key path " ++ base_path ++ " not available, creating path".

(** Induction on a value through the sequences and mappings it is made
    of. *)
Section PyobjInduction.
Variable P : pyobj -> Prop.
Hypothesis HNone : P VNone.
Hypothesis HBool : forall b, P (VBool b).
Hypothesis HInt : forall z, P (VInt z).
Hypothesis HFloat : forall f, P (VFloat f).
Hypothesis HStr : forall s, P (VStr s).
Hypothesis HTuple : forall items, Forall P items -> P (VTuple items).
Hypothesis HList : forall items, Forall P items -> P (VList items).
Hypothesis HDict :
  forall entries, Forall (fun kv => P (snd kv)) entries -> P (VDict entries).
Hypothesis HPerReplica : forall items, Forall P items -> P (VPerReplica items).

Fixpoint pyobj_nested_ind (v : pyobj) : P v :=
  let all :=
    fix all (l : list pyobj) : Forall P l :=
      match l with
      | [] => Forall_nil P
      | x :: l' => Forall_cons x (pyobj_nested_ind x) (all l')
      end in
  match v with
  | VNone => HNone
  | VBool b => HBool b
  | VInt z => HInt z
  | VFloat f => HFloat f
  | VStr s => HStr s
  | VTuple items => HTuple items (all items)
  | VList items => HList items (all items)
  | VDict entries =>
      HDict entries
        ((fix all_entries (l : list (string * pyobj))
            : Forall (fun kv => P (snd kv)) l :=
            match l with
            | [] => Forall_nil _
            | kv :: l' =>
                Forall_cons kv (pyobj_nested_ind (snd kv)) (all_entries l')
            end) entries)
  | VPerReplica items => HPerReplica items (all items)
  end.

End PyobjInduction.

(** What [_create_log_for] comes to on a value: it raises [IndexError]
    when it meets an empty tuple and returns otherwise. *)
Definition create_log_for_outcome {py : PyBuiltins} (v : pyobj) : Prop :=
  forall base_metric log_depth,
    (shows_empty_tuple v = true ->
     _create_log_for v base_metric log_depth = Raise IndexError) /\
    (shows_empty_tuple v = false ->
     exists log, _create_log_for v base_metric log_depth = Ok log).

(** A computation that leaves the log tree and the progress text as they
    are; it may hand records to the logger. *)
Definition quiet {A} (c : M A) : Prop :=
  forall w, w_logs (snd (c w)) = w_logs w /\ w_stdout (snd (c w)) = w_stdout w.

(** ** The strategy that unpacking asks for, and where a store stops *)

(** What [unpack_per_replica_and_map] asks of its strategy, the
    "strategy-specific extraction" that "flattens to per-device
    components": handed a tuple of per-replica composites over [n] local
    replicas, [experimental_local_results] gives the tuple of the [n]
    per-device tuples, device [i] receiving component [i] of every
    composite. *)
Definition flattens_to_per_device (s : strategy) (n : nat) : Prop :=
  forall cols : list (list pyobj),
    Forall (fun col => length col = n) cols ->
    experimental_local_results s (VTuple (map VPerReplica cols))
    = Ok (VTuple (map (fun i => VTuple (map (fun col => nth i col VNone) cols))
                      (seq 0 n))).

(** A strategy that wraps whatever it is given in a one-element tuple,
    as a one-device or default strategy does with a value that is not a
    per-replica composite. *)
Definition wrapping_strategy : strategy :=
  mkStrategy (fun val => Ok (VTuple [val])).

(** [base_path] as the recursion of [set_value_at] has it after going
    down the segments [prefix]. *)
Definition base_path_after (base_path : option string) (prefix : list string)
  : option string :=
  fold_left
    (fun bp root_key =>
       Some match bp with
            | None => root_key
            | Some b => b ++ "." ++ root_key
            end)
    prefix base_path.

(** The message of the exception that [set_value_at] raises. *)
Definition invalid_path_msg (base_path : option string) : string :=
  "Invalid path " ++ fmt_base_path base_path ++
  ", can't get or set keys for provided nested data variable".

(** ** Concrete inputs *)

Definition empty_world : world := mkWorld (VDict []) [] [].

(** [{"a": 5}] *)
Definition tree_with_leaf : pyobj := VDict [("a", VInt 5)].

(** [([1, 2-element device], [1-element device])]: the second device has
    one component less than the first. *)
Definition ragged_replicas : pyobj :=
  VTuple [VTuple [VInt 1; VInt 2]; VTuple [VInt 3]].

(** [[1, PerReplica((2, 3))]] *)
Definition composite_second : pyobj :=
  VList [VInt 1; VPerReplica [VInt 2; VInt 3]].

(** [x[i]] on a per-replica component tuple. *)
Definition nth_res (col : list pyobj) (i : nat) : result pyobj :=
  match nth_error col i with
  | Some v => Ok v
  | None => Raise IndexError
  end.

(** [{"current": {"training_params": {"batch": {}}}}] *)
Definition logs_with_batch_params : pyobj :=
  VDict [("current", VDict [("training_params", VDict [("batch", VDict [])])])].

(** A batch given as a tuple of two Python lists of scalars: its first
    component is a list, which has no [size]. *)
Definition batch_of_lists : torch_batch :=
  TTuple [TList [TTensor []; TTensor []]; TList [TTensor []; TTensor []]].

(** A batch given as a tuple of an input tensor of 32 samples with 10
    features and a target tensor of 32 labels. *)
Definition batch_of_tensors : torch_batch :=
  TTuple [TTensor [32; 10]%Z; TTensor [32]%Z].

(** The log tree in the middle of a run, with integer-valued metrics. *)
Definition running_logs : pyobj :=
  VDict [("final_epoch", VInt 10); ("final_batch_step", VInt 99);
         ("current", VDict [
            ("epoch", VInt 3); ("batch_step", VInt 40);
            ("training_params", VDict [
               ("batch", VDict [("batch_size", VInt 32)]);
               ("window_average", VDict [("duration", VInt 2)]);
               ("epoch", VDict [("duration", VInt 75)])]);
            ("training", VDict [
               ("batch", VDict [("loss", VInt 2)]);
               ("window_average", VDict [("loss", VInt 0); ("duration", VInt 2)])])])].

(** A computation that leaves the log tree as it is and only appends to
    the progress text. *)
Definition read_only {A} (c : M A) : Prop :=
  forall w,
    w_logs (snd (c w)) = w_logs w /\
    exists text, w_stdout (snd (c w)) = (w_stdout w ++ text)%list.

(** * Properties *)

(** ** The effect monad *)

Lemma bind_ok_inv {A B} (c : M A) (k : A -> M B) w b w' :
  bind c k w = (Ok b, w') ->
  exists a w1, c w = (Ok a, w1) /\ k a w1 = (Ok b, w').
Proof.
  unfold bind. destruct (c w) as [[a|e] w1]; intros H.
  - exists a, w1. split; [reflexivity | exact H].
  - discriminate H.
Qed.

Lemma lift_ok_inv {A} (r : result A) w a w' :
  lift r w = (Ok a, w') -> r = Ok a /\ w' = w.
Proof. unfold lift. intros H. inversion H. split; reflexivity. Qed.

(** ** Strings: [split] and [join] *)

Lemma split_dot_nonempty s : split_dot s <> [].
Proof.
  induction s as [|c s IH]; simpl.
  - discriminate.
  - destruct (Ascii.eqb c "."); [discriminate|].
    destruct (split_dot s); discriminate.
Qed.

Lemma split_dot_no_dot s : Forall no_dot (split_dot s).
Proof.
  induction s as [|c s IH]; simpl.
  - constructor; [|constructor]. intros c []. 
  - destruct (Ascii.eqb_spec c ".") as [->|Hc].
    + constructor; [|exact IH]. intros c' [].
    + destruct (split_dot s) as [|k ks].
      * constructor; [|constructor].
        intros c' [<-|[]]. exact Hc.
      * inversion IH as [|? ? Hk Hks]; subst.
        constructor; [|exact Hks].
        intros c' [<-|Hin]; [exact Hc | apply Hk, Hin].
Qed.

Lemma split_dot_single k : no_dot k -> split_dot k = [k].
Proof.
  induction k as [|c k IH]; intros Hk; simpl.
  - reflexivity.
  - destruct (Ascii.eqb_spec c ".") as [->|Hc].
    + exfalso. apply (Hk "."%char); [left; reflexivity | reflexivity].
    + rewrite IH; [reflexivity|].
      intros c' Hin. apply Hk. right. exact Hin.
Qed.

Lemma split_dot_app_dot k s :
  no_dot k -> split_dot (k ++ "." ++ s) = k :: split_dot s.
Proof.
  induction k as [|c k IH]; intros Hk; simpl.
  - reflexivity.
  - destruct (Ascii.eqb_spec c ".") as [->|Hc].
    + exfalso. apply (Hk "."%char); [left; reflexivity | reflexivity].
    + simpl in IH. rewrite IH; [reflexivity|].
      intros c' Hin. apply Hk. right. exact Hin.
Qed.

(** Splitting a joined list of dot-free keys gives the list back. *)
Lemma split_join_dot keys :
  keys <> [] -> Forall no_dot keys -> split_dot (join_dot keys) = keys.
Proof.
  induction keys as [|k keys IH]; intros Hne Hk; [congruence|].
  inversion Hk as [|? ? Hk1 Hk2]; subst.
  destruct keys as [|k' keys'].
  - simpl. apply split_dot_single, Hk1.
  - change (join_dot (k :: k' :: keys')) with (k ++ "." ++ join_dot (k' :: keys')).
    rewrite split_dot_app_dot by exact Hk1.
    rewrite IH; [reflexivity | discriminate | exact Hk2].
Qed.

(** The recursive call of [set_value_at] on ['.'.join(keys[1:])] sees
    the keys [keys[1:]]. *)
Lemma split_dot_tail key_path root_key rest :
  split_dot key_path = root_key :: rest -> rest <> [] ->
  split_dot (join_dot rest) = rest.
Proof.
  intros Hs Hne. apply split_join_dot; [exact Hne|].
  pose proof (split_dot_no_dot key_path) as H. rewrite Hs in H.
  inversion H; assumption.
Qed.

(** The source's recursion: [set_value_at] as it is written, with the
    recursive call on the joined tail of the key path. *)
Lemma set_value_at_unfold key_path nested_data value warn base_path :
  set_value_at key_path nested_data value warn base_path =
  if negb (can_get_and_set_values nested_data) then
    raise (PyException ("Invalid path " ++ fmt_base_path base_path ++
             ", can't get or set keys for provided nested data variable"))
  else
    let keys := split_dot key_path in
    let root_key := hd EmptyString keys in
    let is_final_key := (length keys =? 1)%nat in
    if negb is_final_key then
      let base_path' :=
        match base_path with
        | None => root_key
        | Some b => b ++ "." ++ root_key
        end in
      nested_data1 <-
        (if negb (has_key nested_data root_key) then
           nd <- lift (py_setitem nested_data root_key (VDict [])) ;;
           when warn
             (logger_warn ("Key path " ++ base_path' ++
                           " not available, creating path")) ;;;
           ret nd
         else ret nested_data) ;;
      child <- lift (py_getitem nested_data1 root_key) ;;
      child' <- set_value_at (join_dot (tl keys)) child value warn
                  (Some base_path') ;;
      ret (with_child nested_data1 root_key child')
    else lift (py_setitem nested_data root_key value).
Proof.
  unfold set_value_at.
  destruct (split_dot key_path) as [|root_key rest] eqn:Hs.
  - exfalso. exact (split_dot_nonempty _ Hs).
  - destruct rest as [|k2 rest'].
    + simpl. reflexivity.
    + cbn [set_value_at_keys hd tl length Nat.eqb negb].
      rewrite (split_dot_tail key_path root_key (k2 :: rest') Hs) by discriminate.
      reflexivity.
Qed.

(** ** Dictionaries *)

Lemma dict_lookup_update_same key v d :
  dict_lookup key (dict_update key v d) = Some v.
Proof.
  induction d as [|[k x] d IH]; simpl.
  - rewrite String.eqb_refl. reflexivity.
  - destruct (String.eqb k key) eqn:E; simpl; rewrite E; [reflexivity | exact IH].
Qed.

Lemma has_key_dict key d :
  has_key (VDict d) key =
  match dict_lookup key d with Some _ => true | None => false end.
Proof. reflexivity. Qed.

Lemma py_getitem_ok_inv o key v :
  py_getitem o key = Ok v -> exists d, o = VDict d /\ dict_lookup key d = Some v.
Proof.
  destruct o; simpl; try discriminate.
  destruct (dict_lookup key entries) eqn:E; [|discriminate].
  intros H. inversion H; subst. eexists; split; [reflexivity | exact E].
Qed.

Lemma py_setitem_ok_inv o key v o' :
  py_setitem o key v = Ok o' -> exists d, o = VDict d /\ o' = VDict (dict_update key v d).
Proof.
  destruct o; simpl; try discriminate.
  intros H. inversion H; subst. eexists; split; reflexivity.
Qed.

(** ** The accessors at work *)

Example split_dot_keeps_empty_segments :
  split_dot "a..b." = ["a"; ""; "b"; ""].
Proof. reflexivity. Qed.

Example set_value_at_creates_path :
  set_value_at "training.batch.loss" (VDict [("epoch", VInt 1)]) (VInt 2)
    true None empty_world
  = (Ok (VDict [("epoch", VInt 1);
                ("training", VDict [("batch", VDict [("loss", VInt 2)])])]),
     mkWorld (VDict []) []
       ["Key path training not available, creating path";
        "Key path training.batch not available, creating path"]).
Proof. reflexivity. Qed.

Example get_value_at_missing_warns :
  get_value_at "training.dataset" (VDict [("training", VDict [])]) (VInt 0)
    true empty_world
  = (Ok (VInt 0),
     mkWorld (VDict []) []
       ["Key path training.dataset not found in given data"]).
Proof. reflexivity. Qed.

Example get_value_at_into_scalar :
  get_value_at "epoch.loss" (VDict [("epoch", VInt 1)]) (VInt 0) false
    empty_world
  = (Ok (VInt 0), empty_world).
Proof. reflexivity. Qed.

Example set_value_at_list_root :
  set_value_at "a" (VList []) (VInt 1) false None empty_world
  = (Raise TypeError, empty_world).
Proof. reflexivity. Qed.

(** ** Key-path accessors *)

Lemma get_value_at_loop_present key_path warn key keys d child w :
  dict_lookup key d = Some child ->
  get_value_at_loop key_path warn (key :: keys) (VDict d) w =
  get_value_at_loop key_path warn keys child w.
Proof.
  intros H. cbn [get_value_at_loop]. rewrite has_key_dict, H.
  unfold bind, lift, py_getitem. rewrite H. reflexivity.
Qed.

Lemma get_value_at_loop_absent key_path warn key keys d w :
  dict_lookup key d = None ->
  fst (get_value_at_loop key_path warn (key :: keys) (VDict d) w) = Ok VNone.
Proof.
  intros H. cbn [get_value_at_loop]. rewrite has_key_dict, H.
  destruct warn; reflexivity.
Qed.

Lemma get_value_at_loop_stored key_path warn keys :
  forall tree v w,
    stored_at keys tree = Some v ->
    get_value_at_loop key_path warn keys tree w = (Ok v, w).
Proof.
  induction keys as [|key keys IH]; intros tree v w H; simpl in H.
  - inversion H; subst. reflexivity.
  - destruct tree; try discriminate.
    destruct (dict_lookup key entries) as [child|] eqn:E; [|discriminate].
    rewrite (get_value_at_loop_present _ _ _ _ _ _ _ E). apply IH, H.
Qed.

Lemma get_value_at_loop_segment_absent key_path warn keys :
  forall tree w,
    segment_absent keys tree = true ->
    fst (get_value_at_loop key_path warn keys tree w) = Ok VNone.
Proof.
  induction keys as [|key keys IH]; intros tree w H; simpl in H.
  - discriminate.
  - destruct tree; try discriminate.
    destruct (dict_lookup key entries) as [child|] eqn:E.
    + rewrite (get_value_at_loop_present _ _ _ _ _ _ _ E). apply IH, H.
    + apply get_value_at_loop_absent, E.
Qed.

(** What a successful [set_value_at] stored is found again by the loop
    of [get_value_at]. *)
Lemma get_value_at_loop_after_set key_path' warn' keys :
  keys <> [] ->
  forall tree v warn bp w tree' w1,
    set_value_at_keys keys tree v warn bp w = (Ok tree', w1) ->
    forall w2, get_value_at_loop key_path' warn' keys tree' w2 = (Ok v, w2).
Proof.
  induction keys as [|k keys IH]; [congruence|].
  intros _ tree v warn bp w tree' w1 H w2.
  cbn [set_value_at_keys] in H.
  destruct (can_get_and_set_values tree); cbn [negb] in H; [|discriminate H].
  destruct keys as [|k2 keys'].
  - apply lift_ok_inv in H as [H _].
    apply py_setitem_ok_inv in H as (d & -> & ->).
    rewrite (get_value_at_loop_present _ _ _ _ _ _ _ (dict_lookup_update_same k v d)).
    reflexivity.
  - apply bind_ok_inv in H as (nd1 & wa & _ & H).
    apply bind_ok_inv in H as (child & wb & H2 & H).
    apply bind_ok_inv in H as (child' & wc & H3 & H).
    apply lift_ok_inv in H2 as [H2 _].
    apply py_getitem_ok_inv in H2 as (d1 & -> & _).
    unfold ret in H. inversion H; subst. cbn [with_child].
    rewrite (get_value_at_loop_present _ _ _ _ _ _ _
               (dict_lookup_update_same k child' d1)).
    apply (IH ltac:(discriminate) _ _ _ _ _ _ _ H3).
Qed.

Lemma mappings_along_empty keys : mappings_along keys (VDict []) = true.
Proof. destruct keys as [|k [|k2 keys]]; reflexivity. Qed.

(** [set_value_at] completes on a tree whose values along the path are
    mappings, creating what is missing. *)
Lemma set_value_at_keys_succeeds keys :
  keys <> [] ->
  forall tree v warn bp w,
    mappings_along keys tree = true ->
    exists tree' w1, set_value_at_keys keys tree v warn bp w = (Ok tree', w1).
Proof.
  induction keys as [|k keys IH]; [congruence|].
  intros _ tree v warn bp w Hm.
  destruct tree; try discriminate Hm.
  cbn [set_value_at_keys can_get_and_set_values is_none negb andb].
  destruct keys as [|k2 keys'].
  - eexists _, _. reflexivity.
  - cbn [mappings_along] in Hm. rewrite has_key_dict.
    destruct (dict_lookup k entries) as [child|] eqn:E; cbn [negb].
    + destruct (IH ltac:(discriminate) child v warn
                  (Some match bp with None => k | Some b => b ++ "." ++ k end)
                  w Hm) as (child' & w1 & Hrec).
      exists (VDict (dict_update k child' entries)), w1.
      unfold bind at 1. unfold ret at 1.
      unfold bind at 1. unfold lift at 1. unfold py_getitem. rewrite E.
      unfold bind. rewrite Hrec. reflexivity.
    + set (bp' := match bp with None => k | Some b => b ++ "." ++ k end).
      set (w0 := snd (when warn (logger_warn ("Key path " ++ bp' ++
                        " not available, creating path")) w)).
      destruct (IH ltac:(discriminate) (VDict []) v warn (Some bp') w0
                  (mappings_along_empty _)) as (child' & w1 & Hrec).
      exists (VDict (dict_update k child' (dict_update k (VDict []) entries))), w1.
      subst w0.
      destruct warn; cbn [when logger_warn snd ret] in Hrec |- *;
        unfold bind, lift, ret, logger_warn; cbn [py_setitem py_getitem];
        rewrite dict_lookup_update_same;
        fold bp'; rewrite Hrec; reflexivity.
Qed.

(** When [get_value_at] raises: exactly when the path runs into a string,
    tuple or list that contains the next key. *)
Lemma get_value_at_raises_iff key_path nested_data default warn w :
  (runs_into_sequence (split_dot key_path) nested_data = true ->
   fst (get_value_at key_path nested_data default warn w) = Raise TypeError)
  /\ (runs_into_sequence (split_dot key_path) nested_data = false ->
      exists v, fst (get_value_at key_path nested_data default warn w) = Ok v).
Proof.
  unfold get_value_at, bind.
  generalize (split_dot key_path) as keys. intros keys. revert nested_data w.
  induction keys as [|key keys IH]; intros tree w.
  - split; [discriminate|]. intros _. eexists. reflexivity.
  - destruct tree; cbn [runs_into_sequence];
      try (split; [discriminate|]; intros _;
           cbn [get_value_at_loop has_key has_iter andb];
           destruct warn; eexists; reflexivity).
    + (* str *)
      cbn [get_value_at_loop has_key has_iter andb].
      destruct (py_in key (VStr s)); split; try discriminate; intros _;
        [reflexivity | destruct warn; eexists; reflexivity].
    + (* tuple *)
      cbn [get_value_at_loop has_key has_iter andb].
      destruct (py_in key (VTuple items)); split; try discriminate; intros _;
        [reflexivity | destruct warn; eexists; reflexivity].
    + (* list *)
      cbn [get_value_at_loop has_key has_iter andb].
      destruct (py_in key (VList items)); split; try discriminate; intros _;
        [reflexivity | destruct warn; eexists; reflexivity].
    + (* dict *)
      destruct (dict_lookup key entries) as [child|] eqn:E.
      * rewrite (get_value_at_loop_present _ _ _ _ _ _ _ E). apply IH.
      * split; [discriminate|]. intros _.
        cbn [get_value_at_loop]. rewrite has_key_dict, E.
        destruct warn; eexists; reflexivity.
Qed.

(** C1.  A value stored by [set_value_at] at a key path is what
    [get_value_at] returns for that path afterwards, for every tree on
    which the store completes; on an initially empty mapping it always
    completes, the missing intermediate mappings being created. *)
Theorem set_value_at_get_value_at_roundtrip :
  forall (key_path : string) (value : pyobj) (warn : bool) (w : world),
    (forall tree tree' w1,
        set_value_at key_path tree value warn None w = (Ok tree', w1) ->
        forall warn' w2,
          get_value_at key_path tree' VNone warn' w2 = (Ok value, w2))
    /\ (exists tree' w1,
        set_value_at key_path (VDict []) value warn None w = (Ok tree', w1)).
Proof.
  intros key_path value warn w. split.
  - intros tree tree' w1 H warn' w2. unfold set_value_at in H.
    unfold get_value_at, bind.
    rewrite (get_value_at_loop_after_set key_path warn' _
               (split_dot_nonempty key_path) _ _ _ _ _ _ _ H w2).
    unfold ret. destruct value; reflexivity.
  - unfold set_value_at.
    apply set_value_at_keys_succeeds;
      [apply split_dot_nonempty | apply mappings_along_empty].
Qed.

(** C3, at the failing input: the path runs into a string that has the
    next key as a substring, and the lookup raises. *)
Theorem get_value_at_raises_on_substring :
  forall default warn w,
    get_value_at "name.in" (VDict [("name", VStr "training")]) default warn w
    = (Raise TypeError, w).
Proof. intros default warn w. reflexivity. Qed.

(** C9.  A stored [None] is not told apart from a missing path: when the
    path resolves to the stored value [None], [get_value_at] returns the
    default, as it does when a segment is absent. *)
Theorem get_value_at_stored_none_is_default :
  forall (key_path : string) (tree default : pyobj) (warn : bool) (w : world),
    (stored_at (split_dot key_path) tree = Some VNone ->
     get_value_at key_path tree default warn w = (Ok default, w))
    /\ (segment_absent (split_dot key_path) tree = true ->
        fst (get_value_at key_path tree default warn w) = Ok default).
Proof.
  intros key_path tree default warn w. split; intros H.
  - unfold get_value_at, bind.
    rewrite (get_value_at_loop_stored key_path warn _ _ _ w H). reflexivity.
  - unfold get_value_at, bind.
    pose proof (get_value_at_loop_segment_absent key_path warn _ _ w H) as Hl.
    destruct (get_value_at_loop key_path warn (split_dot key_path) tree w)
      as [[v|e] w1]; simpl in Hl; inversion Hl; subst. reflexivity.
Qed.

(** C4, counterexample: the root supports item get and set, the value
    found at the first segment does not, and the call raises. *)
Lemma set_value_at_raises_below_capable_root :
  can_get_and_set_values tree_with_leaf = true /\
  set_value_at "a.b" tree_with_leaf (VInt 1) false None empty_world
  = (Raise (PyException
       "Invalid path a, can't get or set keys for provided nested data variable"),
     empty_world).
Proof. split; reflexivity. Qed.

(** One step of [set_value_at] below the last segment. *)
Lemma set_value_at_keys_step key key2 rest nested_data v warn bp :
  set_value_at_keys (key :: key2 :: rest) nested_data v warn bp =
  if negb (can_get_and_set_values nested_data) then
    raise (PyException ("Invalid path " ++ fmt_base_path bp ++
             ", can't get or set keys for provided nested data variable"))
  else
    let base_path' :=
      match bp with
      | None => key
      | Some b => b ++ "." ++ key
      end in
    nested_data1 <-
      (if negb (has_key nested_data key) then
         nd <- lift (py_setitem nested_data key (VDict [])) ;;
         when warn
           (logger_warn ("Key path " ++ base_path' ++
                         " not available, creating path")) ;;;
         ret nd
       else ret nested_data) ;;
    child <- lift (py_getitem nested_data1 key) ;;
    child' <- set_value_at_keys (key2 :: rest) child v warn (Some base_path') ;;
    ret (with_child nested_data1 key child').
Proof. reflexivity. Qed.

(** Below an existing prefix of the path that leads through mappings to a
    value without item get and set, the recursion stops at that value,
    before anything was stored or logged. *)
Lemma set_value_at_keys_invalid_below rest value warn :
  rest <> [] ->
  forall prefix tree reached bp w,
    stored_at prefix tree = Some reached ->
    can_get_and_set_values reached = false ->
    set_value_at_keys (prefix ++ rest)%list tree value warn bp w
    = (Raise (PyException (invalid_path_msg (base_path_after bp prefix))), w).
Proof.
  intros Hne. induction prefix as [|k prefix IH]; intros tree reached bp w Hs Hc.
  - simpl in Hs. inversion Hs; subst reached. cbn [app base_path_after fold_left].
    destruct rest as [|k2 rest']; cbn [set_value_at_keys]; rewrite Hc; reflexivity.
  - simpl in Hs. destruct tree; try discriminate Hs.
    destruct (dict_lookup k entries) as [child|] eqn:E; [|discriminate Hs].
    cbn [app]. specialize (IH child reached
      (Some match bp with None => k | Some b => b ++ "." ++ k end) w Hs Hc).
    remember (prefix ++ rest)%list as keys eqn:Ek.
    destruct keys as [|k2 keys'].
    { symmetry in Ek. apply app_eq_nil in Ek. destruct Ek as [_ Ek]. congruence. }
    rewrite set_value_at_keys_step. cbv zeta.
    cbn [can_get_and_set_values is_none negb andb].
    rewrite has_key_dict, E. cbn [negb].
    unfold bind at 1. unfold ret at 1.
    unfold bind at 1. unfold lift at 1. unfold py_getitem. rewrite E.
    unfold bind at 1. rewrite IH. reflexivity.
Qed.

(** C4, as amended.  When the root and every value that exists along the
    path are mappings, [set_value_at] completes whatever segments are
    missing, and the path leads to the stored value afterwards: the
    missing intermediate mappings have been created.  It raises
    [Invalid path], naming the dotted path gone so far, when the value it
    is applied to does not support item get and set: the root, or an
    existing value reached through mappings at any depth along the path.
    Nothing was stored or logged by then. *)
Theorem set_value_at_raises_on_non_container_only :
  forall (key_path : string) (value : pyobj) (warn : bool)
         (base_path : option string) (w : world),
    (forall tree,
        mappings_along (split_dot key_path) tree = true ->
        exists tree' w1,
          set_value_at key_path tree value warn base_path w = (Ok tree', w1) /\
          forall warn' w2,
            get_value_at key_path tree' VNone warn' w2 = (Ok value, w2))
    /\ (forall tree prefix rest reached,
        split_dot key_path = (prefix ++ rest)%list -> rest <> [] ->
        stored_at prefix tree = Some reached ->
        can_get_and_set_values reached = false ->
        set_value_at key_path tree value warn base_path w
        = (Raise (PyException
             (invalid_path_msg (base_path_after base_path prefix))), w)).
Proof.
  intros key_path value warn base_path w. split.
  - intros tree Hm. unfold set_value_at.
    destruct (set_value_at_keys_succeeds _ (split_dot_nonempty key_path)
                tree value warn base_path w Hm) as (tree' & w1 & H).
    exists tree', w1. split; [exact H|]. intros warn' w2.
    unfold get_value_at, bind.
    rewrite (get_value_at_loop_after_set key_path warn' _
               (split_dot_nonempty key_path) _ _ _ _ _ _ _ H w2).
    unfold ret. destruct value; reflexivity.
  - intros tree prefix rest reached Hs Hne Hst Hc. unfold set_value_at.
    rewrite Hs. apply (set_value_at_keys_invalid_below rest value warn Hne
                         prefix tree reached base_path w Hst Hc).
Qed.

Lemma set_value_at_raises_on_non_container_only_witness :
  (exists tree' w1,
      set_value_at "current.training.batch.loss"
        (VDict [("current", VDict [("epoch", VInt 0)])]) (VInt 2) true None
        empty_world = (Ok tree', w1) /\
      forall warn' w2,
        get_value_at "current.training.batch.loss" tree' VNone warn' w2
        = (Ok (VInt 2), w2))
  /\ set_value_at "current.epoch" (VInt 3) (VInt 2) true None empty_world
     = (Raise (PyException
          "Invalid path None, can't get or set keys for provided nested data variable"),
        empty_world)
  /\ set_value_at "a.b" tree_with_leaf (VInt 2) true (Some "logs") empty_world
     = (Raise (PyException
          "Invalid path logs.a, can't get or set keys for provided nested data variable"),
        empty_world)
  /\ set_value_at "a.b.c" (VDict [("a", VDict [("b", VInt 5)])]) (VInt 2) true
       None empty_world
     = (Raise (PyException
          "Invalid path a.b, can't get or set keys for provided nested data variable"),
        empty_world).
Proof.
  split; [|split; [|split]].
  - apply (proj1 (set_value_at_raises_on_non_container_only
                    "current.training.batch.loss" (VInt 2) true None empty_world)).
    reflexivity.
  - apply (proj2 (set_value_at_raises_on_non_container_only
                    "current.epoch" (VInt 2) true None empty_world)
             (VInt 3) [] ["current"; "epoch"] (VInt 3)).
    + reflexivity.
    + discriminate.
    + reflexivity.
    + reflexivity.
  - apply (proj2 (set_value_at_raises_on_non_container_only
                    "a.b" (VInt 2) true (Some "logs") empty_world)
             tree_with_leaf ["a"] ["b"] (VInt 5)).
    + reflexivity.
    + discriminate.
    + reflexivity.
    + reflexivity.
  - apply (proj2 (set_value_at_raises_on_non_container_only
                    "a.b.c" (VInt 2) true None empty_world)
             (VDict [("a", VDict [("b", VInt 5)])]) ["a"; "b"] ["c"] (VInt 5)).
    + reflexivity.
    + discriminate.
    + reflexivity.
    + reflexivity.
Defined.

(** A list on the path is outside both cases: it supports item get and
    set, and is not a mapping. *)
Example set_value_at_on_a_list :
  can_get_and_set_values (VList []) = true /\
  mappings_along ["a"; "b"] (VList []) = false /\
  set_value_at "a.b" (VList []) (VInt 1) false None empty_world
  = (Raise TypeError, empty_world).
Proof. repeat split. Qed.

Lemma set_value_at_get_value_at_roundtrip_witness :
  get_value_at "current.training.batch.loss"
    (VDict [("current", VDict [("epoch", VInt 0);
       ("training", VDict [("batch", VDict [("loss", VInt 2)])])])])
    VNone true empty_world = (Ok (VInt 2), empty_world).
Proof.
  apply (proj1 (set_value_at_get_value_at_roundtrip
                  "current.training.batch.loss" (VInt 2) true empty_world)
           (VDict [("current", VDict [("epoch", VInt 0)])]) _
           (mkWorld (VDict []) []
              ["Key path current.training not available, creating path";
               "Key path current.training.batch not available, creating path"])).
  reflexivity.
Defined.

Lemma get_value_at_stored_none_is_default_witness :
  get_value_at "current.best" (VDict [("current", VDict [("best", VNone)])])
    (VInt 7) true empty_world = (Ok (VInt 7), empty_world)
  /\ fst (get_value_at "current.worst"
            (VDict [("current", VDict [("best", VNone)])])
            (VInt 7) true empty_world) = Ok (VInt 7).
Proof.
  split.
  - apply (proj1 (get_value_at_stored_none_is_default "current.best"
                    (VDict [("current", VDict [("best", VNone)])])
                    (VInt 7) true empty_world)).
    reflexivity.
  - apply (proj2 (get_value_at_stored_none_is_default "current.worst"
                    (VDict [("current", VDict [("best", VNone)])])
                    (VInt 7) true empty_world)).
    reflexivity.
Defined.

(** ** Per-replica data *)

(** C5.  [unpack_per_replica_and_map] takes exactly one of its two input
    forms: given both, and given neither, it raises [ValueError] and
    leaves the world as it was. *)
Theorem unpack_requires_exactly_one_form :
  forall (map_func : pyobj -> M pyobj) (distribution_strategy : option strategy)
         (per_replica_data unpacked_replica_data : pyobj) (w : world),
    (is_none per_replica_data = false ->
     is_none unpacked_replica_data = false ->
     unpack_per_replica_and_map map_func per_replica_data
       distribution_strategy unpacked_replica_data w
     = (Raise (ValueError
          "Either per_replica_data or unpacked_replica_data not both."), w))
    /\ unpack_per_replica_and_map map_func VNone distribution_strategy VNone w
       = (Raise (ValueError
            "Provide per_replica_data (None) or unpacked_replica_data (None)"), w).
Proof.
  intros map_func strat prd urd w. split.
  - intros Hp Hu. unfold unpack_per_replica_and_map. rewrite Hp, Hu. reflexivity.
  - reflexivity.
Qed.

Lemma unpack_requires_exactly_one_form_witness :
  unpack_per_replica_and_map ret (VTuple [VPerReplica [VInt 1; VInt 2]])
    (Some (tf_strategy 2)) (VTuple [VTuple [VInt 1]; VTuple [VInt 2]]) empty_world
  = (Raise (ValueError
       "Either per_replica_data or unpacked_replica_data not both."), empty_world).
Proof.
  apply (proj1 (unpack_requires_exactly_one_form ret (Some (tf_strategy 2))
                  (VTuple [VPerReplica [VInt 1; VInt 2]])
                  (VTuple [VTuple [VInt 1]; VTuple [VInt 2]]) empty_world));
    reflexivity.
Defined.

(** C10.  The packed form without a distribution strategy raises
    [ValueError] before [map_func] is called: whatever [map_func] does,
    the world is unchanged.  The unpacked form never consults the
    strategy: it is iterated and mapped the same with any strategy or
    none. *)
Theorem unpack_packed_form_needs_strategy :
  forall (map_func : pyobj -> M pyobj) (data : pyobj) (w : world),
    is_none data = false ->
    unpack_per_replica_and_map map_func data None VNone w
    = (Raise (ValueError
         ("Please provide a distribution_strategy in order to " ++
          "unpack the provided per_replica_data")), w)
    /\ forall distribution_strategy,
        unpack_per_replica_and_map map_func VNone distribution_strategy data w
        = (items <- lift (py_iter data) ;;
           mapped <- mapM map_func items ;;
           ret (VTuple mapped)) w.
Proof.
  intros map_func data w Hd. unfold unpack_per_replica_and_map. split.
  - rewrite Hd. reflexivity.
  - intros strat. rewrite Hd. reflexivity.
Qed.

Lemma unpack_packed_form_needs_strategy_witness :
  unpack_per_replica_and_map (fun x => logger_warn "mapped" ;;; ret x)
    (VTuple [VPerReplica [VInt 1; VInt 2]]) None VNone empty_world
  = (Raise (ValueError
       ("Please provide a distribution_strategy in order to " ++
        "unpack the provided per_replica_data")), empty_world).
Proof.
  apply (proj1 (unpack_packed_form_needs_strategy
                  (fun x => logger_warn "mapped" ;;; ret x)
                  (VTuple [VPerReplica [VInt 1; VInt 2]]) empty_world
                  eq_refl)).
Defined.

(** C6, counterexample: a per-replica composite that is not the first
    element of its list is not seen. *)
Lemma contains_per_replica_data_misses_second :
  contains_per_replica_data composite_second = false.
Proof. reflexivity. Qed.

(** C6, as amended.  [contains_per_replica_data] is false on a plain
    scalar and true on a per-replica composite; on a list or tuple it is
    false when the sequence is empty and otherwise what it is on the
    first element, the other elements not being looked at. *)
Theorem contains_per_replica_data_first_element :
  (forall v, is_scalar v = true -> contains_per_replica_data v = false)
  /\ (forall replicas, contains_per_replica_data (VPerReplica replicas) = true)
  /\ contains_per_replica_data (VTuple []) = false
  /\ contains_per_replica_data (VList []) = false
  /\ (forall first rest,
        contains_per_replica_data (VTuple (first :: rest))
        = contains_per_replica_data first
        /\ contains_per_replica_data (VList (first :: rest))
           = contains_per_replica_data first).
Proof.
  repeat split.
  - intros v Hv. destruct v; try discriminate Hv; reflexivity.
Qed.

Lemma contains_per_replica_data_first_element_witness :
  contains_per_replica_data (VFloat 0.5%float) = false.
Proof.
  apply (proj1 contains_per_replica_data_first_element (VFloat 0.5%float)).
  reflexivity.
Defined.

(** *** Packing and unpacking *)

Lemma rmapM_py_iter_tuples rows : rmapM py_iter (map VTuple rows) = Ok rows.
Proof.
  induction rows as [|row rows IH]; simpl; [reflexivity|].
  rewrite IH. reflexivity.
Qed.

Lemma mapM_ret {A} (items : list A) w : mapM ret items w = (Ok items, w).
Proof.
  induction items as [|x items IH]; simpl; [reflexivity|].
  unfold bind at 1. unfold ret at 1. unfold bind at 1. rewrite IH. reflexivity.
Qed.

(** Every row being non-empty, [heads] gives the first elements. *)
Lemma heads_of_nonempty m rows :
  Forall (fun row => length row = S m) rows ->
  exists hs,
    heads rows = Some hs /\
    forall i row, nth_error rows i = Some row ->
                  exists y, nth_error hs i = Some y /\ row = y :: tl row.
Proof.
  induction rows as [|r rows IH]; intros H.
  - exists []. split; [reflexivity|]. intros [|i] row Hn; discriminate Hn.
  - inversion H as [|? ? Hr Hrows]; subst.
    destruct (IH Hrows) as (hs & Hh & Hnth).
    destruct r as [|y r']; [discriminate Hr|].
    exists (y :: hs). split.
    + simpl. rewrite Hh. reflexivity.
    + intros [|i] row Hn; simpl in Hn.
      * inversion Hn; subst. exists y. split; reflexivity.
      * apply Hnth, Hn.
Qed.

(** Reading component [i] off every column of the zipped rows gives row
    [i] back, when all rows have the length of the first. *)
Lemma zip_from_select first :
  forall others i row,
    Forall (fun r => length r = length first) others ->
    nth_error (first :: others) i = Some row ->
    rmapM (fun col => nth_res col i) (zip_from first others) = Ok row.
Proof.
  induction first as [|x first' IH]; intros others i row Hlen Hn.
  - simpl. f_equal.
    assert (Hrow : length row = 0%nat).
    { destruct i as [|i]; simpl in Hn.
      - inversion Hn; reflexivity.
      - apply nth_error_In in Hn. rewrite Forall_forall in Hlen.
        apply Hlen, Hn. }
    destruct row; [reflexivity | discriminate Hrow].
  - cbn [zip_from].
    destruct (heads_of_nonempty (length first') others Hlen) as (hs & Hh & Hnth).
    rewrite Hh. cbn [rmapM].
    assert (Htl : Forall (fun r => length r = length first') (map (@tl pyobj) others)).
    { rewrite Forall_forall in *. intros r Hin.
      apply in_map_iff in Hin as (r0 & <- & Hin0).
      specialize (Hlen _ Hin0). destruct r0; [discriminate Hlen|].
      simpl in *. lia. }
    destruct i as [|i]; simpl in Hn.
    + inversion Hn; subst row.
      unfold nth_res at 1. simpl.
      rewrite (IH (map (@tl pyobj) others) 0%nat first' Htl eq_refl). reflexivity.
    + destruct (Hnth i row Hn) as (y & Hy & Hrow).
      unfold nth_res at 1. simpl. rewrite Hy. simpl.
      rewrite (IH (map (@tl pyobj) others) (S i) (tl row) Htl).
      * simpl. rewrite <- Hrow. reflexivity.
      * simpl. rewrite nth_error_map, Hn. reflexivity.
Qed.

Lemma py_zip_select rows k i row :
  Forall (fun r => length r = k) rows ->
  nth_error rows i = Some row ->
  rmapM (fun col => nth_res col i) (py_zip rows) = Ok row.
Proof.
  intros Hlen Hn. destruct rows as [|first others].
  - destruct i; discriminate Hn.
  - simpl. inversion Hlen as [|? ? Hf Ho]; subst.
    apply zip_from_select; assumption.
Qed.

(** TensorFlow's selection of replica [i] in a tuple of per-replica
    composites reads component [i] of each. *)
Lemma select_replica_tuple_of_per_replica i cols :
  select_replica i (VTuple (map VPerReplica cols))
  = rbind (rmapM (fun col => nth_res col i) cols) (fun r => Ok (VTuple r)).
Proof.
  cbn [select_replica]. f_equal.
  induction cols as [|col cols IH]; simpl; [reflexivity|].
  rewrite IH. reflexivity.
Qed.

Lemma heads_length rows hs : heads rows = Some hs -> length hs = length rows.
Proof.
  revert hs. induction rows as [|r rows IH]; intros hs H; simpl in H.
  - inversion H. reflexivity.
  - destruct r as [|x r]; [discriminate H|].
    destruct (heads rows) as [hs'|]; [|discriminate H].
    inversion H. simpl. rewrite (IH hs' eq_refl). reflexivity.
Qed.

Lemma heads_some_nonempty rows hs :
  heads rows = Some hs -> Forall (fun r => r <> []) rows.
Proof.
  revert hs. induction rows as [|r rows IH]; intros hs H; [constructor|].
  simpl in H. destruct r as [|x r]; [discriminate H|].
  destruct (heads rows) as [hs'|] eqn:E; [|discriminate H].
  constructor; [discriminate | apply (IH hs' eq_refl)].
Qed.

Lemma heads_none_empty_row rows : heads rows = None -> In [] rows.
Proof.
  induction rows as [|r rows IH]; intros H; simpl in H; [discriminate H|].
  destruct r as [|x r]; [left; reflexivity|].
  destruct (heads rows); [discriminate H|]. right. apply IH. reflexivity.
Qed.

Lemma fold_min_zero (rows : list (list pyobj)) :
  fold_left (fun m row => Nat.min m (length row)) rows 0%nat = 0%nat.
Proof. induction rows as [|r rows IH]; simpl; [reflexivity | exact IH]. Qed.

Lemma fold_min_empty_row (rows : list (list pyobj)) :
  In [] rows ->
  forall m, fold_left (fun m row => Nat.min m (length row)) rows m = 0%nat.
Proof.
  induction rows as [|r rows IH]; intros Hin m; [destruct Hin|].
  simpl. destruct Hin as [-> | Hin].
  - simpl. rewrite Nat.min_0_r. apply fold_min_zero.
  - apply IH, Hin.
Qed.

Lemma fold_min_tails (rows : list (list pyobj)) :
  Forall (fun r => r <> []) rows ->
  forall m,
    fold_left (fun m row => Nat.min m (length row)) rows (S m)
    = S (fold_left (fun m row => Nat.min m (length row)) (map (@tl pyobj) rows) m).
Proof.
  induction rows as [|r rows IH]; intros Hne m; [reflexivity|].
  inversion Hne as [|? ? Hr Hrows]; subst.
  destruct r as [|x r]; [congruence|].
  simpl. apply (IH Hrows).
Qed.

Lemma zip_from_shape first :
  forall others,
    Forall (fun col => length col = S (length others)) (zip_from first others) /\
    length (zip_from first others) = min_length first others.
Proof.
  unfold min_length.
  induction first as [|x first IH]; intros others; cbn [zip_from].
  - split; [constructor|]. simpl. symmetry. apply fold_min_zero.
  - destruct (heads others) as [hs|] eqn:E.
    + destruct (IH (map (@tl pyobj) others)) as [Hs Hl]. split.
      * constructor.
        -- simpl. rewrite (heads_length _ _ E). reflexivity.
        -- rewrite length_map in Hs. exact Hs.
      * cbn [length]. rewrite Hl.
        rewrite (fold_min_tails others (heads_some_nonempty _ _ E)). reflexivity.
    + split; [constructor|]. simpl. symmetry.
      apply fold_min_empty_row, heads_none_empty_row, E.
Qed.

(** The columns that [zip] makes have one component per row. *)
Lemma py_zip_columns rows :
  Forall (fun col => length col = length rows) (py_zip rows).
Proof.
  destruct rows as [|first others]; [constructor|].
  apply (proj1 (zip_from_shape first others)).
Qed.

Lemma rmapM_nth_res cols i r :
  rmapM (fun col => nth_res col i) cols = Ok r ->
  map (fun col => nth i col VNone) cols = r.
Proof.
  revert r. induction cols as [|col cols IH]; intros r H; simpl in H.
  - inversion H. reflexivity.
  - unfold nth_res at 1 in H.
    destruct (nth_error col i) as [v|] eqn:E; [|discriminate H]. simpl in H.
    destruct (rmapM (fun col => nth_res col i) cols) as [r'|e]; [|discriminate H].
    simpl in H. inversion H; subst r. simpl.
    rewrite (nth_error_nth _ _ VNone E), (IH r' eq_refl). reflexivity.
Qed.

Lemma rmapM_nth_res_in_range n cols i :
  Forall (fun col => length col = n) cols -> (i < n)%nat ->
  rmapM (fun col => nth_res col i) cols
  = Ok (map (fun col => nth i col VNone) cols).
Proof.
  intros Hc Hi. induction Hc as [|col cols Hcol _ IH]; [reflexivity|].
  simpl. unfold nth_res at 1.
  rewrite (nth_error_nth' col VNone) by lia. simpl. rewrite IH. reflexivity.
Qed.

Lemma rmapM_ok_map {A B} (f : A -> result B) (g : A -> B) (l : list A) :
  (forall x, In x l -> f x = Ok (g x)) -> rmapM f l = Ok (map g l).
Proof.
  induction l as [|x l IH]; intros H; simpl; [reflexivity|].
  rewrite (H x (or_introl eq_refl)). simpl.
  rewrite IH; [reflexivity|]. intros y Hy. apply H. right. exact Hy.
Qed.

Lemma map_seq_rows {A B} (f : nat -> B) (g : A -> B) (l : list A) :
  forall start,
    (forall i x, nth_error l i = Some x -> f (start + i)%nat = g x) ->
    map f (seq start (length l)) = map g l.
Proof.
  induction l as [|x l IH]; intros start H; simpl; [reflexivity|].
  rewrite <- (Nat.add_0_r start) at 1. rewrite (H 0%nat x eq_refl).
  rewrite (IH (S start)); [reflexivity|].
  intros i y Hn. rewrite <- (H (S i) y Hn). f_equal. lia.
Qed.

(** The mirrored extraction over [n] local replicas flattens to per-device
    components. *)
Lemma tf_strategy_flattens n : flattens_to_per_device (tf_strategy n) n.
Proof.
  intros cols Hc. cbn [tf_strategy experimental_local_results].
  unfold tf_local_results. cbn [is_nested].
  rewrite (rmapM_ok_map _
             (fun i => VTuple (map (fun col => nth i col VNone) cols)));
    [reflexivity|].
  intros i Hin. apply in_seq in Hin.
  rewrite select_replica_tuple_of_per_replica.
  rewrite (rmapM_nth_res_in_range n cols i Hc) by lia. reflexivity.
Qed.

(** C2, counterexample: the second device has fewer components than the
    first; [zip] stops at the shorter one and the component that has no
    counterpart is lost.  The packed value is the one of the truncated
    data, and every strategy that flattens it to per-device components,
    the mirrored one among them, gives the truncated data back. *)
Lemma pack_unpack_truncates_ragged :
  exists packed unpacked,
    pack_per_replica ragged_replicas = Ok packed /\
    unpack_per_replica_and_map ret packed (Some (tf_strategy 2)) VNone empty_world
    = (Ok unpacked, empty_world) /\
    unpacked <> ragged_replicas /\
    pack_per_replica (VTuple [VTuple [VInt 1]; VTuple [VInt 3]]) = Ok packed /\
    (forall s : strategy,
        flattens_to_per_device s 2 ->
        unpack_per_replica_and_map ret packed (Some s) VNone empty_world
        = (Ok unpacked, empty_world)).
Proof.
  exists (VTuple [VPerReplica [VInt 1; VInt 3]]),
         (VTuple [VTuple [VInt 1]; VTuple [VInt 3]]).
  split; [reflexivity|]. split; [reflexivity|]. split; [discriminate|].
  split; [reflexivity|].
  intros s Hs. unfold unpack_per_replica_and_map. cbn [is_none negb andb].
  assert (H : experimental_local_results s (VTuple [VPerReplica [VInt 1; VInt 3]])
              = Ok (VTuple [VTuple [VInt 1]; VTuple [VInt 3]])).
  { apply (Hs [[VInt 1; VInt 3]]). repeat constructor. }
  rewrite H. reflexivity.
Qed.

(** C2, as amended.  For a tuple of per-device tuples that all have the
    same number of components, on one device or more, packing with
    [pack_per_replica] and unpacking the result with the identity map
    gives the tuple of per-device tuples back, under every strategy whose
    [experimental_local_results] flattens a tuple of per-replica
    composites to the per-device tuples of their components, one tuple
    for each of as many local replicas as there are devices. *)
Theorem pack_then_unpack_identity :
  forall (s : strategy) (rows : list (list pyobj)) (k : nat) (w : world),
    (1 <= length rows)%nat ->
    Forall (fun row => length row = k) rows ->
    flattens_to_per_device s (length rows) ->
    exists packed,
      pack_per_replica (VTuple (map VTuple rows)) = Ok packed /\
      unpack_per_replica_and_map ret packed (Some s) VNone w
      = (Ok (VTuple (map VTuple rows)), w).
Proof.
  intros s rows k w Hn Hlen Hs.
  exists (VTuple (map VPerReplica (py_zip rows))). split.
  - unfold pack_per_replica. cbn [py_iter rbind].
    rewrite rmapM_py_iter_tuples. reflexivity.
  - unfold unpack_per_replica_and_map. cbn [is_none negb andb].
    rewrite (Hs (py_zip rows) (py_zip_columns rows)).
    rewrite (map_seq_rows _ VTuple rows 0).
    + unfold bind at 1. unfold lift at 1.
      unfold bind at 1. unfold lift at 1. cbn [py_iter].
      unfold bind at 1. rewrite mapM_ret. reflexivity.
    + intros i row Hrow. cbn [Nat.add]. f_equal.
      apply rmapM_nth_res, (py_zip_select rows k i row Hlen Hrow).
Qed.

Lemma pack_then_unpack_identity_witness :
  exists packed,
    pack_per_replica
      (VTuple (map VTuple [[VInt 1; VInt 2]; [VInt 3; VInt 4]; [VInt 5; VInt 6]]))
    = Ok packed /\
    unpack_per_replica_and_map ret packed (Some (tf_strategy 3)) VNone empty_world
    = (Ok (VTuple (map VTuple
             [[VInt 1; VInt 2]; [VInt 3; VInt 4]; [VInt 5; VInt 6]])),
       empty_world).
Proof.
  apply (pack_then_unpack_identity (tf_strategy 3)
           [[VInt 1; VInt 2]; [VInt 3; VInt 4]; [VInt 5; VInt 6]] 2 empty_world).
  - simpl. lia.
  - repeat constructor.
  - apply tf_strategy_flattens.
Defined.

(** Why the strategy matters: one that wraps what it is given hands the
    packed value itself to the map, on one device already. *)
Example unpack_under_wrapping_strategy :
  exists packed,
    pack_per_replica (VTuple [VTuple [VInt 1; VInt 2]]) = Ok packed /\
    unpack_per_replica_and_map ret packed (Some wrapping_strategy) VNone
      empty_world
    = (Ok (VTuple [packed]), empty_world) /\
    VTuple [packed] <> VTuple [VTuple [VInt 1; VInt 2]].
Proof.
  exists (VTuple [VPerReplica [VInt 1]; VPerReplica [VInt 2]]).
  split; [reflexivity|]. split; [reflexivity | discriminate].
Qed.

(** ** Callbacks: what a hook does to the world *)

Lemma read_only_ret {A} (a : A) : read_only (ret a).
Proof. intros w. split; [reflexivity|]. exists []. symmetry. apply app_nil_r. Qed.

Lemma read_only_lift {A} (r : result A) : read_only (lift r).
Proof. intros w. split; [reflexivity|]. exists []. symmetry. apply app_nil_r. Qed.

Lemma read_only_raise {A} (e : exn) : read_only (@raise A e).
Proof. intros w. split; [reflexivity|]. exists []. symmetry. apply app_nil_r. Qed.

Lemma read_only_read_logs : read_only read_logs.
Proof. intros w. split; [reflexivity|]. exists []. symmetry. apply app_nil_r. Qed.

Lemma read_only_logger_warn msg : read_only (logger_warn msg).
Proof. intros w. split; [reflexivity|]. exists []. symmetry. apply app_nil_r. Qed.

Lemma read_only_log_exception msg e : read_only (log_exception msg e).
Proof. apply read_only_logger_warn. Qed.

Lemma read_only_write text : read_only (_write text).
Proof. intros w. split; [reflexivity|]. exists [text]. reflexivity. Qed.

Lemma read_only_bind {A B} (c : M A) (k : A -> M B) :
  read_only c -> (forall a, read_only (k a)) -> read_only (bind c k).
Proof.
  intros Hc Hk w. unfold bind.
  destruct (Hc w) as (Hl & t1 & Ht1).
  destruct (c w) as [[a|e] w1]; simpl in *.
  - destruct (Hk a w1) as (Hl2 & t2 & Ht2). split.
    + rewrite Hl2. exact Hl.
    + exists (t1 ++ t2)%list. rewrite Ht2, Ht1. symmetry. apply app_assoc.
  - split; [exact Hl|]. exists t1. exact Ht1.
Qed.

Lemma read_only_try_except {A} (c : M A) (h : exn -> M A) :
  read_only c -> (forall e, read_only (h e)) -> read_only (try_except c h).
Proof.
  intros Hc Hh w. unfold try_except.
  destruct (Hc w) as (Hl & t1 & Ht1).
  destruct (c w) as [[a|e] w1]; simpl in *.
  - split; [exact Hl|]. exists t1. exact Ht1.
  - destruct (Hh e w1) as (Hl2 & t2 & Ht2). split.
    + rewrite Hl2. exact Hl.
    + exists (t1 ++ t2)%list. rewrite Ht2, Ht1. symmetry. apply app_assoc.
Qed.

Lemma read_only_when b (c : M unit) : read_only c -> read_only (when b c).
Proof. intros Hc. destruct b; [exact Hc | apply read_only_ret]. Qed.

Create HintDb frame.
#[export] Hint Resolve read_only_ret read_only_lift read_only_raise
  read_only_read_logs read_only_logger_warn read_only_log_exception
  read_only_write read_only_when : frame.

(** One step through the structure of a computation. *)
Ltac frame_step :=
  match goal with
  | |- read_only (bind _ _) => apply read_only_bind; [|intro]
  | |- read_only (try_except _ _) => apply read_only_try_except; [|intro]
  | |- read_only (if ?b then _ else _) => destruct b
  | |- read_only (match ?x with _ => _ end) => destruct x
  | |- read_only _ => solve [auto with frame]
  end.
Ltac frame := repeat frame_step.

Lemma read_only_get_value_at_loop key_path warn keys :
  forall value, read_only (get_value_at_loop key_path warn keys value).
Proof.
  induction keys as [|key keys IH]; intros value; cbn [get_value_at_loop]; frame.
Qed.

Lemma read_only_get_value_at key_path nested_data default warn :
  read_only (get_value_at key_path nested_data default warn).
Proof.
  unfold get_value_at. frame; apply read_only_get_value_at_loop.
Qed.

Lemma read_only_get_logs_base logs : read_only (_get_logs_base logs).
Proof. unfold _get_logs_base. frame. Qed.

#[export] Hint Resolve read_only_get_value_at read_only_get_logs_base : frame.

Section LogProgressFrame.
Context {py : PyBuiltins}.

Lemma read_only_create_set_metrics_log_for self set_name metric_level :
  read_only (_create_set_metrics_log_for self set_name metric_level).
Proof. unfold _create_set_metrics_log_for. frame. Qed.

Lemma read_only_metrics_log_loop self metric_level names :
  forall metrics_log,
    read_only (metrics_log_loop self metric_level names metrics_log).
Proof.
  induction names as [|set_name names IH]; intros metrics_log;
    cbn [metrics_log_loop]; frame;
    solve [apply read_only_create_set_metrics_log_for | apply IH].
Qed.

Lemma read_only_write_metric_logs self metric_level :
  read_only (_write_metric_logs self metric_level).
Proof.
  unfold _write_metric_logs. frame; apply read_only_metrics_log_loop.
Qed.

Lemma read_only_calc_eta self : read_only (_calc_eta self).
Proof. unfold _calc_eta. frame. Qed.

Lemma read_only_get_average_batch_duration self :
  read_only (_get_average_batch_duration self).
Proof. unfold _get_average_batch_duration. frame. Qed.

Lemma read_only_get_epoch_duration self : read_only (_get_epoch_duration self).
Proof. unfold _get_epoch_duration. frame. Qed.

Lemma read_only_dataset_metrics_loop names current :
  forall has, read_only (dataset_metrics_loop names current has).
Proof.
  induction names as [|set_name names IH]; intros has;
    cbn [dataset_metrics_loop]; frame; apply IH.
Qed.

Lemma read_only_write_levels self levels : read_only (write_levels self levels).
Proof.
  induction levels as [|metric_level levels IH]; cbn [write_levels]; frame;
    solve [apply read_only_write_metric_logs | apply IH].
Qed.

Lemma read_only_on_batch_training_completed {B} self (training_batch : B) :
  read_only (on_batch_training_completed self training_batch).
Proof.
  unfold on_batch_training_completed. frame;
    solve [ apply read_only_dataset_metrics_loop
          | apply read_only_calc_eta
          | apply read_only_get_average_batch_duration
          | apply read_only_write_levels ].
Qed.

Lemma read_only_on_epoch_completed self : read_only (on_epoch_completed self).
Proof.
  unfold on_epoch_completed. frame;
    solve [ apply read_only_get_epoch_duration | apply read_only_write_levels ].
Qed.

(** C7.  [LogProgress] only reads the log tree: whenever
    [on_batch_training_completed] or [on_epoch_completed] returns, the
    log tree is what it was before the call, and what was on the
    progress text stream is still there, followed by what the hook
    wrote. *)
Theorem LogProgress_leaves_logs_unchanged :
  forall (B : Type) (self : LogProgress) (training_batch : B)
         (w w' : world) (success : bool),
    (on_batch_training_completed self training_batch w = (Ok success, w') ->
     w_logs w' = w_logs w /\
     exists text, w_stdout w' = (w_stdout w ++ text)%list)
    /\ (on_epoch_completed self w = (Ok success, w') ->
        w_logs w' = w_logs w /\
        exists text, w_stdout w' = (w_stdout w ++ text)%list).
Proof.
  intros B self training_batch w w' success. split; intros H.
  - pose proof (read_only_on_batch_training_completed self training_batch w) as R.
    rewrite H in R. exact R.
  - pose proof (read_only_on_epoch_completed self w) as R.
    rewrite H in R. exact R.
Qed.

End LogProgressFrame.

Lemma LogProgress_leaves_logs_unchanged_witness :
  (w_logs (snd (on_batch_training_completed
                  (LogProgress_init 20 (Some ["training"; "validation"]) true "current")
                  batch_of_tensors (mkWorld running_logs [] [])))
   = running_logs /\
   exists text,
     w_stdout (snd (on_batch_training_completed
                  (LogProgress_init 20 (Some ["training"; "validation"]) true "current")
                  batch_of_tensors (mkWorld running_logs [] [])))
     = ([] ++ text)%list)
  /\ (w_logs (snd (on_epoch_completed
                     (LogProgress_init 20 None true "current")
                     (mkWorld running_logs [] [])))
      = running_logs /\
      exists text,
        w_stdout (snd (on_epoch_completed
                     (LogProgress_init 20 None true "current")
                     (mkWorld running_logs [] [])))
        = ([] ++ text)%list).
Proof.
  split.
  - apply (proj1 (@LogProgress_leaves_logs_unchanged int_builtins torch_batch
                    (LogProgress_init 20 (Some ["training"; "validation"]) true "current")
                    batch_of_tensors (mkWorld running_logs [] []) _ true)).
    vm_compute. reflexivity.
  - apply (proj2 (@LogProgress_leaves_logs_unchanged int_builtins torch_batch
                    (LogProgress_init 20 None true "current")
                    batch_of_tensors (mkWorld running_logs [] []) _ true)).
    vm_compute. reflexivity.
Defined.

Example on_epoch_completed_text :
  w_stdout (snd (on_epoch_completed (LogProgress_init 20 None true "current")
                   (mkWorld running_logs [] [])))
  = [nl;
     "###############################################################################";
     nl;
     "Epoch 3/10" ++ tab ++ "READY - Duration 0:01:15" ++ nl;
     "Moving average:" ++ nl;
     "training       : loss      0.000e+00." ++ nl;
     nl; nl; nl; nl].
Proof. vm_compute. reflexivity. Qed.

Example on_batch_training_completed_not_due :
  on_batch_training_completed (LogProgress_init 7 None true "current")
    batch_of_tensors (mkWorld running_logs [] [])
  = (Ok true, mkWorld running_logs [] []).
Proof. vm_compute. reflexivity. Qed.

Example on_batch_training_completed_without_current :
  on_batch_training_completed (LogProgress_init 7 None true "current")
    batch_of_tensors empty_world
  = (Raise (KeyError "current"), empty_world).
Proof. vm_compute. reflexivity. Qed.

(** ** BatchSizeLogger *)

(** C8, counterexample: the batch is a tuple of lists, so it is not
    chunkable, and its first component has no [size]; the hook raises
    and records nothing. *)
Lemma BatchSizeLogger_raises_on_tuple_of_lists :
  is_chunkable batch_of_lists = false /\
  on_batch_training_start (mkBatchSizeLogger 1) batch_of_lists
    (mkWorld logs_with_batch_params [] [])
  = (Raise AttributeError, mkWorld logs_with_batch_params [] []).
Proof. split; reflexivity. Qed.

Section BatchSizeLoggerFacts.
Context {B : Type} {batch_ops : PyObject B}.

(** C8, as amended.  When the log tree holds a mapping at
    [current.training_params.batch] and the sample count of the batch
    can be taken, [on_batch_training_start] stores that count at
    [current.training_params.batch.batch_size] and returns [True],
    writing nothing else: the count is [len(batch)] for a chunkable
    batch, and otherwise the size of the configured batch dimension of
    the first component of the batch. *)
Theorem BatchSizeLogger_records_batch_size :
  forall (self : BatchSizeLogger) (training_batch : B) (w : world)
         (batch : list (string * pyobj)) (n : pyobj),
    stored_at ["current"; "training_params"; "batch"] (w_logs w)
    = Some (VDict batch) ->
    batch_sample_count self training_batch = Ok n ->
    exists w',
      on_batch_training_start self training_batch w = (Ok true, w') /\
      stored_at ["current"; "training_params"; "batch"; "batch_size"] (w_logs w')
      = Some n /\
      w_stdout w' = w_stdout w /\
      w_logger w' = w_logger w /\
      (is_chunkable training_batch = true -> obj_len training_batch = Ok n) /\
      (is_chunkable training_batch = false ->
       exists first,
         obj_getitem training_batch (VInt 0) = Ok first /\
         obj_size first (VInt (_batch_dimension self)) = Ok n).
Proof.
  intros self training_batch [logs out lg] batch n Hs Hn.
  cbn [w_logs w_stdout w_logger] in *.
  cbn [stored_at] in Hs.
  destruct logs as [| | | | | | |dl|]; try discriminate Hs.
  destruct (dict_lookup "current" dl) as [current|] eqn:E1; [|discriminate Hs].
  destruct current as [| | | | | | |dc|]; try discriminate Hs.
  destruct (dict_lookup "training_params" dc) as [tp|] eqn:E2; [|discriminate Hs].
  destruct tp as [| | | | | | |dt|]; try discriminate Hs.
  destruct (dict_lookup "batch" dt) as [b|] eqn:E3; [|discriminate Hs].
  inversion Hs; subst b.
  eexists. split; [|split; [|split; [|split; [|split]]]].
  - unfold on_batch_training_start, bind, read_logs, _get_logs_base, lift, ret,
      store_logs. cbn [w_logs w_stdout w_logger py_getitem py_setitem].
    rewrite E1, Hn. cbn [py_getitem]. rewrite E2. cbn [py_getitem]. rewrite E3.
    reflexivity.
  - cbn [w_logs with_logs_base with_child stored_at].
    rewrite !dict_lookup_update_same. reflexivity.
  - reflexivity.
  - reflexivity.
  - intros Hc. unfold batch_sample_count in Hn. rewrite Hc in Hn. exact Hn.
  - intros Hc. unfold batch_sample_count in Hn. rewrite Hc in Hn.
    destruct (obj_getitem training_batch (VInt 0)) as [first|e]; [|discriminate Hn].
    exists first. split; [reflexivity | exact Hn].
Qed.

End BatchSizeLoggerFacts.

Lemma BatchSizeLogger_records_batch_size_witness :
  exists w',
    on_batch_training_start (mkBatchSizeLogger 0) batch_of_tensors
      (mkWorld running_logs [] []) = (Ok true, w') /\
    stored_at ["current"; "training_params"; "batch"; "batch_size"] (w_logs w')
    = Some (VInt 32) /\
    w_stdout w' = [] /\
    w_logger w' = [] /\
    (is_chunkable batch_of_tensors = true -> obj_len batch_of_tensors = Ok (VInt 32)) /\
    (is_chunkable batch_of_tensors = false ->
     exists first,
       obj_getitem batch_of_tensors (VInt 0) = Ok first /\
       obj_size first (VInt 0) = Ok (VInt 32)).
Proof.
  apply (@BatchSizeLogger_records_batch_size torch_batch torch_batch_object
           (mkBatchSizeLogger 0) batch_of_tensors (mkWorld running_logs [] [])
           [("batch_size", VInt 32)] (VInt 32)); reflexivity.
Defined.

Example on_batch_training_start_chunkable :
  on_batch_training_start (mkBatchSizeLogger 1) (TTensor [32; 10]%Z)
    (mkWorld logs_with_batch_params [] [])
  = (Ok true,
     mkWorld
       (VDict [("current", VDict [("training_params",
          VDict [("batch", VDict [("batch_size", VInt 32)])])])])
       [] []).
Proof. reflexivity. Qed.

Example on_batch_training_start_without_params :
  on_batch_training_start (mkBatchSizeLogger 0) batch_of_tensors
    (mkWorld (VDict [("current", VDict [])]) [] [])
  = (Raise (KeyError "training_params"), mkWorld (VDict [("current", VDict [])]) [] []).
Proof. reflexivity. Qed.

(** * Further properties of the code *)

(** ** Dictionaries, continued *)

Lemma dict_lookup_update_other q key v d :
  String.eqb key q = false ->
  dict_lookup q (dict_update key v d) = dict_lookup q d.
Proof.
  intros Hq. induction d as [|[k x] d IH]; simpl.
  - rewrite Hq. reflexivity.
  - destruct (String.eqb k key) eqn:E; simpl.
    + apply String.eqb_eq in E. subst k. rewrite Hq. reflexivity.
    + destruct (String.eqb k q); [reflexivity | exact IH].
Qed.

Lemma dict_update_twice key a b d :
  dict_update key b (dict_update key a d) = dict_update key b d.
Proof.
  induction d as [|[k x] d IH]; simpl.
  - rewrite String.eqb_refl. reflexivity.
  - destruct (String.eqb k key) eqn:E; simpl; rewrite E; [reflexivity|].
    rewrite IH. reflexivity.
Qed.

Lemma dict_update_length_present key v d x :
  dict_lookup key d = Some x -> length (dict_update key v d) = length d.
Proof.
  induction d as [|[k y] d IH]; simpl; [discriminate|].
  destruct (String.eqb k key); simpl; [reflexivity|].
  intros H. rewrite (IH H). reflexivity.
Qed.

Lemma dict_update_length_absent key v d :
  dict_lookup key d = None -> length (dict_update key v d) = S (length d).
Proof.
  induction d as [|[k y] d IH]; simpl; [reflexivity|].
  destruct (String.eqb k key); simpl; [discriminate|].
  intros H. rewrite (IH H). reflexivity.
Qed.

(** ** [get_value_at]: what it returns and what it does *)

Lemma get_value_at_loop_sound key_path warn keys :
  forall tree w v w',
    get_value_at_loop key_path warn keys tree w = (Ok v, w') ->
    v = VNone \/ stored_at keys tree = Some v.
Proof.
  induction keys as [|key keys IH]; intros tree w v w' H.
  - inversion H; subst. right. reflexivity.
  - cbn [get_value_at_loop] in H.
    destruct (has_key tree key) eqn:Hk.
    + apply bind_ok_inv in H as (child & w1 & Hg & H).
      apply lift_ok_inv in Hg as [Hg ->].
      apply py_getitem_ok_inv in Hg as (d & -> & Hl).
      cbn [stored_at]. rewrite Hl. apply (IH _ _ _ _ H).
    + left. destruct warn; inversion H; reflexivity.
Qed.

(** X1.  [get_value_at] returns what is stored: a value other than
    [None] stored at the path is returned as it is, whatever the default,
    and without touching the world; and whatever it returns is the
    default or the value stored at the path. *)
Theorem get_value_at_returns_stored :
  forall (key_path : string) (tree default : pyobj) (warn : bool) (w : world),
    (forall v, stored_at (split_dot key_path) tree = Some v -> v <> VNone ->
               get_value_at key_path tree default warn w = (Ok v, w))
    /\ (forall v w', get_value_at key_path tree default warn w = (Ok v, w') ->
                     v = default \/ stored_at (split_dot key_path) tree = Some v).
Proof.
  intros key_path tree default warn w. split.
  - intros v Hs Hv. unfold get_value_at, bind.
    rewrite (get_value_at_loop_stored key_path warn _ _ _ w Hs).
    unfold ret. destruct v; try reflexivity. congruence.
  - intros v w' H. unfold get_value_at in H.
    apply bind_ok_inv in H as (v0 & w1 & Hl & H).
    unfold ret in H. inversion H; subst.
    destruct (get_value_at_loop_sound _ _ _ _ _ _ _ Hl) as [-> | Hs].
    + left. reflexivity.
    + destruct v0; try (right; exact Hs). left. reflexivity.
Qed.

Lemma get_value_at_returns_stored_witness :
  get_value_at "current.epoch" running_logs (VInt (-1)) true empty_world
  = (Ok (VInt 3), empty_world)
  /\ (VInt 3 = VInt (-1) \/
      stored_at (split_dot "current.epoch") running_logs = Some (VInt 3)).
Proof.
  split.
  - apply (proj1 (get_value_at_returns_stored "current.epoch" running_logs
                    (VInt (-1)) true empty_world) (VInt 3)).
    + reflexivity.
    + discriminate.
  - apply (proj2 (get_value_at_returns_stored "current.epoch" running_logs
                    (VInt (-1)) true empty_world) (VInt 3) empty_world).
    reflexivity.
Defined.

Lemma get_value_at_loop_effects key_path warn keys :
  forall tree w,
    let w' := snd (get_value_at_loop key_path warn keys tree w) in
    w_logs w' = w_logs w /\ w_stdout w' = w_stdout w /\
    (w_logger w' = w_logger w \/
     (warn = true /\
      fst (get_value_at_loop key_path warn keys tree w) = Ok VNone /\
      w_logger w' =
      (w_logger w ++ [("Key path " ++ key_path ++ " not found in given data")%string])%list)).
Proof.
  induction keys as [|key keys IH]; intros tree w.
  - cbn. auto.
  - cbn [get_value_at_loop]. destruct (has_key tree key).
    + unfold bind at 1 2 3 4 5. unfold lift.
      destruct (py_getitem tree key) as [child|e].
      * apply IH.
      * cbn. auto.
    + destruct warn; cbn.
      * split; [reflexivity|]. split; [reflexivity|]. right.
        split; [reflexivity|]. split; reflexivity.
      * auto.
Qed.

(** X2.  [get_value_at] only ever logs: the log tree and the progress
    text are left alone, without [warn_on_failure] the logger too, and
    with it one record at most is added, the one that names the key path,
    and only when the path was not found. *)
Theorem get_value_at_effects :
  forall (key_path : string) (tree default : pyobj) (warn : bool) (w : world),
    let w' := snd (get_value_at key_path tree default warn w) in
    w_logs w' = w_logs w /\ w_stdout w' = w_stdout w /\
    (warn = false -> w' = w) /\
    (w_logger w' = w_logger w \/
     (fst (get_value_at key_path tree default warn w) = Ok default /\
      w_logger w' =
      (w_logger w ++ [("Key path " ++ key_path ++ " not found in given data")%string])%list)).
Proof.
  intros key_path tree default warn w.
  pose proof (get_value_at_loop_effects key_path warn (split_dot key_path) tree w)
    as (Hl & Hs & Hg).
  unfold get_value_at, bind.
  destruct (get_value_at_loop key_path warn (split_dot key_path) tree w)
    as [[v|e] w1] eqn:E; cbn [snd fst ret] in *.
  - split; [exact Hl|]. split; [exact Hs|]. split.
    + intros ->. destruct Hg as [Hg | (Hw & _)]; [|discriminate Hw].
      destruct w, w1; cbn in *; subst; reflexivity.
    + destruct Hg as [Hg | (_ & Hv & Hg)]; [left; exact Hg|].
      right. inversion Hv; subst. split; [reflexivity | exact Hg].
  - split; [exact Hl|]. split; [exact Hs|]. split.
    + intros ->. destruct Hg as [Hg | (Hw & _)]; [|discriminate Hw].
      destruct w, w1; cbn in *; subst; reflexivity.
    + destruct Hg as [Hg | (_ & Hv & _)]; [left; exact Hg | discriminate Hv].
Qed.

Lemma get_value_at_effects_witness :
  snd (get_value_at "current.validation.dataset" running_logs VNone false
         empty_world) = empty_world.
Proof.
  apply (proj1 (proj2 (proj2 (get_value_at_effects "current.validation.dataset"
                                running_logs VNone false empty_world)))).
  reflexivity.
Defined.

(** ** [set_value_at]: what it changes and what it leaves alone *)

Lemma set_value_at_keys_last_inv key tree v warn bp w tree' w1 :
  set_value_at_keys [key] tree v warn bp w = (Ok tree', w1) ->
  exists d, tree = VDict d /\ tree' = VDict (dict_update key v d) /\ w1 = w.
Proof.
  intros H. cbn [set_value_at_keys] in H.
  destruct (can_get_and_set_values tree); cbn [negb] in H; [|discriminate H].
  apply lift_ok_inv in H as [H ->].
  apply py_setitem_ok_inv in H as (d & -> & ->).
  exists d. repeat split.
Qed.

(** A successful [set_value_at] below the first segment: the root is a
    mapping, the call went on in the entry of the first segment, or in a
    fresh mapping when there was none, and stored the outcome under it. *)
Lemma set_value_at_keys_step_inv key key2 rest tree v warn bp w tree' w1 :
  set_value_at_keys (key :: key2 :: rest) tree v warn bp w = (Ok tree', w1) ->
  exists d child' wa,
    tree = VDict d /\
    tree' = VDict (dict_update key child' d) /\
    wa = match dict_lookup key d with
         | Some _ => w
         | None =>
             snd (when warn
                    (logger_warn ("Key path " ++
                       match bp with None => key | Some b => b ++ "." ++ key end ++
                       " not available, creating path")) w)
         end /\
    set_value_at_keys (key2 :: rest)
      (match dict_lookup key d with Some child => child | None => VDict [] end)
      v warn
      (Some match bp with None => key | Some b => b ++ "." ++ key end) wa
    = (Ok child', w1).
Proof.
  intros H. rewrite set_value_at_keys_step in H. cbv zeta in H.
  destruct tree; cbn [can_get_and_set_values is_none negb andb] in H;
    try discriminate H.
  - (* a list: neither the lookup nor the assignment takes a string key *)
    destruct (has_key (VList items) key); cbn [negb] in H;
      unfold bind, lift, py_setitem, py_getitem, ret in H; discriminate H.
  - rewrite has_key_dict in H.
    destruct (dict_lookup key entries) as [child|] eqn:E; cbn [negb] in H.
    + apply bind_ok_inv in H as (nd1 & wa & H1 & H).
      unfold ret in H1. inversion H1; subst nd1 wa.
      apply bind_ok_inv in H as (c & wb & H2 & H).
      apply lift_ok_inv in H2 as [H2 ->]. cbn [py_getitem] in H2.
      rewrite E in H2. inversion H2; subst c.
      apply bind_ok_inv in H as (child' & wc & H3 & H).
      unfold ret in H. inversion H; subst. cbn [with_child].
      exists entries, child', w.
      split; [reflexivity|]. split; [reflexivity|]. rewrite E.
      split; [reflexivity | exact H3].
    + apply bind_ok_inv in H as (nd1 & wa & H1 & H).
      apply bind_ok_inv in H1 as (nd & wa0 & H0 & H1).
      apply lift_ok_inv in H0 as [H0 ->]. cbn [py_setitem] in H0.
      inversion H0; subst nd.
      apply bind_ok_inv in H1 as ([] & wa1 & Hw & H1).
      unfold ret in H1. inversion H1; subst nd1 wa1.
      apply bind_ok_inv in H as (c & wb & H2 & H).
      apply lift_ok_inv in H2 as [H2 ->]. cbn [py_getitem] in H2.
      rewrite dict_lookup_update_same in H2. inversion H2; subst c.
      apply bind_ok_inv in H as (child' & wc & H3 & H).
      unfold ret in H. inversion H; subst. cbn [with_child].
      rewrite dict_update_twice.
      exists entries, child', wa.
      split; [reflexivity|]. split; [reflexivity|]. rewrite E. split.
      * destruct warn; cbn [when ret logger_warn snd] in Hw |- *;
          inversion Hw; reflexivity.
      * exact H3.
Qed.

Lemma get_value_at_loop_update_other key_path warn q keys key v d w :
  String.eqb key q = false ->
  get_value_at_loop key_path warn (q :: keys) (VDict (dict_update key v d)) w
  = get_value_at_loop key_path warn (q :: keys) (VDict d) w.
Proof.
  intros Hq. cbn [get_value_at_loop]. rewrite !has_key_dict.
  unfold py_getitem.
  rewrite (dict_lookup_update_other q key v d Hq). reflexivity.
Qed.

Lemma get_value_at_loop_frame key_path warn' p :
  forall q tree v warn bp w tree' w1,
    set_value_at_keys p tree v warn bp w = (Ok tree', w1) ->
    diverge p q = true ->
    forall w2,
      get_value_at_loop key_path warn' q tree' w2
      = get_value_at_loop key_path warn' q tree w2.
Proof.
  induction p as [|key p IH]; intros q tree v warn bp w tree' w1 H Hd w2;
    [discriminate Hd|].
  destruct q as [|b q]; [discriminate Hd|]. cbn [diverge] in Hd.
  destruct p as [|key2 rest].
  - apply set_value_at_keys_last_inv in H as (d & -> & -> & _).
    destruct (String.eqb key b) eqn:E.
    + destruct q; discriminate Hd.
    + apply get_value_at_loop_update_other, E.
  - apply set_value_at_keys_step_inv in H
      as (d & child' & wa & -> & -> & _ & Hrec).
    destruct (String.eqb key b) eqn:E.
    + apply String.eqb_eq in E. subst b.
      rewrite (get_value_at_loop_present _ _ _ _ _ _ _
                 (dict_lookup_update_same key child' d)).
      rewrite (IH q _ _ _ _ _ _ _ Hrec Hd w2).
      destruct (dict_lookup key d) as [child|] eqn:El.
      * rewrite (get_value_at_loop_present _ _ _ _ _ _ _ El). reflexivity.
      * destruct q as [|b2 q]; [discriminate Hd|].
        cbn [get_value_at_loop]. rewrite !has_key_dict, El. reflexivity.
    + apply get_value_at_loop_update_other, E.
Qed.

(** X3.  On a tree that holds no container at two places (trees are
    values here, see [with_child]), [set_value_at] changes nothing off
    its path: for a key path that parts ways with the one that was set,
    [get_value_at] gives after the call what it gave before.  Where a
    mapping is shared between two places, a store through one is seen
    through the other, and the statement does not speak of it. *)
Theorem set_value_at_leaves_other_paths :
  forall (key_path other_path : string) (tree tree' value : pyobj)
         (warn : bool) (base_path : option string) (w w1 : world),
    set_value_at key_path tree value warn base_path w = (Ok tree', w1) ->
    diverge (split_dot key_path) (split_dot other_path) = true ->
    forall default warn' w2,
      get_value_at other_path tree' default warn' w2
      = get_value_at other_path tree default warn' w2.
Proof.
  intros key_path other_path tree tree' value warn base_path w w1 H Hd
         default warn' w2.
  unfold get_value_at, bind. unfold set_value_at in H.
  rewrite (get_value_at_loop_frame other_path warn' _ _ _ _ _ _ _ _ _ H Hd w2).
  reflexivity.
Qed.

Lemma set_value_at_leaves_other_paths_witness :
  get_value_at "current.training.batch.loss"
    (VDict [("final_epoch", VInt 10); ("final_batch_step", VInt 99);
         ("current", VDict [
            ("epoch", VInt 3); ("batch_step", VInt 40);
            ("training_params", VDict [
               ("batch", VDict [("batch_size", VInt 32)]);
               ("window_average", VDict [("duration", VInt 2)]);
               ("epoch", VDict [("duration", VInt 75)])]);
            ("training", VDict [
               ("batch", VDict [("loss", VInt 2)]);
               ("window_average", VDict [("loss", VInt 5); ("duration", VInt 2)])])])])
    VNone true empty_world
  = get_value_at "current.training.batch.loss" running_logs VNone true empty_world.
Proof.
  apply (set_value_at_leaves_other_paths "current.training.window_average.loss"
           "current.training.batch.loss" running_logs _ (VInt 5) true None
           empty_world empty_world); reflexivity.
Defined.

Lemma set_value_at_keys_overwrite p :
  forall tree v1 v2 warn1 warn2 warn3 bp1 bp2 bp3 w w1 w2 w3 tree1,
    set_value_at_keys p tree v1 warn1 bp1 w = (Ok tree1, w1) ->
    exists tree2 w4 w5,
      set_value_at_keys p tree1 v2 warn2 bp2 w2 = (Ok tree2, w4) /\
      set_value_at_keys p tree v2 warn3 bp3 w3 = (Ok tree2, w5) /\
      w4 = w2.
Proof.
  induction p as [|key p IH];
    intros tree v1 v2 warn1 warn2 warn3 bp1 bp2 bp3 w w1 w2 w3 tree1 H.
  - cbn [set_value_at_keys] in H.
    destruct (can_get_and_set_values tree); discriminate H.
  - destruct p as [|key2 rest].
    + apply set_value_at_keys_last_inv in H as (d & -> & -> & _).
      exists (VDict (dict_update key v2 d)), w2, w3.
      cbn [set_value_at_keys can_get_and_set_values is_none negb andb].
      unfold lift, py_setitem. rewrite dict_update_twice. repeat split.
    + apply set_value_at_keys_step_inv in H
        as (d & child1 & wa & -> & -> & _ & Hrec).
      set (bp2' := Some match bp2 with None => key | Some b => b ++ "." ++ key end).
      set (bp3' := Some match bp3 with None => key | Some b => b ++ "." ++ key end).
      set (w3' := snd ((if negb (has_key (VDict d) key)
                        then when warn3 (logger_warn ("Key path " ++
                               match bp3 with None => key | Some b => b ++ "." ++ key end
                               ++ " not available, creating path"))
                        else ret tt) w3)).
      destruct (IH _ _ v2 _ warn2 warn3 _ bp2' bp3' _ _ w2 w3' _ Hrec)
        as (child2 & w4 & w5 & Ha & Hb & ->).
      exists (VDict (dict_update key child2 d)), w2, w5. split; [|split].
      * rewrite set_value_at_keys_step. cbv zeta.
        cbn [can_get_and_set_values is_none negb andb].
        rewrite has_key_dict, dict_lookup_update_same. cbn [negb].
        unfold bind at 1. unfold ret at 1.
        unfold bind at 1. unfold lift at 1. cbn [py_getitem].
        rewrite dict_lookup_update_same.
        unfold bind at 1. fold bp2'. rewrite Ha.
        unfold ret. cbn [with_child]. rewrite dict_update_twice. reflexivity.
      * rewrite set_value_at_keys_step. cbv zeta.
        cbn [can_get_and_set_values is_none negb andb].
        subst w3'. rewrite has_key_dict in *.
        destruct (dict_lookup key d) as [child|] eqn:El; cbn [negb] in *.
        -- unfold bind at 1. unfold ret at 1.
           unfold bind at 1. unfold lift at 1. cbn [py_getitem]. rewrite El.
           unfold bind at 1. fold bp3'. cbn [ret snd] in Hb. rewrite Hb.
           reflexivity.
        -- unfold bind at 1. unfold bind at 1. unfold lift at 1.
           cbn [py_setitem]. unfold bind at 1.
           destruct warn3; cbn [when logger_warn ret snd] in Hb |- *;
             unfold logger_warn, ret;
             unfold bind at 1; unfold lift at 1; cbn [py_getitem];
             rewrite dict_lookup_update_same;
             unfold bind at 1; fold bp3'; rewrite Hb;
             cbn [with_child]; rewrite dict_update_twice; reflexivity.
      * reflexivity.
Qed.

(** X4.  The last write wins: storing a second value at a path where
    [set_value_at] has stored one gives the tree that storing the second
    value alone gives, and creates no path, so it logs nothing. *)
Theorem set_value_at_last_write_wins :
  forall (key_path : string) (tree tree1 value1 value2 : pyobj)
         (warn : bool) (w w1 w2 : world),
    set_value_at key_path tree value1 warn None w = (Ok tree1, w1) ->
    exists tree2 w',
      set_value_at key_path tree1 value2 warn None w2 = (Ok tree2, w2) /\
      set_value_at key_path tree value2 warn None w = (Ok tree2, w').
Proof.
  intros key_path tree tree1 value1 value2 warn w w1 w2 H.
  unfold set_value_at in *.
  destruct (set_value_at_keys_overwrite _ _ _ value2 _ warn warn _ None None
              _ _ w2 w _ H) as (tree2 & w4 & w5 & Ha & Hb & ->).
  exists tree2, w5. split; assumption.
Qed.

Lemma set_value_at_last_write_wins_witness :
  exists tree2 w',
    set_value_at "training.batch.loss"
      (VDict [("training", VDict [("batch", VDict [("loss", VInt 1)])])])
      (VInt 2) true None empty_world = (Ok tree2, empty_world) /\
    set_value_at "training.batch.loss" (VDict []) (VInt 2) true None empty_world
    = (Ok tree2, w').
Proof.
  apply (set_value_at_last_write_wins "training.batch.loss" (VDict []) _
           (VInt 1) (VInt 2) true empty_world
           (mkWorld (VDict []) []
              ["Key path training not available, creating path";
               "Key path training.batch not available, creating path"])
           empty_world).
  reflexivity.
Defined.

Lemma set_value_at_keys_logs p :
  forall tree v warn bp w tree' w1,
    set_value_at_keys p tree v warn bp w = (Ok tree', w1) ->
    w_logs w1 = w_logs w /\ w_stdout w1 = w_stdout w /\
    w_logger w1 =
    (w_logger w ++
     (if warn then map creating_path_msg (created_paths p tree bp) else []))%list.
Proof.
  induction p as [|key p IH]; intros tree v warn bp w tree' w1 H.
  - cbn [set_value_at_keys] in H.
    destruct (can_get_and_set_values tree); discriminate H.
  - destruct p as [|key2 rest].
    + apply set_value_at_keys_last_inv in H as (d & -> & -> & ->).
      cbn [created_paths map].
      destruct warn; rewrite app_nil_r; auto.
    + apply set_value_at_keys_step_inv in H
        as (d & child' & wa & -> & -> & Hwa & Hrec).
      apply IH in Hrec as (Hl & Hs & Hg).
      cbn [created_paths]. cbv zeta.
      destruct (dict_lookup key d) as [child|]; subst wa.
      * auto.
      * destruct warn; cbn [when logger_warn ret snd w_logs w_stdout w_logger] in *.
        -- split; [exact Hl|]. split; [exact Hs|].
           rewrite Hg. cbn [map]. rewrite <- app_assoc. reflexivity.
        -- auto.
Qed.

(** X5.  With [warn_on_path_unavailable], a successful [set_value_at]
    hands the logger one record for every segment it had to create, in
    the order of the path and each naming the path down to that segment;
    without it, or when every intermediate segment was there, it logs
    nothing.  The log tree of the world and the progress text are never
    touched. *)
Theorem set_value_at_warns_per_created_segment :
  forall (key_path : string) (tree tree' value : pyobj) (warn : bool)
         (base_path : option string) (w w1 : world),
    set_value_at key_path tree value warn base_path w = (Ok tree', w1) ->
    w_logs w1 = w_logs w /\ w_stdout w1 = w_stdout w /\
    w_logger w1 =
    (w_logger w ++
     (if warn
      then map creating_path_msg (created_paths (split_dot key_path) tree base_path)
      else []))%list.
Proof.
  intros key_path tree tree' value warn base_path w w1 H.
  apply (set_value_at_keys_logs _ _ _ _ _ _ _ _ H).
Qed.

Lemma set_value_at_warns_per_created_segment_witness :
  w_logs (snd (set_value_at "current.validation.dataset.loss" running_logs
                 (VInt 1) true None empty_world)) = VDict [] /\
  w_stdout (snd (set_value_at "current.validation.dataset.loss" running_logs
                   (VInt 1) true None empty_world)) = [] /\
  w_logger (snd (set_value_at "current.validation.dataset.loss" running_logs
                   (VInt 1) true None empty_world))
  = ["Key path current.validation not available, creating path";
     "Key path current.validation.dataset not available, creating path"].
Proof.
  eapply (set_value_at_warns_per_created_segment "current.validation.dataset.loss"
            running_logs _ (VInt 1) true None empty_world).
  vm_compute. reflexivity.
Defined.

(** ** [convert_to_dict] *)

Lemma Z_to_int_proper z : Z.to_int z <> Decimal.Pos Decimal.Nil /\
                          Z.to_int z <> Decimal.Neg Decimal.Nil.
Proof.
  destruct z as [|p|p]; simpl; split; try discriminate;
    intros H; inversion H as [Hp];
    exact (DecimalPos.Unsigned.to_uint_nonnil p Hp).
Qed.

(** [str] tells integers apart. *)
Lemma str_of_Z_inj a b : str_of_Z a = str_of_Z b -> a = b.
Proof.
  unfold str_of_Z. intros H.
  apply DecimalZ.to_int_inj.
  destruct (Z_to_int_proper a) as [Ha1 Ha2].
  destruct (Z_to_int_proper b) as [Hb1 Hb2].
  pose proof (NilZero.isi _ Ha1 Ha2) as Ia.
  pose proof (NilZero.isi _ Hb1 Hb2) as Ib.
  rewrite H in Ia. rewrite Ia in Ib. inversion Ib. reflexivity.
Qed.

Lemma string_app_inv_head (s a b : string) : s ++ a = s ++ b -> a = b.
Proof.
  induction s as [|c s IH]; simpl; intros H; [exact H|].
  inversion H. apply IH. assumption.
Qed.

Lemma component_key_inj type i j :
  component_key type i = component_key type j -> i = j.
Proof.
  unfold component_key. intros H.
  apply string_app_inv_head in H. apply string_app_inv_head in H.
  apply str_of_Z_inj in H. lia.
Qed.

Lemma component_key_eqb type i j :
  i <> j -> String.eqb (component_key type i) (component_key type j) = false.
Proof.
  intros Hij. apply String.eqb_neq. intros H.
  apply Hij, (component_key_inj type), H.
Qed.

(** The comprehension stores component [j] under the key of index
    [i + j], adds one entry for each component and leaves the other keys
    alone, when the keys from [i] on are still free. *)
Lemma enumerate_into_spec type items :
  forall i d,
    (forall j, (i <= j)%nat -> dict_lookup (component_key type j) d = None) ->
    length (enumerate_into type i items d) = (length d + length items)%nat /\
    (forall j c, nth_error items j = Some c ->
       dict_lookup (component_key type (i + j)) (enumerate_into type i items d)
       = Some c) /\
    (forall q, (forall j, (i <= j)%nat -> String.eqb (component_key type j) q = false) ->
       dict_lookup q (enumerate_into type i items d) = dict_lookup q d).
Proof.
  induction items as [|c0 items IH]; intros i d Hfree; cbn [enumerate_into].
  - split; [cbn; lia|]. split.
    + intros [|j] c Hn; discriminate Hn.
    + reflexivity.
  - assert (Hfree' : forall j, (S i <= j)%nat ->
              dict_lookup (component_key type j)
                (dict_update (component_key type i) c0 d) = None).
    { intros j Hj. rewrite dict_lookup_update_other.
      - apply Hfree. lia.
      - apply component_key_eqb. lia. }
    destruct (IH (S i) _ Hfree') as (Hlen & Hget & Hother).
    split; [|split].
    + rewrite Hlen, (dict_update_length_absent _ _ _ (Hfree i (Nat.le_refl i))).
      cbn [length]. lia.
    + intros [|j] c Hn; cbn [nth_error] in Hn.
      * inversion Hn; subst c0. rewrite Nat.add_0_r.
        rewrite Hother.
        -- apply dict_lookup_update_same.
        -- intros j Hj. apply component_key_eqb. lia.
      * replace (i + S j)%nat with (S i + j)%nat by lia. apply Hget, Hn.
    + intros q Hq. rewrite Hother.
      * apply dict_lookup_update_other, Hq. lia.
      * intros j Hj. apply Hq. lia.
Qed.

(** X6.  For a list or tuple of two components or more that
    [is_sequence] accepts, [convert_to_dict] gives a mapping with one
    entry per component, in which component [i] is found under the key
    [type_i]. *)
Theorem convert_to_dict_indexes_components :
  forall (is_sequence is_dict : pyobj -> bool) (type : string)
         (components : pyobj) (items : list pyobj),
    is_sequence components = true ->
    components = VList items \/ components = VTuple items ->
    (1 < length items)%nat ->
    exists d,
      convert_to_dict is_sequence is_dict type components = Ok (VDict d) /\
      length d = length items /\
      forall i c, nth_error items i = Some c ->
                  dict_lookup (component_key type i) d = Some c.
Proof.
  intros is_sequence is_dict type components items Hseq Hc Hlen.
  exists (enumerate_into type 0 items []).
  destruct (enumerate_into_spec type items 0 [] (fun _ _ => eq_refl))
    as (Hl & Hget & _).
  split; [|split].
  - unfold convert_to_dict. rewrite Hseq.
    assert (Hn : (length items =? 1)%nat = false) by (apply Nat.eqb_neq; lia).
    assert (Hn' : (1 <? length items)%nat = true) by (apply Nat.ltb_lt; lia).
    destruct Hc as [-> | ->]; cbn [py_len rbind py_iter];
      rewrite Hn, Hn'; reflexivity.
  - rewrite Hl. reflexivity.
  - intros i c Hn. apply (Hget i c Hn).
Qed.

Lemma convert_to_dict_indexes_components_witness :
  exists d,
    convert_to_dict is_list_or_tuple is_dict_instance "optimizer"
      (VTuple [VStr "adam"; VStr "sgd"; VStr "lamb"]) = Ok (VDict d) /\
    length d = 3%nat /\
    forall i c, nth_error [VStr "adam"; VStr "sgd"; VStr "lamb"] i = Some c ->
                dict_lookup (component_key "optimizer" i) d = Some c.
Proof.
  apply (convert_to_dict_indexes_components is_list_or_tuple is_dict_instance
           "optimizer" (VTuple [VStr "adam"; VStr "sgd"; VStr "lamb"])
           [VStr "adam"; VStr "sgd"; VStr "lamb"]).
  - reflexivity.
  - right. reflexivity.
  - simpl. lia.
Defined.

(** X7.  What [convert_to_dict] returns is a mapping, with one exception:
    a sequence of length zero is handed back as it is.  Here [is_dict]
    holds of mappings only. *)
Theorem convert_to_dict_gives_mapping :
  forall (is_sequence is_dict : pyobj -> bool) (type : string)
         (components result : pyobj),
    (forall o, is_dict o = true -> exists d, o = VDict d) ->
    convert_to_dict is_sequence is_dict type components = Ok result ->
    (exists d, result = VDict d)
    \/ (result = components /\ is_sequence components = true /\
        py_len components = Ok 0%nat).
Proof.
  intros is_sequence is_dict type components result Hdict H.
  unfold convert_to_dict in H.
  destruct (is_sequence components) eqn:Hseq.
  - destruct (py_len components) as [n|e] eqn:Hn; [|discriminate H].
    cbn [rbind] in H.
    destruct (n =? 1)%nat eqn:E1.
    + destruct (py_first components); [|discriminate H].
      inversion H. left. eexists. reflexivity.
    + destruct (1 <? n)%nat eqn:E2.
      * destruct (py_iter components); [|discriminate H].
        inversion H. left. eexists. reflexivity.
      * inversion H; subst result. right.
        apply Nat.eqb_neq in E1. apply Nat.ltb_ge in E2.
        replace n with 0%nat by lia. auto.
  - destruct (is_dict components) eqn:Hd; cbn [negb] in H.
    + inversion H; subst result. left. apply Hdict, Hd.
    + inversion H. left. eexists. reflexivity.
Qed.

Lemma convert_to_dict_gives_mapping_witness :
  (exists d, VDict [("optimizer", VInt 1)] = VDict d)
  \/ (VDict [("optimizer", VInt 1)] = VInt 1 /\
      is_list_or_tuple (VInt 1) = true /\ py_len (VInt 1) = Ok 0%nat).
Proof.
  apply (convert_to_dict_gives_mapping is_list_or_tuple is_dict_instance
           "optimizer" (VInt 1) (VDict [("optimizer", VInt 1)])).
  - intros o Ho. destruct o; try discriminate Ho. eexists. reflexivity.
  - reflexivity.
Defined.

Example convert_to_dict_empty_sequence :
  convert_to_dict is_list_or_tuple is_dict_instance "optimizer" (VList [])
  = Ok (VList []).
Proof. reflexivity. Qed.

Example convert_to_dict_single :
  convert_to_dict is_list_or_tuple is_dict_instance "optimizer"
    (VList [VStr "adam"]) = Ok (VDict [("optimizer", VStr "adam")]).
Proof. reflexivity. Qed.

Example convert_to_dict_several :
  convert_to_dict is_list_or_tuple is_dict_instance "optimizer"
    (VList [VStr "adam"; VStr "sgd"])
  = Ok (VDict [("optimizer_0", VStr "adam"); ("optimizer_1", VStr "sgd")]).
Proof. reflexivity. Qed.

(** ** [pack_per_replica] and [unpack_per_replica_and_map], continued *)

(** X8.  What [pack_per_replica] builds has the shape of a per-replica
    value: every composite holds one component for each device, and there
    are as many composites as the device with the fewest components has
    components; no device, no composite. *)
Theorem pack_per_replica_shape :
  forall (unpacked_replica_data : pyobj) (args : list pyobj)
         (rows : list (list pyobj)),
    py_iter unpacked_replica_data = Ok args ->
    rmapM py_iter args = Ok rows ->
    exists cols,
      pack_per_replica unpacked_replica_data = Ok (VTuple (map VPerReplica cols)) /\
      Forall (fun col => length col = length rows) cols /\
      length cols = match rows with
                    | [] => 0%nat
                    | first :: others => min_length first others
                    end.
Proof.
  intros data args rows Hi Hr. exists (py_zip rows). split; [|split].
  - unfold pack_per_replica. rewrite Hi. cbn [rbind]. rewrite Hr. reflexivity.
  - destruct rows as [|first others]; [constructor|].
    apply (proj1 (zip_from_shape first others)).
  - destruct rows as [|first others]; [reflexivity|].
    apply (proj2 (zip_from_shape first others)).
Qed.

Lemma pack_per_replica_shape_witness :
  exists cols,
    pack_per_replica ragged_replicas = Ok (VTuple (map VPerReplica cols)) /\
    Forall (fun col => length col = 2%nat) cols /\
    length cols = 1%nat.
Proof.
  apply (pack_per_replica_shape ragged_replicas
           [VTuple [VInt 1; VInt 2]; VTuple [VInt 3]]
           [[VInt 1; VInt 2]; [VInt 3]]); reflexivity.
Defined.

Lemma mapM_pure {A B} (f : A -> B) (items : list A) w :
  mapM (fun x => ret (f x)) items w = (Ok (map f items), w).
Proof.
  induction items as [|x items IH]; simpl; [reflexivity|].
  unfold bind at 1. unfold ret at 1. unfold bind at 1. rewrite IH. reflexivity.
Qed.

Lemma mapM_stops {A B} (f : A -> M B) (before : list A) x after :
  forall w ys w1 e w2,
    mapM f before w = (Ok ys, w1) ->
    f x w1 = (Raise e, w2) ->
    mapM f (before ++ x :: after)%list w = (Raise e, w2).
Proof.
  induction before as [|b before IH]; intros w ys w1 e w2 Hb Hx.
  - inversion Hb; subst. cbn [app mapM]. unfold bind. rewrite Hx. reflexivity.
  - cbn [app mapM] in *.
    apply bind_ok_inv in Hb as (y & wa & Hy & Hb).
    apply bind_ok_inv in Hb as (ys' & wb & Hys & Hb).
    unfold ret in Hb. inversion Hb; subst.
    unfold bind at 1. rewrite Hy. unfold bind at 1.
    rewrite (IH _ _ _ _ _ Hys Hx). reflexivity.
Qed.

(** X9.  Given the unpacked form and a map function that computes its
    result without effect, [unpack_per_replica_and_map] returns the tuple
    of the results, one per device and in the order of the devices,
    whether the devices came as a tuple or as a list. *)
Theorem unpack_maps_in_order :
  forall (f : pyobj -> pyobj) (data : pyobj) (items : list pyobj)
         (distribution_strategy : option strategy) (w : world),
    is_none data = false ->
    py_iter data = Ok items ->
    unpack_per_replica_and_map (fun x => ret (f x)) VNone
      distribution_strategy data w
    = (Ok (VTuple (map f items)), w).
Proof.
  intros f data items strat w Hn Hi.
  unfold unpack_per_replica_and_map. rewrite Hn.
  cbn [is_none negb andb].
  unfold bind at 1. unfold ret at 1.
  unfold bind at 1. unfold lift at 1. rewrite Hi.
  unfold bind at 1. rewrite mapM_pure. reflexivity.
Qed.

Lemma unpack_maps_in_order_witness :
  unpack_per_replica_and_map
    (fun x => ret (match x with VInt z => VInt (2 * z) | _ => x end)) VNone None
    (VList [VInt 1; VInt 2; VInt 3]) empty_world
  = (Ok (VTuple (map (fun x => match x with VInt z => VInt (2 * z) | _ => x end)
                   [VInt 1; VInt 2; VInt 3])), empty_world).
Proof.
  apply (unpack_maps_in_order
           (fun x => match x with VInt z => VInt (2 * z) | _ => x end)
           (VList [VInt 1; VInt 2; VInt 3]) [VInt 1; VInt 2; VInt 3] None
           empty_world); reflexivity.
Defined.

(** X10.  The mapping stops at the first device on which the map
    function raises: the exception is the outcome of
    [unpack_per_replica_and_map], the effects of the calls made so far
    stay, and the map function is not called on the devices after it. *)
Theorem unpack_stops_at_first_exception :
  forall (map_func : pyobj -> M pyobj) (data : pyobj)
         (before after : list pyobj) (x : pyobj)
         (distribution_strategy : option strategy)
         (w w1 w2 : world) (ys : list pyobj) (e : exn),
    is_none data = false ->
    py_iter data = Ok (before ++ x :: after)%list ->
    mapM map_func before w = (Ok ys, w1) ->
    map_func x w1 = (Raise e, w2) ->
    unpack_per_replica_and_map map_func VNone distribution_strategy data w
    = (Raise e, w2).
Proof.
  intros map_func data before after x strat w w1 w2 ys e Hn Hi Hb Hx.
  unfold unpack_per_replica_and_map. rewrite Hn.
  cbn [is_none negb andb].
  unfold bind at 1. unfold ret at 1.
  unfold bind at 1. unfold lift at 1. rewrite Hi.
  unfold bind at 1. rewrite (mapM_stops _ _ _ _ _ _ _ _ _ Hb Hx). reflexivity.
Qed.

Lemma unpack_stops_at_first_exception_witness :
  unpack_per_replica_and_map
    (fun x => match x with
              | VInt z => logger_warn "mapped" ;;; ret (VInt (2 * z))
              | _ => raise TypeError
              end)
    VNone None (VTuple [VInt 1; VNone; VInt 3]) empty_world
  = (Raise TypeError, mkWorld (VDict []) [] ["mapped"]).
Proof.
  apply (unpack_stops_at_first_exception
           (fun x => match x with
                     | VInt z => logger_warn "mapped" ;;; ret (VInt (2 * z))
                     | _ => raise TypeError
                     end)
           (VTuple [VInt 1; VNone; VInt 3]) [VInt 1] [VInt 3] VNone None
           empty_world (mkWorld (VDict []) [] ["mapped"])
           (mkWorld (VDict []) [] ["mapped"]) [VInt 2] TypeError);
    reflexivity.
Defined.

Lemma py_iter_raises_type_error v e : py_iter v = Raise e -> e = TypeError.
Proof. destruct v; simpl; intros H; inversion H; reflexivity. Qed.

Lemma rmapM_py_iter_ok args :
  (exists rows, rmapM py_iter args = Ok rows) <-> forallb iterable args = true.
Proof.
  induction args as [|a args IH]; simpl.
  - split; [reflexivity | intros _; eexists; reflexivity].
  - unfold iterable at 1. destruct (py_iter a) as [row|e]; simpl.
    + rewrite <- IH. split.
      * intros [rows H]. destruct (rmapM py_iter args) as [rs|]; [|discriminate H].
        eexists. reflexivity.
      * intros [rs H]. rewrite H. eexists. reflexivity.
    + split; [intros [rows H]; discriminate H | discriminate].
Qed.

Lemma rmapM_py_iter_raises args e :
  rmapM py_iter args = Raise e -> e = TypeError.
Proof.
  induction args as [|a args IH]; simpl; [discriminate|].
  destruct (py_iter a) as [row|e0] eqn:E; simpl.
  - destruct (rmapM py_iter args) as [rs|e1]; simpl; [discriminate|].
    intros H. inversion H; subst. apply IH. reflexivity.
  - intros H. inversion H; subst. apply (py_iter_raises_type_error _ _ E).
Qed.

(** X11.  [pack_per_replica] completes exactly when its argument can be
    iterated and so can each of its elements; otherwise it raises, and
    what it raises is a [TypeError]. *)
Theorem pack_per_replica_raises_type_error_only :
  forall (unpacked_replica_data : pyobj),
    ((exists packed, pack_per_replica unpacked_replica_data = Ok packed) <->
     (exists args, py_iter unpacked_replica_data = Ok args /\
                   forallb iterable args = true))
    /\ (forall e, pack_per_replica unpacked_replica_data = Raise e -> e = TypeError).
Proof.
  intros data. unfold pack_per_replica. split; [split|].
  - intros [packed H].
    destruct (py_iter data) as [args|] eqn:Hi; [|discriminate H].
    exists args. split; [reflexivity|]. apply rmapM_py_iter_ok.
    cbn [rbind] in H. destruct (rmapM py_iter args) as [rows|]; [|discriminate H].
    eexists. reflexivity.
  - intros (args & Hi & Hall). rewrite Hi. cbn [rbind].
    apply rmapM_py_iter_ok in Hall as [rows Hr]. rewrite Hr.
    eexists. reflexivity.
  - intros e H.
    destruct (py_iter data) as [args|e0] eqn:Hi; cbn [rbind] in H.
    + destruct (rmapM py_iter args) as [rows|e1] eqn:Hr; cbn [rbind] in H;
        [discriminate H|].
      inversion H; subst. apply (rmapM_py_iter_raises _ _ Hr).
    + inversion H; subst. apply (py_iter_raises_type_error _ _ Hi).
Qed.

Lemma pack_per_replica_raises_type_error_only_witness :
  exists packed, pack_per_replica (VList [VTuple [VInt 1]; VList [VInt 2]]) = Ok packed.
Proof.
  apply (proj2 (proj1 (pack_per_replica_raises_type_error_only
                         (VList [VTuple [VInt 1]; VList [VInt 2]])))).
  exists [VTuple [VInt 1]; VList [VInt 2]]. split; reflexivity.
Defined.

Example pack_per_replica_of_scalars :
  pack_per_replica (VTuple [VInt 1; VInt 2]) = Raise TypeError.
Proof. reflexivity. Qed.

(** ** [LogProgress]: the estimates never stop a run *)

Lemma silent_ret {A} (a : A) : silent (ret a).
Proof. intros w. reflexivity. Qed.

Lemma silent_lift {A} (r : result A) : silent (lift r).
Proof. intros w. reflexivity. Qed.

Lemma silent_bind {A B} (c : M A) (k : A -> M B) :
  silent c -> (forall a, silent (k a)) -> silent (bind c k).
Proof.
  intros Hc Hk w. unfold bind. specialize (Hc w).
  destruct (c w) as [[a|e] w1]; simpl in *; subst w1; [apply Hk | reflexivity].
Qed.

Ltac silent_step :=
  match goal with
  | |- silent (bind _ _) => apply silent_bind; [|intro]
  | |- silent (if ?b then _ else _) => destruct b
  | |- silent (ret _) => apply silent_ret
  | |- silent (lift _) => apply silent_lift
  end.

(** [try: ... except Exception as e: log_exception(...)] around a body
    without effect, with a result preset to ["[UNKNOWN]"]: a string
    comes out; when the body raised, it is the preset one and the logger
    got the record. *)
Lemma try_or_unknown (c : M string) (msg : string) (w : world) :
  silent c ->
  exists s w',
    try_except c (fun e => log_exception msg e ;;; ret "[UNKNOWN]") w = (Ok s, w') /\
    (w' = w \/
     (s = "[UNKNOWN]" /\
      w' = mkWorld (w_logs w) (w_stdout w) (w_logger w ++ [msg])%list)).
Proof.
  intros Hc. unfold try_except. specialize (Hc w).
  destruct (c w) as [[s|e] w1]; simpl in Hc; subst w1.
  - exists s, w. split; [reflexivity | left; reflexivity].
  - eexists _, _. split; [reflexivity|]. right. split; reflexivity.
Qed.

Section LogProgressEstimates.
Context {py : PyBuiltins}.

(** X12.  Once the logs have their [current] entry, the three estimates
    of [LogProgress] always come back with a text and leave the log tree
    as it is, whatever the logs hold and whatever the arithmetic and
    formatting do: when nothing in the computation raises, nothing else
    happens either; when something raises, the exception goes to
    [log_exception] and the text is ["[UNKNOWN]"]. *)
Theorem LogProgress_estimates_never_raise :
  forall (self : LogProgress) (w : world) (current : pyobj),
    py_getitem (w_logs w) "current" = Ok current ->
    (exists s w',
        _calc_eta self w = (Ok s, w') /\
        w_logs w' = w_logs w /\ (w' = w \/ s = "[UNKNOWN]"))
    /\ (exists s w',
        _get_average_batch_duration self w = (Ok s, w') /\
        w_logs w' = w_logs w /\ (w' = w \/ s = "[UNKNOWN]"))
    /\ (exists s w',
        _get_epoch_duration self w = (Ok s, w') /\
        w_logs w' = w_logs w /\ (w' = w \/ s = "[UNKNOWN]")).
Proof.
  intros self w current Hc.
  assert (Hkeep : forall (c : M string) (msg : string),
             silent c ->
             exists s w',
               try_except c (fun e => log_exception msg e ;;; ret "[UNKNOWN]") w
               = (Ok s, w') /\
               w_logs w' = w_logs w /\ (w' = w \/ s = "[UNKNOWN]")).
  { intros c msg Hs.
    destruct (try_or_unknown c msg w Hs) as (s & w' & H & [-> | [-> ->]]);
      exists s || exists "[UNKNOWN]"; eexists; (split; [exact H|]).
    - split; [reflexivity | left; reflexivity].
    - split; [reflexivity | right; reflexivity]. }
  split; [|split].
  - unfold _calc_eta, bind at 1, read_logs, bind at 1, _get_logs_base, lift at 1.
    rewrite Hc. apply Hkeep. repeat silent_step.
  - unfold _get_average_batch_duration, bind at 1, read_logs, bind at 1,
      _get_logs_base, lift at 1.
    rewrite Hc. apply Hkeep. repeat silent_step.
  - unfold _get_epoch_duration, bind at 1, read_logs, bind at 1,
      _get_logs_base, lift at 1.
    rewrite Hc. apply Hkeep. repeat silent_step.
Qed.

End LogProgressEstimates.

Lemma LogProgress_estimates_never_raise_witness :
  exists s w',
    _calc_eta (LogProgress_init 20 None true "current")
      (mkWorld (VDict [("current", VDict [])]) [] []) = (Ok s, w') /\
    w_logs w' = VDict [("current", VDict [])] /\
    (w' = mkWorld (VDict [("current", VDict [])]) [] [] \/ s = "[UNKNOWN]").
Proof.
  apply (proj1 (@LogProgress_estimates_never_raise int_builtins
                  (LogProgress_init 20 None true "current")
                  (mkWorld (VDict [("current", VDict [])]) [] []) (VDict [])
                  eq_refl)).
Defined.

Example calc_eta_without_duration :
  fst (_calc_eta (LogProgress_init 20 None true "current")
         (mkWorld (VDict [("current", VDict [])]) [] []))
  = Ok "[UNKNOWN]".
Proof. reflexivity. Qed.

(** ** [_create_log_for] *)

Lemma filter_length_lt_1 {A} (p : A -> bool) (l : list A) :
  (length (filter p l) <? 1)%nat = negb (existsb p l).
Proof.
  induction l as [|x l IH]; simpl; [reflexivity|].
  destruct (p x); simpl; [reflexivity | exact IH].
Qed.

Section CreateLogFor.
Context {py : PyBuiltins}.

(** X13.  [_create_log_for] answers [None], for nothing to show, exactly
    when it is given something that is not a mapping or a mapping whose
    metrics are all among the skipped ones ([auxiliary_results],
    [duration]). *)
Theorem create_log_for_none_iff :
  forall (metrics : pyobj) (base_metric : option string) (log_depth : nat),
    _create_log_for metrics base_metric log_depth = Ok None
    <-> displayable metrics = false.
Proof.
  intros metrics base_metric log_depth.
  destruct metrics; try (split; reflexivity).
  cbn [_create_log_for displayable]. cbv zeta.
  rewrite filter_length_lt_1.
  destruct (existsb (fun kv => negb (skip_metric_names (fst kv))) entries);
    cbn [negb].
  - split; [|discriminate]. intros H.
    match type of H with
    | rbind ?r _ = _ => destruct r as [logs|e]
    end; cbn [rbind] in H.
    + destruct (0 <? length logs)%nat; discriminate H.
    + discriminate H.
  - split; reflexivity.
Qed.

End CreateLogFor.

Lemma create_log_for_none_iff_witness :
  @_create_log_for int_builtins
    (VDict [("duration", VInt 2); ("auxiliary_results", VList [])]) None 0
  = Ok None.
Proof.
  apply (proj2 (@create_log_for_none_iff int_builtins
                  (VDict [("duration", VInt 2); ("auxiliary_results", VList [])])
                  None 0%nat)).
  reflexivity.
Defined.

(** ** [_create_log_for]: the one way it fails *)

Lemma loop_step_outcome (here : result (list string)) (b rest_any : bool)
    (rest_loop : result (list string)) :
  (b = true -> here = Raise IndexError) ->
  (b = false -> exists l, here = Ok l) ->
  (rest_any = true -> rest_loop = Raise IndexError) ->
  (rest_any = false -> exists l, rest_loop = Ok l) ->
  (b || rest_any = true ->
   rbind here (fun logs_here =>
     rbind rest_loop (fun more => Ok (logs_here ++ more)%list)) = Raise IndexError)
  /\ (b || rest_any = false ->
      exists l,
        rbind here (fun logs_here =>
          rbind rest_loop (fun more => Ok (logs_here ++ more)%list)) = Ok l).
Proof.
  intros Hb1 Hb2 Hr1 Hr2. destruct b; cbn [orb].
  - split; [|discriminate]. intros _. rewrite (Hb1 eq_refl). reflexivity.
  - destruct (Hb2 eq_refl) as [l ->]. cbn [rbind]. split; intros H.
    + rewrite (Hr1 H). reflexivity.
    + destruct (Hr2 H) as [l' ->]. eexists. reflexivity.
Qed.

Lemma nested_log_outcome (r : result (option string)) (b : bool) :
  (b = true -> r = Raise IndexError) ->
  (b = false -> exists log, r = Ok log) ->
  (b = true ->
   rbind r (fun nested_logs =>
     match nested_logs with Some n => Ok [nl ++ n] | None => Ok [] end)
   = Raise IndexError)
  /\ (b = false ->
      exists l,
        rbind r (fun nested_logs =>
          match nested_logs with Some n => Ok [nl ++ n] | None => Ok [] end)
        = Ok l).
Proof.
  intros H1 H2. split; intros H.
  - rewrite (H1 H). reflexivity.
  - destruct (H2 H) as [[n|] ->]; eexists; reflexivity.
Qed.

Section CreateLogForOutcome.
Context {py : PyBuiltins}.

Lemma create_log_for_outcome_nested :
  forall v,
    create_log_for_outcome v /\
    (forall first rest, v = VTuple (first :: rest) -> create_log_for_outcome first).
Proof.
  induction v using pyobj_nested_ind;
    try (split; [intros base_metric depth; split; [discriminate | intros _; eexists; reflexivity]
                | intros first rest E; try discriminate E]).
  - inversion E; subst. inversion H; subst. tauto.
  - split; [|intros first rest E; discriminate E].
    intros base_metric depth.
    cbn [_create_log_for shows_empty_tuple]. cbv zeta.
    rewrite filter_length_lt_1.
    match goal with |- context [rbind (?f entries) _] => set (loop := f) end.
    match goal with |- context [?f entries = true] => set (any := f) end.
    assert (Hloop : (any entries = true -> loop entries = Raise IndexError) /\
                    (any entries = false -> exists l, loop entries = Ok l)).
    { clear -H. induction H as [|[metric value] items Hv Hitems IH].
      - split; [discriminate | intros _; eexists; reflexivity].
      - change (any ((metric, value) :: items)) with
          (if skip_metric_names metric then any items
           else match value with
                | VTuple [] => true
                | VTuple ((VDict _ as first) :: _) => shows_empty_tuple first
                | VDict _ => shows_empty_tuple value
                | _ => false
                end || any items).
        change (loop ((metric, value) :: items)) with
          (if skip_metric_names metric then loop items
           else rbind
                  (match value with
                   | VTuple [] => Raise IndexError
                   | VTuple ((VDict _ as first) :: _) =>
                       rbind (_create_log_for first (Some metric) (S depth))
                         (fun nested_logs =>
                            match nested_logs with
                            | Some n => Ok [nl ++ n]
                            | None => Ok []
                            end)
                   | VTuple (first :: _) => Ok [metric_value_log metric first]
                   | VDict _ =>
                       rbind (_create_log_for value (Some metric) (S depth))
                         (fun nested_logs =>
                            match nested_logs with
                            | Some n => Ok [nl ++ n]
                            | None => Ok []
                            end)
                   | _ => Ok [metric_value_log metric value]
                   end)
                  (fun logs_here =>
                     rbind (loop items)
                       (fun more => Ok (logs_here ++ more)%list))).
        destruct (skip_metric_names metric); [exact IH|].
        destruct IH as [IH1 IH2]. destruct Hv as [Hval Hfirst].
        cbn [snd] in Hval, Hfirst.
        apply loop_step_outcome; try assumption.
        + destruct value as [| | | | |[|first rest]| | |];
            try discriminate; try reflexivity.
          * destruct first; try discriminate.
            apply (proj1 (nested_log_outcome _ _
                            (proj1 (Hfirst _ _ eq_refl (Some metric) (S depth)))
                            (proj2 (Hfirst _ _ eq_refl (Some metric) (S depth))))).
          * apply (proj1 (nested_log_outcome _ _
                            (proj1 (Hval (Some metric) (S depth)))
                            (proj2 (Hval (Some metric) (S depth))))).
        + destruct value as [| | | | |[|first rest]| | |];
            try discriminate; try (intros _; eexists; reflexivity).
          * destruct first; try (intros _; eexists; reflexivity).
            apply (proj2 (nested_log_outcome _ _
                            (proj1 (Hfirst _ _ eq_refl (Some metric) (S depth)))
                            (proj2 (Hfirst _ _ eq_refl (Some metric) (S depth))))).
          * apply (proj2 (nested_log_outcome _ _
                            (proj1 (Hval (Some metric) (S depth)))
                            (proj2 (Hval (Some metric) (S depth))))). }
    assert (Hskip : existsb (fun kv => negb (skip_metric_names (fst kv))) entries = false ->
                    any entries = false).
    { clear. induction entries as [|[metric value] items IH]; [reflexivity|].
      cbn [existsb fst]. intros Hx. apply orb_false_iff in Hx as [Hm Hx].
      apply negb_false_iff in Hm.
      change (any ((metric, value) :: items)) with
          (if skip_metric_names metric then any items
           else match value with
                | VTuple [] => true
                | VTuple ((VDict _ as first) :: _) => shows_empty_tuple first
                | VDict _ => shows_empty_tuple value
                | _ => false
                end || any items).
      rewrite Hm. apply IH, Hx. }
    destruct Hloop as [Hl1 Hl2].
    destruct (existsb (fun kv => negb (skip_metric_names (fst kv))) entries);
      cbn [negb].
    + split; intros Ha.
      * rewrite (Hl1 Ha). reflexivity.
      * destruct (Hl2 Ha) as [l ->]. cbn [rbind].
        destruct (0 <? length l)%nat; eexists; reflexivity.
    + split; intros Ha.
      * rewrite (Hskip eq_refl) in Ha. discriminate Ha.
      * eexists. reflexivity.
Qed.

(** X14.  [_create_log_for] fails in one situation only: a metric that
    it shows, at any depth of the nested mappings, has the empty tuple as
    its value, and then it raises [IndexError].  In every other case it
    returns; a value that cannot be formatted does not make it fail. *)
Theorem create_log_for_raises_iff_empty_tuple :
  forall (metrics : pyobj) (base_metric : option string) (log_depth : nat),
    (shows_empty_tuple metrics = true ->
     _create_log_for metrics base_metric log_depth = Raise IndexError)
    /\ (shows_empty_tuple metrics = false ->
        exists log, _create_log_for metrics base_metric log_depth = Ok log).
Proof.
  intros metrics base_metric log_depth.
  apply (proj1 (create_log_for_outcome_nested metrics)).
Qed.

End CreateLogForOutcome.

Lemma create_log_for_raises_iff_empty_tuple_witness :
  @_create_log_for int_builtins
    (VDict [("loss", VInt 2); ("classification", VDict [("accuracy", VTuple [])])])
    None 0 = Raise IndexError
  /\ exists log,
      @_create_log_for int_builtins
        (VDict [("loss", VStr "n/a"); ("duration", VTuple [])]) None 0 = Ok log.
Proof.
  split.
  - apply (proj1 (@create_log_for_raises_iff_empty_tuple int_builtins
                    (VDict [("loss", VInt 2);
                            ("classification", VDict [("accuracy", VTuple [])])])
                    None 0%nat)).
    reflexivity.
  - apply (proj2 (@create_log_for_raises_iff_empty_tuple int_builtins
                    (VDict [("loss", VStr "n/a"); ("duration", VTuple [])])
                    None 0%nat)).
    reflexivity.
Defined.

Example create_log_for_unformattable :
  @_create_log_for int_builtins
    (VDict [("loss", VStr "n/a"); ("duration", VTuple [])]) None 0
  = Ok (Some "[UNKNOWN]").
Proof. reflexivity. Qed.

(** ** [BatchSizeLogger]: all or nothing, and nothing else *)

Section BatchSizeLoggerMore.
Context {B : Type} {batch_ops : PyObject B}.

(** What a successful [on_batch_training_start] went through. *)
Lemma on_batch_training_start_ok_inv self (training_batch : B) w b w' :
  on_batch_training_start self training_batch w = (Ok b, w') ->
  exists dl dc dt db n,
    w_logs w = VDict dl /\
    dict_lookup "current" dl = Some (VDict dc) /\
    dict_lookup "training_params" dc = Some (VDict dt) /\
    dict_lookup "batch" dt = Some (VDict db) /\
    batch_sample_count self training_batch = Ok n /\
    b = true /\
    w' = mkWorld
           (VDict (dict_update "current"
              (VDict (dict_update "training_params"
                 (VDict (dict_update "batch"
                    (VDict (dict_update "batch_size" n db)) dt)) dc)) dl))
           (w_stdout w) (w_logger w).
Proof.
  intros H. unfold on_batch_training_start in H.
  apply bind_ok_inv in H as (logs & w1 & H1 & H).
  unfold read_logs in H1. inversion H1; subst logs w1. clear H1.
  apply bind_ok_inv in H as (current & w1 & H1 & H).
  apply lift_ok_inv in H1 as [H1 ->].
  apply py_getitem_ok_inv in H1 as (dl & Hl & E1).
  apply bind_ok_inv in H as (n & w1 & H2 & H).
  apply lift_ok_inv in H2 as [H2 ->].
  apply bind_ok_inv in H as (tp & w1 & H3 & H).
  apply lift_ok_inv in H3 as [H3 ->].
  apply py_getitem_ok_inv in H3 as (dc & -> & E2).
  apply bind_ok_inv in H as (batch & w1 & H4 & H).
  apply lift_ok_inv in H4 as [H4 ->].
  apply py_getitem_ok_inv in H4 as (dt & -> & E3).
  apply bind_ok_inv in H as (batch' & w1 & H5 & H).
  apply lift_ok_inv in H5 as [H5 ->].
  apply py_setitem_ok_inv in H5 as (db & -> & ->).
  apply bind_ok_inv in H as ([] & w1 & H6 & H).
  unfold store_logs in H6. inversion H6; subst w1. clear H6.
  unfold ret in H. inversion H; subst b w'. clear H.
  exists dl, dc, dt, db, n. rewrite Hl.
  unfold with_logs_base. cbn [with_child]. repeat split; assumption.
Qed.

(** X15.  Once the logs have their [current] entry,
    [on_batch_training_start] is all or nothing: when it raises, be it
    for a batch whose size cannot be taken or for an entry missing below
    [current], the world is what it was before the call. *)
Theorem BatchSizeLogger_failure_changes_nothing :
  forall (self : BatchSizeLogger) (training_batch : B) (w w' : world)
         (current : pyobj) (e : exn),
    py_getitem (w_logs w) "current" = Ok current ->
    on_batch_training_start self training_batch w = (Raise e, w') -> w' = w.
Proof.
  intros self training_batch w w' current e Hc H.
  unfold on_batch_training_start, bind at 1, read_logs, bind at 1,
    _get_logs_base, lift at 1 in H.
  rewrite Hc in H.
  unfold bind, lift, store_logs, ret in H.
  repeat match type of H with
         | context [match ?r with Ok _ => _ | Raise _ => _ end] =>
             destruct r; try discriminate H
         end;
    inversion H; reflexivity.
Qed.

(** X16.  What a successful [on_batch_training_start] does to the logs
    is what [set_value_at] does for the path
    [current.training_params.batch.batch_size] and the sample count of
    the batch: the same tree comes out, and [set_value_at] finds the
    path in place and logs nothing. *)
Theorem BatchSizeLogger_stores_like_set_value_at :
  forall (self : BatchSizeLogger) (training_batch : B) (w w' : world) (b : bool),
    on_batch_training_start self training_batch w = (Ok b, w') ->
    exists n,
      batch_sample_count self training_batch = Ok n /\
      forall warn w0,
        set_value_at "current.training_params.batch.batch_size" (w_logs w) n
          warn None w0 = (Ok (w_logs w'), w0).
Proof.
  intros self training_batch w w' b H.
  apply on_batch_training_start_ok_inv in H
    as (dl & dc & dt & db & n & Hl & E1 & E2 & E3 & Hn & _ & ->).
  exists n. split; [exact Hn|]. intros warn w0. rewrite Hl.
  unfold set_value_at.
  change (split_dot "current.training_params.batch.batch_size")
    with ["current"; "training_params"; "batch"; "batch_size"].
  rewrite set_value_at_keys_step. cbv zeta.
  cbn [can_get_and_set_values is_none negb andb].
  rewrite has_key_dict, E1. cbn [negb].
  unfold bind at 1. unfold ret at 1.
  unfold bind at 1. unfold lift at 1. cbn [py_getitem]. rewrite E1.
  unfold bind at 1.
  rewrite set_value_at_keys_step. cbv zeta.
  cbn [can_get_and_set_values is_none negb andb].
  rewrite has_key_dict, E2. cbn [negb].
  unfold bind at 1. unfold ret at 1.
  unfold bind at 1. unfold lift at 1. cbn [py_getitem]. rewrite E2.
  unfold bind at 1.
  rewrite set_value_at_keys_step. cbv zeta.
  cbn [can_get_and_set_values is_none negb andb].
  rewrite has_key_dict, E3. cbn [negb].
  unfold bind at 1. unfold ret at 1.
  unfold bind at 1. unfold lift at 1. cbn [py_getitem]. rewrite E3.
  unfold bind at 1.
  cbn [set_value_at_keys can_get_and_set_values is_none negb andb with_child
       w_logs].
  reflexivity.
Qed.

(** X17.  On logs that hold no container at two places (trees are
    values here, see [with_child]), [on_batch_training_start] touches one
    path of the logs: for a key path that parts ways with
    [current.training_params.batch.batch_size], [get_value_at] gives
    after the call what it gave before. *)
Theorem BatchSizeLogger_leaves_other_paths :
  forall (self : BatchSizeLogger) (training_batch : B) (w w' : world) (b : bool)
         (other_path : string),
    on_batch_training_start self training_batch w = (Ok b, w') ->
    diverge batch_size_path (split_dot other_path) = true ->
    forall default warn w0,
      get_value_at other_path (w_logs w') default warn w0
      = get_value_at other_path (w_logs w) default warn w0.
Proof.
  intros self training_batch w w' b other_path H Hd default warn w0.
  apply on_batch_training_start_ok_inv in H
    as (dl & dc & dt & db & n & Hl & E1 & E2 & E3 & Hn & _ & ->).
  cbn [w_logs]. rewrite Hl.
  unfold get_value_at, bind.
  assert (Hset : set_value_at_keys batch_size_path (VDict dl) n false None w0
                 = (Ok (VDict (dict_update "current"
                      (VDict (dict_update "training_params"
                         (VDict (dict_update "batch"
                            (VDict (dict_update "batch_size" n db)) dt)) dc)) dl)),
                    w0)).
  { unfold batch_size_path.
    rewrite set_value_at_keys_step. cbv zeta.
    cbn [can_get_and_set_values is_none negb andb].
    rewrite has_key_dict, E1. cbn [negb].
    unfold bind at 1. unfold ret at 1.
    unfold bind at 1. unfold lift at 1. cbn [py_getitem]. rewrite E1.
    unfold bind at 1.
    rewrite set_value_at_keys_step. cbv zeta.
    cbn [can_get_and_set_values is_none negb andb].
    rewrite has_key_dict, E2. cbn [negb].
    unfold bind at 1. unfold ret at 1.
    unfold bind at 1. unfold lift at 1. cbn [py_getitem]. rewrite E2.
    unfold bind at 1.
    rewrite set_value_at_keys_step. cbv zeta.
    cbn [can_get_and_set_values is_none negb andb].
    rewrite has_key_dict, E3. cbn [negb].
    unfold bind at 1. unfold ret at 1.
    unfold bind at 1. unfold lift at 1. cbn [py_getitem]. rewrite E3.
    unfold bind at 1.
    cbn [set_value_at_keys can_get_and_set_values is_none negb andb with_child].
    reflexivity. }
  rewrite (get_value_at_loop_frame other_path warn _ _ _ _ _ _ _ _ _ Hset Hd w0).
  reflexivity.
Qed.

End BatchSizeLoggerMore.

Lemma BatchSizeLogger_failure_changes_nothing_witness :
  snd (on_batch_training_start (mkBatchSizeLogger 1) batch_of_lists
         (mkWorld logs_with_batch_params [] []))
  = mkWorld logs_with_batch_params [] [].
Proof.
  apply (@BatchSizeLogger_failure_changes_nothing torch_batch torch_batch_object
           (mkBatchSizeLogger 1) batch_of_lists
           (mkWorld logs_with_batch_params [] []) _
           (VDict [("training_params", VDict [("batch", VDict [])])])
           AttributeError).
  - reflexivity.
  - reflexivity.
Defined.

Lemma BatchSizeLogger_stores_like_set_value_at_witness :
  exists n,
    batch_sample_count (mkBatchSizeLogger 0) batch_of_tensors = Ok n /\
    forall warn w0,
      set_value_at "current.training_params.batch.batch_size" running_logs n
        warn None w0
      = (Ok (w_logs (snd (on_batch_training_start (mkBatchSizeLogger 0)
                            batch_of_tensors (mkWorld running_logs [] [])))), w0).
Proof.
  apply (@BatchSizeLogger_stores_like_set_value_at torch_batch torch_batch_object
           (mkBatchSizeLogger 0) batch_of_tensors (mkWorld running_logs [] [])
           _ true).
  reflexivity.
Defined.

Lemma BatchSizeLogger_leaves_other_paths_witness :
  get_value_at "current.training.batch.loss"
    (w_logs (snd (on_batch_training_start (mkBatchSizeLogger 0)
                    batch_of_tensors (mkWorld running_logs [] []))))
    VNone true empty_world
  = get_value_at "current.training.batch.loss" running_logs VNone true empty_world.
Proof.
  apply (@BatchSizeLogger_leaves_other_paths torch_batch torch_batch_object
           (mkBatchSizeLogger 0) batch_of_tensors (mkWorld running_logs [] [])
           _ true "current.training.batch.loss"); reflexivity.
Defined.

(** ** [LogProgress]: when nothing is written *)

Lemma silent_get_value_at_loop key_path keys :
  forall value, silent (get_value_at_loop key_path false keys value).
Proof.
  induction keys as [|key keys IH]; intros value; cbn [get_value_at_loop].
  - apply silent_ret.
  - destruct (has_key value key).
    + apply silent_bind; [apply silent_lift | intro; apply IH].
    + apply silent_bind; [apply silent_ret | intro; apply silent_ret].
Qed.

(** A lookup without warning that does not run into a sequence: it
    returns, the world is as before, and what it returns is [None] or the
    value stored at the path. *)
Lemma get_value_at_quiet key_path tree w :
  runs_into_sequence (split_dot key_path) tree = false ->
  exists v,
    get_value_at key_path tree VNone false w = (Ok v, w) /\
    (v = VNone \/ stored_at (split_dot key_path) tree = Some v).
Proof.
  intros Hr.
  destruct (proj2 (get_value_at_raises_iff key_path tree VNone false w) Hr)
    as [v Hv].
  assert (Hs : snd (get_value_at key_path tree VNone false w) = w).
  { unfold get_value_at.
    apply (silent_bind _ _ (silent_get_value_at_loop key_path _ tree)).
    intro. apply silent_ret. }
  destruct (get_value_at key_path tree VNone false w) as [r w1] eqn:E.
  cbn [fst snd] in Hv, Hs. subst r w1.
  exists v. split; [reflexivity|].
  unfold get_value_at in E.
  apply bind_ok_inv in E as (v0 & w1 & Hl & E).
  unfold ret in E. inversion E; subst.
  destruct (get_value_at_loop_sound _ _ _ _ _ _ _ Hl) as [-> | Hst].
  - left. reflexivity.
  - right. destruct v0; exact Hst.
Qed.

Lemma dataset_metrics_loop_none names current w :
  (forall name, In name names ->
     runs_into_sequence (split_dot (name ++ ".dataset")) current = false /\
     forall d, stored_at (split_dot (name ++ ".dataset")) current = Some (VDict d) ->
               d = []) ->
  dataset_metrics_loop names current false w = (Ok false, w).
Proof.
  induction names as [|name names IH]; intros H; cbn [dataset_metrics_loop].
  - reflexivity.
  - destruct (H name (or_introl eq_refl)) as [Hr Hd].
    destruct (get_value_at_quiet (name ++ ".dataset") current w Hr)
      as (v & Hv & Hst).
    unfold bind at 1. rewrite Hv. cbn [orb].
    assert (Hv' : match v with VDict d => (0 <? length d)%nat | _ => false end
                  = false).
    { destruct v; try reflexivity.
      destruct Hst as [Hst | Hst]; [discriminate Hst|].
      rewrite (Hd _ Hst). reflexivity. }
    rewrite Hv'. apply IH. intros n Hn. apply H. right. exact Hn.
Qed.

Section LogProgressGate.
Context {py : PyBuiltins}.

(** X18.  Between two log periods [on_batch_training_completed] is
    silent: when the batch step is not [0] and not a multiple of
    [log_period], and no set has metrics at the dataset level, the hook
    returns [True] and writes nothing.  The same holds, whatever the
    logs, for a [LogProgress] with [batch_level] switched off. *)
Theorem LogProgress_silent_between_periods :
  forall (B : Type) (self : LogProgress) (training_batch : B) (w : world)
         (current batch_step r : pyobj),
    (batch_level self = false ->
     on_batch_training_completed self training_batch w = (Ok true, w))
    /\ (py_getitem (w_logs w) "current" = Ok current ->
        py_getitem current "batch_step" = Ok batch_step ->
        (forall name, In name (set_names self) ->
           runs_into_sequence (split_dot (name ++ ".dataset")) current = false /\
           forall d, stored_at (split_dot (name ++ ".dataset")) current
                     = Some (VDict d) -> d = []) ->
        py_eq batch_step (VInt 0) = false ->
        py_mod batch_step (VInt (log_period self)) = Ok r ->
        py_eq r (VInt 0) = false ->
        on_batch_training_completed self training_batch w = (Ok true, w)).
Proof.
  intros B self training_batch w current batch_step r. split.
  - intros Hb. unfold on_batch_training_completed. rewrite Hb. reflexivity.
  - intros Hc Hs Hsets He Hm Hr.
    unfold on_batch_training_completed.
    destruct (batch_level self); cbn [negb]; [|reflexivity]. cbv zeta.
    unfold bind at 1. unfold read_logs at 1.
    unfold bind at 1. unfold _get_logs_base at 1. unfold lift at 1. rewrite Hc.
    unfold bind at 1. unfold lift at 1. rewrite Hs.
    unfold bind at 1. rewrite (dataset_metrics_loop_none _ _ w Hsets).
    unfold bind at 1. unfold lift at 1. rewrite He, Hm. cbn [rbind].
    rewrite Hr. cbn [orb].
    unfold bind, ret. reflexivity.
Qed.

End LogProgressGate.

Lemma LogProgress_silent_between_periods_witness :
  on_batch_training_completed
    (LogProgress_init 20 (Some ["training"; "validation"]) false "current")
    batch_of_tensors empty_world = (Ok true, empty_world)
  /\ on_batch_training_completed
       (LogProgress_init 7 (Some ["training"; "validation"]) true "current")
       batch_of_tensors (mkWorld running_logs [] [])
     = (Ok true, mkWorld running_logs [] []).
Proof.
  split.
  - apply (proj1 (@LogProgress_silent_between_periods int_builtins torch_batch
                    (LogProgress_init 20 (Some ["training"; "validation"]) false
                       "current")
                    batch_of_tensors empty_world VNone VNone VNone)).
    reflexivity.
  - apply (proj2 (@LogProgress_silent_between_periods int_builtins torch_batch
                    (LogProgress_init 7 (Some ["training"; "validation"]) true
                       "current")
                    batch_of_tensors (mkWorld running_logs [] [])
                    (VDict [
                       ("epoch", VInt 3); ("batch_step", VInt 40);
                       ("training_params", VDict [
                          ("batch", VDict [("batch_size", VInt 32)]);
                          ("window_average", VDict [("duration", VInt 2)]);
                          ("epoch", VDict [("duration", VInt 75)])]);
                       ("training", VDict [
                          ("batch", VDict [("loss", VInt 2)]);
                          ("window_average",
                           VDict [("loss", VInt 0); ("duration", VInt 2)])])])
                    (VInt 40) (VInt 5))).
    + reflexivity.
    + reflexivity.
    + intros name [<- | [<- | []]]; split; try reflexivity;
        intros d Hd; discriminate Hd.
    + reflexivity.
    + reflexivity.
    + reflexivity.
Defined.

(** ** [LogProgress]: what is written, and in which order *)

Lemma quiet_ret {A} (a : A) : quiet (ret a).
Proof. intros w. split; reflexivity. Qed.

Lemma quiet_lift {A} (r : result A) : quiet (lift r).
Proof. intros w. split; reflexivity. Qed.

Lemma quiet_read_logs : quiet read_logs.
Proof. intros w. split; reflexivity. Qed.

Lemma quiet_logger_warn msg : quiet (logger_warn msg).
Proof. intros w. split; reflexivity. Qed.

Lemma quiet_log_exception msg e : quiet (log_exception msg e).
Proof. apply quiet_logger_warn. Qed.

Lemma quiet_bind {A B} (c : M A) (k : A -> M B) :
  quiet c -> (forall a, quiet (k a)) -> quiet (bind c k).
Proof.
  intros Hc Hk w. unfold bind. destruct (Hc w) as [Hl Hs].
  destruct (c w) as [[a|e] w1]; simpl in *.
  - destruct (Hk a w1) as [Hl2 Hs2]. split; congruence.
  - split; assumption.
Qed.

Lemma quiet_try_except {A} (c : M A) (h : exn -> M A) :
  quiet c -> (forall e, quiet (h e)) -> quiet (try_except c h).
Proof.
  intros Hc Hh w. unfold try_except. destruct (Hc w) as [Hl Hs].
  destruct (c w) as [[a|e] w1]; simpl in *.
  - split; assumption.
  - destruct (Hh e w1) as [Hl2 Hs2]. split; congruence.
Qed.

Lemma quiet_get_value_at key_path nested_data default warn :
  quiet (get_value_at key_path nested_data default warn).
Proof.
  unfold get_value_at. apply quiet_bind; [|intro; apply quiet_ret].
  generalize (split_dot key_path) as keys. intros keys. revert nested_data.
  induction keys as [|key keys IH]; intros value; cbn [get_value_at_loop].
  - apply quiet_ret.
  - destruct (has_key value key).
    + apply quiet_bind; [apply quiet_lift | intro; apply IH].
    + apply quiet_bind; [|intro; apply quiet_ret].
      destruct warn; [apply quiet_logger_warn | apply quiet_ret].
Qed.

Ltac quiet_step :=
  match goal with
  | |- quiet (get_value_at _ _ _ _) => apply quiet_get_value_at
  | |- quiet (bind _ _) => apply quiet_bind; [|intro]
  | |- quiet (try_except _ _) => apply quiet_try_except; [|intro]
  | |- quiet (if ?b then _ else _) => destruct b
  | |- quiet (match ?x with _ => _ end) => destruct x
  | |- quiet (ret _) => apply quiet_ret
  | |- quiet (lift _) => apply quiet_lift
  | |- quiet read_logs => apply quiet_read_logs
  | |- quiet (log_exception _ _) => apply quiet_log_exception
  | |- quiet (logger_warn _) => apply quiet_logger_warn
  | |- quiet (when _ _) => unfold when
  | |- quiet (_get_logs_base _) => unfold _get_logs_base
  end.

Section LogProgressOutput.
Context {py : PyBuiltins}.

Lemma quiet_metrics_log_loop self metric_level names :
  forall metrics_log, quiet (metrics_log_loop self metric_level names metrics_log).
Proof.
  induction names as [|set_name names IH]; intros metrics_log;
    cbn [metrics_log_loop]; [apply quiet_ret|].
  apply quiet_bind.
  - unfold _create_set_metrics_log_for. repeat quiet_step.
  - intros [l|]; apply IH.
Qed.

Lemma quiet_dataset_metrics_loop names current :
  forall has, quiet (dataset_metrics_loop names current has).
Proof.
  induction names as [|set_name names IH]; intros has;
    cbn [dataset_metrics_loop]; [apply quiet_ret|].
  apply quiet_bind; [apply quiet_get_value_at|]. intros v.
  match goal with |- quiet (if ?b then _ else _) => destruct b end;
    [apply quiet_ret | apply IH].
Qed.

Lemma quiet_calc_eta self : quiet (_calc_eta self).
Proof. unfold _calc_eta. repeat quiet_step. Qed.

Lemma quiet_get_average_batch_duration self :
  quiet (_get_average_batch_duration self).
Proof. unfold _get_average_batch_duration. repeat quiet_step. Qed.

Lemma quiet_get_epoch_duration self : quiet (_get_epoch_duration self).
Proof. unfold _get_epoch_duration. repeat quiet_step. Qed.

(** X19.  [_write_metric_logs] writes a metric level as a whole or not
    at all: when it returns, either nothing was added to the progress
    text, or the title of the level and, after it, a text of metrics
    that is not empty.  A title never stands alone. *)
Theorem write_metric_logs_all_or_nothing :
  forall (self : LogProgress) (metric_level : string) (w w' : world),
    _write_metric_logs self metric_level w = (Ok tt, w') ->
    w_logs w' = w_logs w /\
    (w_stdout w' = w_stdout w \/
     exists title metrics_log,
       metric_level_names metric_level = Ok title /\
       metrics_log <> EmptyString /\
       w_stdout w' = (w_stdout w ++ [(title ++ ":" ++ nl)%string; metrics_log])%list).
Proof.
  intros self metric_level w w' H. unfold _write_metric_logs in H.
  apply bind_ok_inv in H as (metrics_log & w1 & Hloop & H).
  pose proof (quiet_metrics_log_loop self metric_level (set_names self)
                EmptyString w) as [Hl Hs].
  rewrite Hloop in Hl, Hs. cbn [snd] in Hl, Hs.
  destruct (0 <? String.length metrics_log)%nat eqn:E.
  - apply bind_ok_inv in H as (title & w2 & Ht & H).
    apply lift_ok_inv in Ht as [Ht ->].
    unfold bind, _write in H. inversion H; subst w'. cbn [w_logs w_stdout].
    split; [exact Hl|]. right. exists title, metrics_log.
    split; [exact Ht|]. split.
    + intros ->. discriminate E.
    + rewrite Hs, <- app_assoc. reflexivity.
  - unfold ret in H. inversion H; subst. split; [exact Hl | left; exact Hs].
Qed.

Lemma write_levels_appends self levels :
  forall w, exists text,
    w_stdout (snd (write_levels self levels w)) = (w_stdout w ++ text)%list.
Proof.
  intros w. apply (proj2 (read_only_write_levels self levels w)).
Qed.

(** X20.  Whenever [on_batch_training_completed] returns, it returns
    [True], and for the progress text there are two cases: nothing was
    written, or the first text written is the header of the report, which
    opens with a line break and the word [Epoch].  On batch step [0] it
    is the second. *)
Theorem on_batch_training_completed_header_first :
  forall (B : Type) (self : LogProgress) (training_batch : B) (w w' : world)
         (success : bool),
    on_batch_training_completed self training_batch w = (Ok success, w') ->
    success = true /\
    (w_stdout w' = w_stdout w \/
     exists rest more,
       w_stdout w' = (w_stdout w ++ (nl ++ "Epoch " ++ rest)%string :: more)%list)
    /\ (forall current batch_step,
          batch_level self = true ->
          py_getitem (w_logs w) "current" = Ok current ->
          py_getitem current "batch_step" = Ok batch_step ->
          py_eq batch_step (VInt 0) = true ->
          exists rest more,
            w_stdout w' = (w_stdout w ++ (nl ++ "Epoch " ++ rest)%string :: more)%list).
Proof.
  intros B self training_batch w w' success H.
  unfold on_batch_training_completed in H.
  destruct (batch_level self) eqn:Hb; cbn [negb] in H.
  2:{ unfold ret in H. inversion H; subst.
      split; [reflexivity|]. split; [left; reflexivity|].
      intros ? ? Hx. discriminate Hx. }
  cbv zeta in H.
  apply bind_ok_inv in H as (logs & w1 & H1 & H).
  unfold read_logs in H1. inversion H1; subst logs w1. clear H1.
  apply bind_ok_inv in H as (current & w1 & H1 & H).
  unfold _get_logs_base in H1. apply lift_ok_inv in H1 as [Hc ->].
  apply bind_ok_inv in H as (batch_step & w1 & H1 & H).
  apply lift_ok_inv in H1 as [Hs ->].
  apply bind_ok_inv in H as (has & w1 & Hloop & H).
  pose proof (quiet_dataset_metrics_loop (set_names self) current false w)
    as [_ Hq1].
  rewrite Hloop in Hq1. cbn [snd] in Hq1.
  apply bind_ok_inv in H as (due & w2 & Hdue & H).
  apply lift_ok_inv in Hdue as [Hdue ->].
  apply bind_ok_inv in H as ([] & w3 & Hbody & H).
  unfold ret in H. inversion H; subst success w3. clear H.
  split; [reflexivity|].
  assert (Hwritten : due = true ->
            exists rest more,
              w_stdout w' = (w_stdout w ++ (nl ++ "Epoch " ++ rest)%string :: more)%list).
  { intros ->.
    apply bind_ok_inv in Hbody as (eta & wa & Heta & Hbody).
    pose proof (quiet_calc_eta self w1) as [_ Hq2].
    rewrite Heta in Hq2. cbn [snd] in Hq2.
    apply bind_ok_inv in Hbody as (avg & wb & Havg & Hbody).
    pose proof (quiet_get_average_batch_duration self wa) as [_ Hq3].
    rewrite Havg in Hq3. cbn [snd] in Hq3.
    apply bind_ok_inv in Hbody as (epoch & wc & Hx & Hbody).
    apply lift_ok_inv in Hx as [_ ->].
    apply bind_ok_inv in Hbody as (final_epoch & wc & Hx & Hbody).
    apply lift_ok_inv in Hx as [_ ->].
    apply bind_ok_inv in Hbody as (batch_step' & wc & Hx & Hbody).
    apply lift_ok_inv in Hx as [_ ->].
    apply bind_ok_inv in Hbody as (final_batch_step & wc & Hx & Hbody).
    apply lift_ok_inv in Hx as [_ ->].
    apply bind_ok_inv in Hbody as (text & wc & Htext & Hbody).
    apply lift_ok_inv in Htext as [Htext ->].
    apply bind_ok_inv in Hbody as ([] & wd & Hw & Hbody).
    unfold _write in Hw. inversion Hw; subst wd. clear Hw.
    apply bind_ok_inv in Hbody as ([] & we & Hlv & Hbody).
    destruct (write_levels_appends self
                ["batch"; "window_average"; "dataset"; "epoch"]
                (mkWorld (w_logs wb) (w_stdout wb ++ [text])%list (w_logger wb)))
      as [more Hmore].
    rewrite Hlv in Hmore. cbn [snd w_stdout] in Hmore.
    unfold _write in Hbody. inversion Hbody; subst w'. cbn [w_stdout].
    destruct (py_format "d" epoch) as [e|]; [|discriminate Htext].
    destruct (py_format "d" final_epoch) as [fe|]; [|discriminate Htext].
    destruct (py_format "d" batch_step') as [bs|]; [|discriminate Htext].
    destruct (py_format "d" final_batch_step) as [fb|]; [|discriminate Htext].
    cbn [rbind] in Htext. inversion Htext; subst text.
    eexists _, (more ++ [nl])%list.
    rewrite Hmore, Hq3, Hq2, Hq1, <- !app_assoc. cbn [app]. reflexivity. }
  split.
  - destruct due; [right; apply Hwritten; reflexivity|].
    left. unfold ret in Hbody. inversion Hbody; subst. exact Hq1.
  - intros current' batch_step' _ Hc' Hs' He.
    rewrite Hc in Hc'. inversion Hc'; subst current'.
    rewrite Hs in Hs'. inversion Hs'; subst batch_step'.
    rewrite He in Hdue. inversion Hdue; subst due.
    apply Hwritten. reflexivity.
Qed.

(** X21.  Once the logs have their [current] entry, [on_epoch_completed]
    puts its banner on the progress text before anything else: a line
    break, the rule and a line break are there after the call whether it
    returns or raises, for instance for a missing [epoch] or
    [final_epoch]. *)
Theorem on_epoch_completed_banner_first :
  forall (self : LogProgress) (w : world) (current : pyobj),
    py_getitem (w_logs w) "current" = Ok current ->
    exists more,
      w_stdout (snd (on_epoch_completed self w))
      = (w_stdout w ++
         nl :: "###############################################################################"
         :: nl :: more)%list.
Proof.
  intros self w current Hc. unfold on_epoch_completed.
  unfold bind at 1. unfold read_logs at 1.
  unfold bind at 1. unfold _get_logs_base at 1. unfold lift at 1. rewrite Hc.
  unfold bind at 1.
  pose proof (quiet_get_epoch_duration self w) as [_ Hq].
  destruct (_get_epoch_duration self w) as [[duration|e] w1] eqn:Hd;
    cbn [snd] in Hq.
  2:{ exfalso. unfold _get_epoch_duration in Hd.
      unfold bind at 1, read_logs at 1 in Hd.
      unfold bind at 1, _get_logs_base at 1, lift at 1 in Hd. rewrite Hc in Hd.
      match type of Hd with
      | try_except ?c _ _ = _ =>
          destruct (try_or_unknown c "Unable to get epoch duration" w)
            as (s & w2 & Hs & _); [repeat silent_step|]
      end.
      rewrite Hs in Hd. discriminate Hd. }
  unfold bind at 1. unfold _write at 1.
  unfold bind at 1. unfold _write at 1.
  unfold bind at 1. unfold _write at 1. cbn [w_logs w_stdout w_logger].
  match goal with
  | |- exists more, w_stdout (snd (?c ?w0)) = _ =>
      assert (Hro : read_only c)
  end.
  { frame. apply read_only_write_levels. }
  match goal with
  | |- exists more, w_stdout (snd (?c ?w0)) = _ =>
      destruct (Hro w0) as (_ & more & Hmore)
  end.
  exists more. rewrite Hmore. cbn [w_stdout]. rewrite Hq, <- !app_assoc.
  reflexivity.
Qed.

End LogProgressOutput.

Lemma write_metric_logs_all_or_nothing_witness :
  w_logs (snd (_write_metric_logs (LogProgress_init 20 None true "current")
                 "batch" (mkWorld running_logs [] []))) = running_logs /\
  (w_stdout (snd (_write_metric_logs (LogProgress_init 20 None true "current")
                    "batch" (mkWorld running_logs [] []))) = [] \/
   exists title metrics_log,
     metric_level_names "batch" = Ok title /\
     metrics_log <> EmptyString /\
     w_stdout (snd (_write_metric_logs (LogProgress_init 20 None true "current")
                      "batch" (mkWorld running_logs [] [])))
     = ([] ++ [(title ++ ":" ++ nl)%string; metrics_log])%list).
Proof.
  apply (@write_metric_logs_all_or_nothing int_builtins
           (LogProgress_init 20 None true "current") "batch"
           (mkWorld running_logs [] [])).
  vm_compute. reflexivity.
Defined.

Lemma on_batch_training_completed_header_first_witness :
  true = true /\
  (w_stdout (snd (on_batch_training_completed
                    (LogProgress_init 20 None true "current") batch_of_tensors
                    (mkWorld running_logs [] []))) = [] \/
   exists rest more,
     w_stdout (snd (on_batch_training_completed
                      (LogProgress_init 20 None true "current") batch_of_tensors
                      (mkWorld running_logs [] [])))
     = ([] ++ (nl ++ "Epoch " ++ rest)%string :: more)%list)
  /\ (forall current batch_step,
        batch_level (LogProgress_init 20 None true "current") = true ->
        py_getitem running_logs "current" = Ok current ->
        py_getitem current "batch_step" = Ok batch_step ->
        py_eq batch_step (VInt 0) = true ->
        exists rest more,
          w_stdout (snd (on_batch_training_completed
                           (LogProgress_init 20 None true "current")
                           batch_of_tensors (mkWorld running_logs [] [])))
          = ([] ++ (nl ++ "Epoch " ++ rest)%string :: more)%list).
Proof.
  apply (@on_batch_training_completed_header_first int_builtins torch_batch
           (LogProgress_init 20 None true "current") batch_of_tensors
           (mkWorld running_logs [] [])).
  vm_compute. reflexivity.
Defined.

Lemma on_epoch_completed_banner_first_witness :
  exists more,
    w_stdout (snd (on_epoch_completed (LogProgress_init 20 None true "current")
                     (mkWorld (VDict [("current", VDict [])]) [] [])))
    = ([] ++
       nl :: "###############################################################################"
       :: nl :: more)%list.
Proof.
  apply (@on_epoch_completed_banner_first int_builtins
           (LogProgress_init 20 None true "current")
           (mkWorld (VDict [("current", VDict [])]) [] []) (VDict [])).
  reflexivity.
Defined.

Example on_epoch_completed_without_epoch :
  let out := on_epoch_completed (LogProgress_init 20 None true "current")
               (mkWorld (VDict [("current", VDict [])]) [] []) in
  fst out = Raise (KeyError "epoch") /\
  w_logs (snd out) = VDict [("current", VDict [])] /\
  w_stdout (snd out)
  = [nl; "###############################################################################"; nl].
Proof. vm_compute. repeat split. Qed.

(** ** More on the accessors: failure and composition *)

Lemma set_value_at_keys_raise_keeps_world p :
  forall tree v warn bp w e w',
    set_value_at_keys p tree v warn bp w = (Raise e, w') -> w' = w.
Proof.
  induction p as [|key p IH]; intros tree v warn bp w e w' H.
  - cbn [set_value_at_keys] in H.
    destruct (can_get_and_set_values tree); inversion H; reflexivity.
  - destruct p as [|key2 rest].
    + cbn [set_value_at_keys] in H.
      destruct (can_get_and_set_values tree); cbn [negb] in H;
        [|inversion H; reflexivity].
      unfold lift in H. inversion H; reflexivity.
    + rewrite set_value_at_keys_step in H. cbv zeta in H.
      destruct tree; cbn [can_get_and_set_values is_none negb andb] in H;
        try (inversion H; reflexivity).
      * (* a list *)
        destruct (has_key (VList items) key); cbn [negb] in H;
          unfold bind, lift, py_setitem, py_getitem, ret in H;
          inversion H; reflexivity.
      * rewrite has_key_dict in H.
        destruct (dict_lookup key entries) as [child|] eqn:E; cbn [negb] in H.
        -- unfold bind at 1 in H. unfold ret at 1 in H.
           unfold bind at 1 in H. unfold lift at 1 in H.
           cbn [py_getitem] in H. rewrite E in H.
           unfold bind at 1 in H.
           destruct (set_value_at_keys (key2 :: rest) child v warn _ w)
             as [[child'|e'] w1] eqn:Hrec.
           ++ unfold ret in H. discriminate H.
           ++ inversion H; subst. apply (IH _ _ _ _ _ _ _ Hrec).
        -- (* the segment is created, and below it nothing can fail *)
           exfalso.
           unfold bind at 1 in H. unfold bind at 1 in H. unfold lift at 1 in H.
           cbn [py_setitem] in H. unfold bind at 1 in H.
           destruct (when warn (logger_warn _) w) as [[[]|e0] w0] eqn:Hw;
             [|destruct warn; discriminate Hw].
           unfold ret at 1 in H.
           unfold bind at 1 in H. unfold lift at 1 in H. cbn [py_getitem] in H.
           rewrite dict_lookup_update_same in H.
           unfold bind at 1 in H.
           match type of H with
           | context [set_value_at_keys (key2 :: rest) (VDict []) v warn ?b w0] =>
               destruct (set_value_at_keys_succeeds (key2 :: rest)
                           ltac:(discriminate) (VDict []) v warn b w0
                           (mappings_along_empty _)) as (t & w1 & Hok)
           end.
           rewrite Hok in H. unfold ret in H. discriminate H.
Qed.

(** X22.  A [set_value_at] that raises has created nothing: no record
    about a created path has gone to the logger, the world is what it was
    before the call. *)
Theorem set_value_at_failure_logs_nothing :
  forall (key_path : string) (tree value : pyobj) (warn : bool)
         (base_path : option string) (w w' : world) (e : exn),
    set_value_at key_path tree value warn base_path w = (Raise e, w') ->
    w' = w.
Proof.
  intros key_path tree value warn base_path w w' e H.
  apply (set_value_at_keys_raise_keeps_world _ _ _ _ _ _ _ _ H).
Qed.

Lemma set_value_at_failure_logs_nothing_witness :
  snd (set_value_at "current.epoch.loss" running_logs (VInt 1) true None
         empty_world) = empty_world.
Proof.
  apply (set_value_at_failure_logs_nothing "current.epoch.loss" running_logs
           (VInt 1) true None empty_world _
           (PyException
              "Invalid path current.epoch, can't get or set keys for provided nested data variable")).
  reflexivity.
Defined.

Lemma split_dot_app_paths p q :
  split_dot (p ++ "." ++ q) = (split_dot p ++ split_dot q)%list.
Proof.
  induction p as [|c p IH].
  - reflexivity.
  - change ((String c p ++ "." ++ q)%string) with (String c (p ++ "." ++ q)).
    cbn [split_dot]. rewrite IH.
    destruct (Ascii.eqb c "."); [reflexivity|].
    destruct (split_dot p) as [|k ks] eqn:E; [|reflexivity].
    exfalso. exact (split_dot_nonempty _ E).
Qed.

Lemma get_value_at_loop_none key_path keys w :
  keys <> [] ->
  get_value_at_loop key_path false keys VNone w = (Ok VNone, w).
Proof. destruct keys; [congruence | reflexivity]. Qed.

(** Without warnings the key path itself plays no part in the loop. *)
Lemma get_value_at_loop_path_irrelevant key_path1 key_path2 keys :
  forall tree w,
    get_value_at_loop key_path1 false keys tree w
    = get_value_at_loop key_path2 false keys tree w.
Proof.
  induction keys as [|key keys IH]; intros tree w; cbn [get_value_at_loop].
  - reflexivity.
  - destruct (has_key tree key); [|reflexivity].
    unfold bind, lift. destruct (py_getitem tree key); [apply IH | reflexivity].
Qed.

Lemma get_value_at_loop_app key_path keys1 keys2 :
  keys2 <> [] ->
  forall tree w,
    get_value_at_loop key_path false (keys1 ++ keys2)%list tree w
    = match get_value_at_loop key_path false keys1 tree w with
      | (Ok v, w1) => get_value_at_loop key_path false keys2 v w1
      | (Raise e, w1) => (Raise e, w1)
      end.
Proof.
  intros Hne. induction keys1 as [|key keys1 IH]; intros tree w.
  - reflexivity.
  - cbn [app get_value_at_loop].
    destruct (has_key tree key).
    + unfold bind, lift. destruct (py_getitem tree key) as [child|e].
      * apply IH.
      * reflexivity.
    + cbn [when]. unfold bind, ret.
      rewrite (get_value_at_loop_none key_path keys2 w Hne). reflexivity.
Qed.

(** X23.  Key paths compose: looking up the path [p.q] is looking up
    [q] in what the lookup of [p] gives, a missing or [None] value
    included (lookups without warnings). *)
Theorem get_value_at_composes :
  forall (p q : string) (tree default : pyobj) (w : world),
    get_value_at (p ++ "." ++ q) tree default false w
    = (v <- get_value_at p tree VNone false ;;
       get_value_at q v default false) w.
Proof.
  intros p q tree default w.
  unfold get_value_at at 1. unfold bind at 1.
  rewrite split_dot_app_paths.
  rewrite (get_value_at_loop_app _ _ _ (split_dot_nonempty q)).
  rewrite (get_value_at_loop_path_irrelevant _ p).
  unfold bind at 1. unfold get_value_at at 1. unfold bind at 1.
  destruct (get_value_at_loop p false (split_dot p) tree w) as [[v|e] w1];
    [|reflexivity].
  rewrite (get_value_at_loop_path_irrelevant _ q).
  cbn [ret]. unfold get_value_at, bind.
  replace (if is_none v then VNone else v) with v by (destruct v; reflexivity).
  reflexivity.
Qed.

Example get_value_at_composes_on_logs :
  get_value_at "current.training.batch.loss" running_logs VNone false empty_world
  = (v <- get_value_at "current.training" running_logs VNone false ;;
     get_value_at "batch.loss" v VNone false) empty_world.
Proof. reflexivity. Qed.
